(** * AI_CHAT_BACKEND: provider adapters, result dictionaries and history store

    A shallow embedding of the Python sources (history.py, services/*.py,
    routers/history.py, routers/video.py) and the properties the
    specification states about them.

    Python values are embedded as [pyval]; a [str] is a [string], one
    [ascii] per character (code points below 256; literals that contain
    other characters appear as their UTF-8 bytes and are only ever used as
    opaque message text).  A dictionary returned by an adapter is a
    [gmap string pyval]; a dictionary decoded from JSON keeps its key
    order and is an association list.  Exceptions are values of [exn];
    code that may raise returns [exn + A].  Network access is explicit: an
    adapter operation is a computation in [Net], which threads the
    transport and the log of the requests that were sent. *)

From Stdlib Require Import ZArith String Ascii List DecimalString.
From Stdlib Require Import Sorting.Sorted Sorting.Permutation.
From Stdlib Require Import Floats.SpecFloat.
From stdpp Require Import base gmap strings list sorting.

#[local] Set Warnings "-register-all".
#[local] Open Scope Z_scope.

(* ===================================================================== *)
(** ** Python strings *)
(* ===================================================================== *)

Module Str.

(** [str.isspace] on one character. *)
Definition isspace (c : ascii) : bool :=
  let n := nat_of_ascii c in
  ((9 <=? n) && (n <=? 13) || (28 <=? n) && (n <=? 32)
   || (n =? 133) || (n =? 160))%nat.

Fixpoint lstrip (s : string) : string :=
  match s with
  | EmptyString => EmptyString
  | String c s' => if isspace c then lstrip s' else s
  end.

Fixpoint rstrip (s : string) : string :=
  match s with
  | EmptyString => EmptyString
  | String c s' =>
      match rstrip s' with
      | EmptyString => if isspace c then EmptyString else String c EmptyString
      | r => String c r
      end
  end.

(** [s.strip()] *)
Definition strip (s : string) : string := rstrip (lstrip s).

(** [s.startswith(p)] *)
Definition startswith (p s : string) : bool := String.prefix p s.

(** [sub in s] *)
Fixpoint contains (sub s : string) : bool :=
  String.prefix sub s ||
  match s with
  | EmptyString => false
  | String _ s' => contains sub s'
  end.

(** [s.split(sep)] for a one-character separator: never empty. *)
Fixpoint split (sep : ascii) (s : string) : list string :=
  match s with
  | EmptyString => [EmptyString]
  | String c s' =>
      if Ascii.eqb c sep then EmptyString :: split sep s'
      else match split sep s' with
           | h :: t => String c h :: t
           | [] => [String c EmptyString]
           end
  end.

(** [s.split(sep, 1)] *)
Fixpoint split1 (sep : ascii) (s : string) : list string :=
  match s with
  | EmptyString => [EmptyString]
  | String c s' =>
      if Ascii.eqb c sep then [EmptyString; s']
      else match split1 sep s' with
           | h :: t => String c h :: t
           | [] => [String c EmptyString]
           end
  end.

(** [s.rstrip(c)] for a one-character argument. *)
Fixpoint rstrip_char (x : ascii) (s : string) : string :=
  match s with
  | EmptyString => EmptyString
  | String c s' =>
      match rstrip_char x s' with
      | EmptyString => if Ascii.eqb c x then EmptyString else String c EmptyString
      | r => String c r
      end
  end.

(** [s[n:]] *)
Fixpoint drop (n : nat) (s : string) : string :=
  match n, s with
  | O, _ => s
  | S _, EmptyString => EmptyString
  | S n', String _ s' => drop n' s'
  end.

(** [s.upper()] and [s.lower()] on the letters a-z and A-Z; the lookups
    below compare the result with keys made of ASCII digits and letters
    only. *)
Definition upper_char (c : ascii) : ascii :=
  let n := nat_of_ascii c in
  if ((97 <=? n) && (n <=? 122))%nat then ascii_of_nat (n - 32) else c.

Definition lower_char (c : ascii) : ascii :=
  let n := nat_of_ascii c in
  if ((65 <=? n) && (n <=? 90))%nat then ascii_of_nat (n + 32) else c.

Fixpoint map (f : ascii -> ascii) (s : string) : string :=
  match s with
  | EmptyString => EmptyString
  | String c s' => String (f c) (map f s')
  end.

Definition upper : string -> string := map upper_char.
Definition lower : string -> string := map lower_char.

(** ["".join(s.split())]: every whitespace character removed. *)
Fixpoint remove_whitespace (s : string) : string :=
  match s with
  | EmptyString => EmptyString
  | String c s' =>
      if isspace c then remove_whitespace s' else String c (remove_whitespace s')
  end.

(** [str(n)] for an integer. *)
Definition of_Z (z : Z) : string := NilEmpty.string_of_int (Z.to_int z).

Definition is_empty (s : string) : bool :=
  match s with EmptyString => true | _ => false end.

End Str.

(* ===================================================================== *)
(** ** Python values, exceptions and the operations the adapters use *)
(* ===================================================================== *)

Inductive pyval : Type :=
| VNone
| VBool (b : bool)
| VInt (z : Z)
| VFloat (f : spec_float)
| VStr (s : string)
| VList (l : list pyval)
| VDict (d : list (string * pyval)).

Inductive exn_class : Set :=
| HttpxTimeoutException   (* httpx.TimeoutException and its subclasses *)
| TimeoutError            (* the built-in TimeoutError *)
| KeyError
| IndexError
| AttributeError
| TypeError
| ValueError
| OverflowError
| OtherException.         (* any other subclass of Exception *)

(** An exception: its class and what [str(exc)] gives. *)
Record exn : Type := Exn { exn_class_of : exn_class; exn_str : string }.

(** Sequencing of code that may raise. *)
Definition bind_exn {A B : Type} (m : exn + A) (f : A -> exn + B) : exn + B :=
  match m with
  | inl e => inl e
  | inr x => f x
  end.

Notation "'let*' x ':=' e 'in' k" :=
  (bind_exn e (fun x => k))
  (at level 10, x pattern, e at level 100, k at level 200).

Module Py.

Definition type_name (v : pyval) : string :=
  match v with
  | VNone => "NoneType" | VBool _ => "bool" | VInt _ => "int"
  | VFloat _ => "float" | VStr _ => "str" | VList _ => "list"
  | VDict _ => "dict"
  end.

(** [bool(v)] *)
Definition truthy (v : pyval) : bool :=
  match v with
  | VNone => false
  | VBool b => b
  | VInt z => negb (z =? 0)
  | VFloat (S754_zero _) => false
  | VFloat _ => true
  | VStr s => negb (Str.is_empty s)
  | VList l => match l with [] => false | _ => true end
  | VDict d => match d with [] => false | _ => true end
  end.

(** [a or b] *)
Definition or_ (a b : pyval) : pyval := if truthy a then a else b.

(** [v == "lit"] *)
Definition eq_str (v : pyval) (lit : string) : bool :=
  match v with VStr s => String.eqb s lit | _ => false end.

Fixpoint assoc (k : string) (d : list (string * pyval)) : option pyval :=
  match d with
  | [] => None
  | (k', v) :: d' => if String.eqb k' k then Some v else assoc k d'
  end.

Definition no_attribute (v : pyval) (attr : string) : exn :=
  Exn AttributeError
      ("'" +:+ type_name v +:+ "' object has no attribute '" +:+ attr +:+ "'").

Definition not_subscriptable (v : pyval) : exn :=
  Exn TypeError ("'" +:+ type_name v +:+ "' object is not subscriptable").

(** [v.get(k, default)] *)
Definition get (v : pyval) (k : string) (default : pyval) : exn + pyval :=
  match v with
  | VDict d => inr (match assoc k d with Some x => x | None => default end)
  | _ => inl (no_attribute v "get")
  end.

(** [v[0]] *)
Definition item0 (v : pyval) : exn + pyval :=
  match v with
  | VList [] => inl (Exn IndexError "list index out of range")
  | VList (x :: _) => inr x
  | VStr EmptyString => inl (Exn IndexError "string index out of range")
  | VStr (String c _) => inr (VStr (String c EmptyString))
  | VDict _ => inl (Exn KeyError "0")
  | _ => inl (not_subscriptable v)
  end.

(** [v["k"]] *)
Definition item (v : pyval) (k : string) : exn + pyval :=
  match v with
  | VDict d =>
      match assoc k d with
      | Some x => inr x
      | None => inl (Exn KeyError ("'" +:+ k +:+ "'"))
      end
  | VList _ => inl (Exn TypeError "list indices must be integers or slices, not str")
  | VStr _ => inl (Exn TypeError "string indices must be integers, not 'str'")
  | _ => inl (not_subscriptable v)
  end.

(** ["k" in v] *)
Definition contains (k : string) (v : pyval) : exn + bool :=
  match v with
  | VDict d => inr (match assoc k d with Some _ => true | None => false end)
  | VList l => inr (existsb (fun x => eq_str x k) l)
  | VStr s => inr (Str.contains k s)
  | _ => inl (Exn TypeError
                  ("argument of type '" +:+ type_name v +:+ "' is not iterable"))
  end.

Fixpoint chars_of (s : string) : list pyval :=
  match s with
  | EmptyString => []
  | String c s' => VStr (String c EmptyString) :: chars_of s'
  end.

(** the elements [for x in v] visits *)
Definition iter (v : pyval) : exn + list pyval :=
  match v with
  | VList l => inr l
  | VStr s => inr (chars_of s)
  | VDict d => inr (List.map (fun kv => VStr (fst kv)) d)
  | _ => inl (Exn TypeError ("'" +:+ type_name v +:+ "' object is not iterable"))
  end.

End Py.

(** What the model takes from the interpreter and its libraries as given. *)
Class PyBuiltins : Type := {
  (* [str(v)], as f-strings apply it *)
  py_str : pyval -> string;
  (* [int(s)] on a [str]; [None] stands for the [ValueError] *)
  py_int : string -> option Z;
  (* [int(round(a / b))] for integers [a] and [b]: float division, then
     rounding to the nearest integer *)
  py_round_div : Z -> Z -> Z;
  (* [f"{n / (1024*1024):.<digits>f}"] *)
  py_fmt_mib : Z -> nat -> string;
  (* [json.dumps(v)] *)
  json_dumps : pyval -> string;
  (* [json.loads(s)] *)
  json_loads : string -> exn + pyval;
  (* [base64.b64encode(data).decode('utf-8')] *)
  b64encode : string -> string
}.

(* ===================================================================== *)
(** ** The network: requests, responses and the [Net] computations *)
(* ===================================================================== *)

Record Request : Type := mkRequest {
  req_method : string;
  req_url : string;
  req_headers : list (string * string);
  req_params : list (string * string);
  (* the JSON body: the [json=] argument of httpx, or the payload whose
     [json.dumps] text is handed to [http.client] *)
  req_json : option pyval;
  req_timeout : Z
}.

Record Response : Type := mkResponse {
  status_code : Z;
  text : string;
  (* what decoding the body as JSON gives: the value, or the exception *)
  json : exn + pyval
}.

(** What sending a request leads to. *)
Inductive Outcome : Type :=
| Responded (r : Response)
| Raised (e : exn).

Definition Transport : Type := Request -> Outcome.

(** A computation that may send requests: it reads the transport and
    extends the log of requests sent so far. *)
Definition Net (A : Type) : Type := Transport -> list Request -> A * list Request.

Module Net.
Definition ret {A} (x : A) : Net A := fun _ log => (x, log).
Definition bind {A B} (m : Net A) (f : A -> Net B) : Net B :=
  fun net log => let '(x, log') := m net log in f x net log'.
(** one call of [client.post], [client.get] or [conn.request] *)
Definition send (r : Request) : Net Outcome := fun net log => (net r, log ++ [r]).
Definition run {A} (m : Net A) (net : Transport) : A * list Request := m net [].
End Net.

(** The body of an outcome inside a [try]: the response, or the raise. *)
Definition response_of (o : Outcome) : exn + Response :=
  match o with
  | Responded r => inr r
  | Raised e => inl e
  end.

(** [try: body except ... as e: handler(e)] *)
Definition try_except {A} (body : exn + A) (handler : exn -> A) : A :=
  match body with
  | inr x => x
  | inl e => handler e
  end.

(** A dictionary literal. *)
Definition dict (l : list (string * pyval)) : gmap string pyval := list_to_map l.

(** [if not self.api_key]: the key when it is configured. *)
Definition configured (key : option string) : option string :=
  match key with
  | Some s => if Str.is_empty s then None else Some s
  | None => None
  end.

Definition bearer_headers (key : string) : list (string * string) :=
  [("Authorization", "Bearer " +:+ key); ("Content-Type", "application/json")].

Definition bearer_accept_headers (key : string) : list (string * string) :=
  [("Authorization", "Bearer " +:+ key); ("Content-Type", "application/json");
   ("Accept", "application/json")].

(* ===================================================================== *)
(** ** services/dalle.py *)
(* ===================================================================== *)

Module DalleService.

Record t : Type := { api_key : option string; base_url : string }.

Definition init (api_key : option string) : t :=
  {| api_key := api_key;
     base_url := "https://api.openai.com/v1/images/generations" |}.

Definition parse (size quality : string) (r : Response) : exn + gmap string pyval :=
  if status_code r =? 200 then
    let* data := json r in
    let* images := Py.item data "data" in
    let* first := Py.item0 images in
    let* url := Py.item first "url" in
    let* images' := Py.item data "data" in
    let* first' := Py.item0 images' in
    let* revised := Py.get first' "revised_prompt" VNone in
    inr (dict [("success", VBool true);
                ("image_url", url);
                ("metadata", VDict [("revised_prompt", revised);
                                    ("size", VStr size);
                                    ("quality", VStr quality)])])
  else
    inr (dict [("success", VBool false);
                ("error", VStr ("DALL-E API error: " +:+ Str.of_Z (status_code r)
                                +:+ " - " +:+ text r))]).

Definition generate_image (self : t) (prompt size quality : string) (n : Z)
  : Net (gmap string pyval) :=
  match configured (api_key self) with
  | None =>
      Net.ret (dict [("success", VBool false);
                     ("error", VStr "DALL-E API key not configured")])
  | Some key =>
      Net.bind
        (Net.send (mkRequest "POST" (base_url self) (bearer_headers key) []
                     (Some (VDict [("model", VStr "dall-e-3");
                                   ("prompt", VStr prompt);
                                   ("size", VStr size);
                                   ("quality", VStr quality);
                                   ("n", VInt n)])) 180))
        (fun out =>
           Net.ret (try_except (bind_exn (response_of out) (parse size quality))
                      (fun e => dict [("success", VBool false);
                                      ("error", VStr ("DALL-E generation failed: "
                                                      +:+ exn_str e))])))
  end.

End DalleService.

(* ===================================================================== *)
(** ** services/stable_diffusion.py *)
(* ===================================================================== *)

Module StableDiffusionService.

Record t : Type := { api_key : option string; base_url : string }.

Definition init (api_key : option string) : t :=
  {| api_key := api_key;
     base_url := "https://api.stability.ai/v1/generation/stable-diffusion-xl-1024-v1-0/text-to-image" |}.

Definition parse (width height steps : Z) (r : Response) : exn + gmap string pyval :=
  if status_code r =? 200 then
    let* data := json r in
    let* artifacts := Py.item data "artifacts" in
    let* first := Py.item0 artifacts in
    let* b64 := Py.item first "base64" in
    let* artifacts' := Py.item data "artifacts" in
    let* first' := Py.item0 artifacts' in
    let* seed := Py.get first' "seed" VNone in
    inr (dict [("success", VBool true);
                ("image_data", b64);
                ("metadata", VDict [("width", VInt width);
                                    ("height", VInt height);
                                    ("steps", VInt steps);
                                    ("seed", seed)])])
  else
    inr (dict [("success", VBool false);
                ("error", VStr ("Stability AI error: " +:+ Str.of_Z (status_code r)
                                +:+ " - " +:+ text r))]).

Definition generate_image (self : t) (prompt : string) (width height steps : Z)
  : Net (gmap string pyval) :=
  match configured (api_key self) with
  | None =>
      Net.ret (dict [("success", VBool false);
                     ("error", VStr "Stability AI API key not configured")])
  | Some key =>
      Net.bind
        (Net.send (mkRequest "POST" (base_url self) (bearer_accept_headers key) []
                     (Some (VDict [("text_prompts",
                                    VList [VDict [("text", VStr prompt);
                                                  ("weight", VInt 1)]]);
                                   ("cfg_scale", VInt 7);
                                   ("height", VInt height);
                                   ("width", VInt width);
                                   ("steps", VInt steps);
                                   ("samples", VInt 1)])) 180))
        (fun out =>
           Net.ret (try_except (bind_exn (response_of out) (parse width height steps))
                      (fun e => dict [("success", VBool false);
                                      ("error", VStr ("Stable Diffusion generation failed: "
                                                      +:+ exn_str e))])))
  end.

End StableDiffusionService.

(** [for x in l: state = f(state, x)], where [f] may raise. *)
Fixpoint fold_exn {S A : Type} (f : S -> A -> exn + S) (s : S) (l : list A) : exn + S :=
  match l with
  | [] => inr s
  | x :: l' => let* s' := f s x in fold_exn f s' l'
  end.

Definition str_in (s : string) (l : list string) : bool :=
  existsb (String.eqb s) l.

(* ===================================================================== *)
(** ** services/gemini_image.py *)
(* ===================================================================== *)

Module GeminiImageService.

Record t : Type := {
  api_key : option string;
  base_url : string;
  model : string;
  auth_mode : string;
  endpoint : string
}.

Definition init (api_key : option string) (base_url model : string)
                (auth_mode : option string) : t :=
  let requested :=
    Str.lower (Str.strip (match configured auth_mode with
                          | Some m => m
                          | None => "auto"
                          end)) in
  let requested :=
    if str_in requested ["auto"; "x-goog"; "bearer"] then requested else "auto" in
  {| api_key := api_key;
     base_url := base_url;
     model := model;
     auth_mode :=
       if String.eqb requested "auto" then
         match configured api_key with
         | Some k => if Str.startswith "sk-" k then "bearer" else "x-goog"
         | None => "x-goog"
         end
       else requested;
     endpoint := base_url +:+ "/v1beta/models/" +:+ model +:+ ":generateContent" |}.

Definition default_mime : string := "image/jpeg".

Definition _split_reference_image (reference_image : string) : exn + (string * string) :=
  if Str.is_empty reference_image then inr (default_mime, "")
  else
    let ref := Str.strip reference_image in
    if Str.startswith "data:" ref then
      match Str.split1 "," ref with
      | [header; base64_data] =>
          match Str.split ":" (hd "" (Str.split ";" header)) with
          | _ :: m :: _ =>
              inr (if Str.is_empty m then default_mime else m, base64_data)
          | _ => inl (Exn IndexError "list index out of range")
          end
      | _ => inr (default_mime, ref)   (* except ValueError *)
      end
    else inr (default_mime, ref).

Definition _prepare_reference_part (reference_image : string) : exn + pyval :=
  let* (mime_type, data) := _split_reference_image reference_image in
  inr (VDict [("inline_data", VDict [("mime_type", VStr mime_type);
                                       ("data", VStr data)])]).

Definition request_body (self : t) (prompt aspect_ratio image_size : string)
                        (reference_image : option string) : exn + pyval :=
  let* parts := match configured reference_image with
                | Some ref =>
                    let* part := _prepare_reference_part ref in
                    inr [VDict [("text", VStr prompt)]; part]
                | None => inr [VDict [("text", VStr prompt)]]
                end in
  let contents := ("contents", VList [VDict [("parts", VList parts)]]) in
  inr (VDict
          (if Str.contains "gemini-3-pro" (model self) then
             [contents;
              ("generationConfig",
               VDict [("responseModalities", VList [VStr "TEXT"; VStr "IMAGE"]);
                      ("imageConfig", VDict [("aspectRatio", VStr aspect_ratio);
                                             ("imageSize", VStr image_size)])])]
           else [contents])).

Definition headers (self : t) (key : string) : list (string * string) :=
  if String.eqb (auth_mode self) "bearer"
  then [("Content-Type", "application/json"); ("Authorization", "Bearer " +:+ key)]
  else [("Content-Type", "application/json"); ("x-goog-api-key", key)].

(** One turn of the loop over the parts of the first candidate; the
    state is [(image_data, text_response, image_mime)]. *)
Definition scan_part (st : pyval * pyval * pyval) (part : pyval)
  : exn + (pyval * pyval * pyval) :=
  let '(image_data, text_response, image_mime) := st in
  let* camel := Py.contains "inlineData" part in
  let* has_inline := (if camel then inr true else Py.contains "inline_data" part) in
  if has_inline then
    let* a := Py.get part "inlineData" VNone in
    let* inline := (if Py.truthy a then inr a else Py.get part "inline_data" VNone) in
    if Py.truthy inline then
      let* data := Py.get inline "data" VNone in
      let* m1 := Py.get inline "mimeType" VNone in
      let* mime := (if Py.truthy m1 then inr m1
                    else let* m2 := Py.get inline "mime_type" VNone in
                         inr (Py.or_ m2 image_mime)) in
      inr (data, text_response, mime)
    else inr st
  else
    let* has_text := Py.contains "text" part in
    if has_text then
      let* t := Py.item part "text" in
      inr (image_data, t, image_mime)
    else inr st.

(** The inner [try] block of the 200 branch. *)
Definition parse_candidates (self : t) (aspect_ratio image_size : string)
                            (data : pyval) : exn + gmap string pyval :=
  let* candidates := Py.get data "candidates" (VList []) in
  if negb (Py.truthy candidates) then
    inr (dict [("success", VBool false);
                ("message", VStr "No candidates in response")])
  else
    let* first := Py.item0 candidates in
    let* content := Py.get first "content" (VDict []) in
    let* parts := Py.get content "parts" (VList []) in
    let* elems := Py.iter parts in
    let* (image_data, text_response, image_mime) :=
       fold_exn scan_part (VNone, VNone, VNone) elems in
    if Py.truthy image_data then
      inr (dict [("success", VBool true);
                  ("image_data", image_data);
                  ("text", text_response);
                  ("message", VStr ("图片生成成功 (" +:+ aspect_ratio +:+ ", "
                                    +:+ image_size +:+ ")"));
                  ("metadata", VDict [("aspect_ratio", VStr aspect_ratio);
                                      ("image_size", VStr image_size);
                                      ("model", VStr (model self));
                                      ("mime_type",
                                       Py.or_ image_mime (VStr "image/png"))])])
    else
      inr (dict [("success", VBool false);
                  ("message", VStr "No image data in response");
                  ("raw_response", data)]).

Definition parse (self : t) (aspect_ratio image_size : string) (r : Response)
  : exn + gmap string pyval :=
  if status_code r =? 200 then
    let* data := json r in
    match parse_candidates self aspect_ratio image_size data with
    | inr res => inr res
    | inl e =>
        match exn_class_of e with
        | KeyError | IndexError =>
            inr (dict [("success", VBool false);
                       ("message", VStr ("Failed to parse response: " +:+ exn_str e));
                       ("raw_response", data)])
        | _ => inl e
        end
    end
  else
    inr (dict [("success", VBool false);
                ("message", VStr ("Gemini API error: " +:+ Str.of_Z (status_code r)
                                  +:+ " - " +:+ text r))]).

Definition on_error (e : exn) : gmap string pyval :=
  match exn_class_of e with
  | HttpxTimeoutException =>
      dict [("success", VBool false);
            ("message", VStr "Request timeout. Try using a lower resolution (1K or 2K)")]
  | _ =>
      dict [("success", VBool false);
            ("message", VStr ("Gemini image generation failed: " +:+ exn_str e))]
  end.

Definition generate_image (self : t) (prompt aspect_ratio image_size : string)
                          (reference_image : option string)
  : Net (gmap string pyval) :=
  match configured (api_key self) with
  | None =>
      Net.ret (dict [("success", VBool false);
                     ("message", VStr "Gemini API key not configured")])
  | Some key =>
      match request_body self prompt aspect_ratio image_size reference_image with
      | inl e => Net.ret (on_error e)
      | inr body =>
          Net.bind
            (Net.send (mkRequest "POST" (endpoint self) (headers self key) []
                         (Some body) 180))
            (fun out =>
               Net.ret (try_except
                          (bind_exn (response_of out) (parse self aspect_ratio image_size))
                          on_error))
      end
  end.

End GeminiImageService.

(* ===================================================================== *)
(** ** services/doubao_image.py *)
(* ===================================================================== *)

Module DoubaoImageService.

Record t : Type := {
  api_key : option string;
  base_url : string;
  model : string;
  endpoint : string
}.

Definition init (api_key : option string) (base_url model : string) : t :=
  let base := Str.rstrip_char "/" base_url in
  {| api_key := api_key;
     base_url := base;
     model := model;
     endpoint := base +:+ "/v1/images/generations" |}.

Definition _ensure_data_url (value : string) : string :=
  if Str.is_empty value then value
  else
    let trimmed := Str.strip value in
    if Str.startswith "data:" trimmed then trimmed
    else "data:image/png;base64," +:+ trimmed.

(** A reference is one string or a list of strings. *)
Definition _format_image_input (reference : string + list string) : pyval :=
  match reference with
  | inr items =>
      VList (List.map (fun item => VStr (_ensure_data_url item))
                      (List.filter (fun item => negb (Str.is_empty item)) items))
  | inl value => VStr (_ensure_data_url value)
  end.

(** [base_map.get(image_size.upper(), 1024)] *)
Definition base_value (image_size : string) : Z :=
  let key := Str.upper image_size in
  if String.eqb key "1K" then 1024
  else if String.eqb key "2K" then 2048
  else if String.eqb key "4K" then 4096
  else 1024.

Section Size.
Context `{PyBuiltins}.

Definition _parse_ratio (ratio : string) : Z * Z :=
  match Str.split ":" ratio with
  | p0 :: p1 :: _ =>
      match py_int p0, py_int p1 with
      | Some w, Some h => (Z.max 1 w, Z.max 1 h)
      | _, _ => (1, 1)
      end
  | _ => (1, 1)
  end.

(** The width and height [_build_size] computes before it formats them. *)
Definition build_dimensions (aspect_ratio image_size : string) : Z * Z :=
  let base := base_value image_size in
  let '(width_ratio, height_ratio) := _parse_ratio aspect_ratio in
  let '(width, height) :=
    if height_ratio <=? width_ratio then
      (base, Z.max 512 (py_round_div (base * height_ratio) (Z.max width_ratio 1)))
    else
      (Z.max 512 (py_round_div (base * width_ratio) (Z.max height_ratio 1)), base) in
  (Z.max 512 (Z.min 4096 width), Z.max 512 (Z.min 4096 height)).

Definition _build_size (aspect_ratio image_size : string) : string :=
  let '(width, height) := build_dimensions aspect_ratio image_size in
  Str.of_Z width +:+ "x" +:+ Str.of_Z height.

Definition reference_truthy (reference : option (string + list string)) : bool :=
  match reference with
  | None => false
  | Some (inl s) => negb (Str.is_empty s)
  | Some (inr l) => match l with [] => false | _ => true end
  end.

Definition payload (self : t) (prompt aspect_ratio image_size : string)
                   (reference_image : option (string + list string))
                   (response_format sequential_mode : string) (max_images : Z)
                   (watermark : bool) (size_override : option string) : pyval :=
  VDict
    ([("model", VStr (model self));
      ("prompt", VStr prompt);
      ("response_format", VStr response_format);
      ("sequential_image_generation", VStr sequential_mode);
      ("watermark", VBool watermark);
      ("size", VStr (match configured size_override with
                     | Some s => s
                     | None => _build_size aspect_ratio image_size
                     end))]
     ++ (if String.eqb sequential_mode "auto" then
           [("sequential_image_generation_options",
             VDict [("max_images", VInt (Z.max 1 (Z.min 15 max_images)))])]
         else [])
     ++ (match reference_image with
         | Some reference =>
             if reference_truthy reference_image then
               let formatted := _format_image_input reference in
               if Py.truthy formatted then [("image", formatted)] else []
             else []
         | None => []
         end)).

Definition metadata (self : t) (aspect_ratio image_size : string) (mime_type : pyval)
  : pyval :=
  VDict [("aspect_ratio", VStr aspect_ratio);
         ("image_size", VStr image_size);
         ("model", VStr (model self));
         ("service", VStr "doubao-image");
         ("mime_type", mime_type)].

Definition parse (self : t) (aspect_ratio image_size : string) (r : Response)
  : exn + gmap string pyval :=
  if negb (status_code r =? 200) then
    inr (dict [("success", VBool false);
               ("message", VStr ("Doubao API error: " +:+ Str.of_Z (status_code r)
                                 +:+ " - " +:+ text r))])
  else
    let* data := json r in
    let* images := Py.get data "data" (VList []) in
    if negb (Py.truthy images) then
      inr (dict [("success", VBool false);
                 ("message", VStr "Doubao API returned no images");
                 ("raw_response", data)])
    else
      let* first_image := Py.item0 images in
      let* b64 := Py.get first_image "b64_json" VNone in
      let image_data :=
        match b64 with
        | VStr s => if Str.is_empty s then b64 else VStr (Str.remove_whitespace s)
        | _ => b64
        end in
      let* image_url := Py.get first_image "url" VNone in
      let* mime := Py.get first_image "mime_type" VNone in
      let mime_type := Py.or_ mime (VStr "image/jpeg") in
      if Py.truthy image_data then
        inr (dict [("success", VBool true);
                   ("image_data", image_data);
                   ("message", VStr "豆包图片生成成功");
                   ("metadata", metadata self aspect_ratio image_size mime_type)])
      else if Py.truthy image_url then
        inr (dict [("success", VBool true);
                   ("image_url", image_url);
                   ("message", VStr "豆包图片生成成功（URL）");
                   ("metadata", metadata self aspect_ratio image_size mime_type)])
      else
        inr (dict [("success", VBool false);
                   ("message", VStr "Unknown response format");
                   ("raw_response", data)]).

Definition on_error (e : exn) : gmap string pyval :=
  match exn_class_of e with
  | HttpxTimeoutException =>
      dict [("success", VBool false);
            ("message", VStr "Doubao request timed out. Try a smaller size.")]
  | _ =>
      dict [("success", VBool false);
            ("message", VStr ("Doubao image generation failed: " +:+ exn_str e))]
  end.

Definition generate_image (self : t) (prompt aspect_ratio image_size : string)
                          (reference_image : option (string + list string))
                          (response_format sequential_mode : string)
                          (max_images : Z) (watermark : bool)
                          (size_override : option string)
  : Net (gmap string pyval) :=
  match configured (api_key self) with
  | None =>
      Net.ret (dict [("success", VBool false);
                     ("message", VStr "Doubao API key not configured")])
  | Some key =>
      Net.bind
        (Net.send (mkRequest "POST" (endpoint self) (bearer_headers key) []
                     (Some (payload self prompt aspect_ratio image_size
                              reference_image response_format sequential_mode
                              max_images watermark size_override)) 180))
        (fun out =>
           Net.ret (try_except
                      (bind_exn (response_of out) (parse self aspect_ratio image_size))
                      on_error))
  end.

End Size.

End DoubaoImageService.

(* ===================================================================== *)
(** ** services/chat_service.py and services/mimo_chat.py *)
(* ===================================================================== *)

Module ChatService.

Record t : Type := { api_key : option string; base_url : string; model : string }.

Definition init (api_key : option string) (base_url model : string) : t :=
  {| api_key := api_key; base_url := Str.rstrip_char "/" base_url; model := model |}.

Definition parse (r : Response) : exn + gmap string pyval :=
  if status_code r =? 200 then
    let* data := json r in
    let* choices := Py.item data "choices" in
    let* first := Py.item0 choices in
    let* message := Py.item first "message" in
    let* content := Py.item message "content" in
    inr (dict [("success", VBool true); ("message", content); ("data", data)])
  else
    inr (dict [("success", VBool false);
               ("message", VStr ("API Error: " +:+ Str.of_Z (status_code r)
                                 +:+ " - " +:+ text r))]).

Definition chat_completion (self : t) (messages : pyval) (model_override : option string)
  : Net (gmap string pyval) :=
  match configured (api_key self) with
  | None =>
      Net.ret (dict [("success", VBool false);
                     ("message", VStr "API key not configured")])
  | Some key =>
      let target_model :=
        match configured model_override with Some m => m | None => model self end in
      Net.bind
        (Net.send (mkRequest "POST" (base_url self +:+ "/chat/completions")
                     [("Content-Type", "application/json");
                      ("Authorization", "Bearer " +:+ key)]
                     []
                     (Some (VDict [("model", VStr target_model);
                                   ("messages", messages)])) 180))
        (fun out =>
           Net.ret (try_except (bind_exn (response_of out) parse)
                      (fun e => dict [("success", VBool false);
                                      ("message", VStr ("Request failed: "
                                                        +:+ exn_str e))])))
  end.

End ChatService.

Module MimoChatService.

Record t : Type := {
  api_key : option string;
  base_url : string;
  model : string;
  temperature : spec_float;
  top_p : spec_float;
  max_completion_tokens : Z;
  endpoint : string
}.

Definition init (api_key : option string) (base_url model : string)
                (temperature top_p : spec_float) (max_completion_tokens : Z) : t :=
  let base := Str.rstrip_char "/" base_url in
  {| api_key := api_key; base_url := base; model := model;
     temperature := temperature; top_p := top_p;
     max_completion_tokens := max_completion_tokens;
     endpoint := base +:+ "/chat/completions" |}.

Definition parse (r : Response) : exn + gmap string pyval :=
  if status_code r =? 200 then
    let* data := json r in
    let* choices := Py.get data "choices" (VList [VDict []]) in
    let* first := Py.item0 choices in
    let* message := Py.get first "message" (VDict []) in
    let* content := Py.get message "content" (VStr "") in
    inr (dict [("success", VBool true); ("message", content); ("data", data)])
  else
    inr (dict [("success", VBool false);
               ("message", VStr ("MiMO API error: " +:+ Str.of_Z (status_code r)
                                 +:+ " - " +:+ text r))]).

Definition on_error (e : exn) : gmap string pyval :=
  match exn_class_of e with
  | HttpxTimeoutException =>
      dict [("success", VBool false); ("message", VStr "MiMO request timed out")]
  | _ =>
      dict [("success", VBool false);
            ("message", VStr ("MiMO request failed: " +:+ exn_str e))]
  end.

Definition chat_completion (self : t) (messages : pyval) (model_override : option string)
  : Net (gmap string pyval) :=
  match configured (api_key self) with
  | None =>
      Net.ret (dict [("success", VBool false);
                     ("message", VStr "MiMO API key not configured")])
  | Some key =>
      Net.bind
        (Net.send (mkRequest "POST" (endpoint self)
                     [("Content-Type", "application/json");
                      ("Authorization", "Bearer " +:+ key)]
                     []
                     (Some (VDict
                              [("model", VStr (match configured model_override with
                                               | Some m => m
                                               | None => model self
                                               end));
                               ("messages", messages);
                               ("max_completion_tokens", VInt (max_completion_tokens self));
                               ("temperature", VFloat (temperature self));
                               ("top_p", VFloat (top_p self));
                               ("stream", VBool false);
                               ("frequency_penalty", VInt 0);
                               ("presence_penalty", VInt 0);
                               ("extra_body",
                                VDict [("thinking", VDict [("type", VStr "disabled")])])])) 180))
        (fun out => Net.ret (try_except (bind_exn (response_of out) parse) on_error))
  end.

End MimoChatService.

(* ===================================================================== *)
(** ** services/sora_video.py and services/veo_video.py *)
(* ===================================================================== *)

Definition str_list (l : list string) : pyval := VList (List.map VStr l).

Definition opt_bool (o : option bool) : pyval :=
  match o with Some b => VBool b | None => VNone end.

(** The part of [query_video] after [data = response.json()], shared in
    shape by both providers; [done_message] is the provider's text for a
    completed video. *)
Section QueryResult.
Context `{PyBuiltins}.

Definition query_result (done_message : string) (task_id : string) (data : pyval)
  : exn + gmap string pyval :=
  let* status := Py.get data "status" (VStr "unknown") in
  let* video_url := Py.get data "video_url" VNone in
  let* enhanced_prompt := Py.get data "enhanced_prompt" VNone in
  let result : gmap string pyval :=
    dict [("success", VBool true);
          ("task_id", VStr task_id);
          ("status", status);
          ("enhanced_prompt", enhanced_prompt)] in
  inr (if Py.eq_str status "completed" && Py.truthy video_url then
         <["message" := VStr done_message]> (<["video_url" := video_url]> result)
       else if Py.eq_str status "failed" then
         <["message" := VStr "视频生成失败"]> (<["success" := VBool false]> result)
       else if Py.eq_str status "pending" then
         <["message" := VStr "视频正在排队中..."]> result
       else if Py.eq_str status "processing" then
         <["message" := VStr "视频正在生成中..."]> result
       else
         <["message" := VStr ("状态: " +:+ py_str status)]> result).

End QueryResult.

Module SoraVideoService.

Record t : Type := {
  api_key : option string;
  base_url : string;
  model : string;
  create_endpoint : string;
  query_endpoint : string
}.

Definition init (api_key : option string) (base_url model : string) : t :=
  let base := Str.rstrip_char "/" base_url in
  {| api_key := api_key; base_url := base; model := model;
     create_endpoint := base +:+ "/v1/video/create";
     query_endpoint := base +:+ "/v1/video/query" |}.

(** [if orientation not in ("portrait", "landscape"): orientation = "landscape"] *)
Definition valid_orientation (orientation : option string) : string :=
  match orientation with
  | Some o => if str_in o ["portrait"; "landscape"] then o else "landscape"
  | None => "landscape"
  end.

(** [if duration not in (15, 25): duration = 15] *)
Definition valid_duration (duration : option Z) : Z :=
  match duration with
  | Some d => if (d =? 15) || (d =? 25) then d else 15
  | None => 15
  end.

Definition create_payload (self : t) (prompt : string) (orientation : option string)
                          (duration : option Z) (watermark private : bool)
                          (images : option (list string)) : pyval :=
  VDict [("model", VStr (model self));
         ("prompt", VStr prompt);
         ("orientation", VStr (valid_orientation orientation));
         ("size", VStr "large");
         ("duration", VInt (valid_duration duration));
         ("watermark", VBool watermark);
         ("private", VBool private);
         ("images", str_list (match images with Some l => l | None => [] end))].

Definition parse_create (self : t) (prompt : string) (orientation : string)
                        (duration : Z) (r : Response) : exn + gmap string pyval :=
  if negb (status_code r =? 200) then
    inr (dict [("success", VBool false);
               ("message", VStr ("Sora API error: " +:+ Str.of_Z (status_code r)
                                 +:+ " - " +:+ text r))])
  else
    let* data := json r in
    let* task_id := Py.get data "id" VNone in
    let* status := Py.get data "status" (VStr "pending") in
    if negb (Py.truthy task_id) then
      inr (dict [("success", VBool false);
                 ("message", VStr "No task ID returned from API");
                 ("raw_response", data)])
    else
      inr (dict [("success", VBool true);
                 ("task_id", task_id);
                 ("status", status);
                 ("message", VStr "视频生成任务已创建");
                 ("metadata", VDict [("model", VStr (model self));
                                     ("orientation", VStr orientation);
                                     ("duration", VInt duration);
                                     ("prompt", VStr prompt)])]).

Definition on_create_error (e : exn) : gmap string pyval :=
  match exn_class_of e with
  | HttpxTimeoutException =>
      dict [("success", VBool false);
            ("message", VStr "Sora request timed out. Please try again.")]
  | _ =>
      dict [("success", VBool false);
            ("message", VStr ("Sora video creation failed: " +:+ exn_str e))]
  end.

Definition create_video (self : t) (prompt : string) (orientation : option string)
                        (duration : option Z) (watermark private : bool)
                        (images : option (list string))
  : Net (gmap string pyval) :=
  match configured (api_key self) with
  | None =>
      Net.ret (dict [("success", VBool false);
                     ("message", VStr "Sora API key not configured")])
  | Some key =>
      Net.bind
        (Net.send (mkRequest "POST" (create_endpoint self) (bearer_accept_headers key) []
                     (Some (create_payload self prompt orientation duration
                              watermark private images)) 180))
        (fun out =>
           Net.ret (try_except
                      (bind_exn (response_of out)
                         (parse_create self prompt (valid_orientation orientation)
                            (valid_duration duration)))
                      on_create_error))
  end.

Definition on_query_error (e : exn) : gmap string pyval :=
  match exn_class_of e with
  | HttpxTimeoutException =>
      dict [("success", VBool false);
            ("message", VStr "Query request timed out. Please try again.")]
  | _ =>
      dict [("success", VBool false);
            ("message", VStr ("Failed to query video status: " +:+ exn_str e))]
  end.

Section Query.
Context `{PyBuiltins}.

Definition parse_query (task_id : string) (r : Response) : exn + gmap string pyval :=
  if negb (status_code r =? 200) then
    inr (dict [("success", VBool false);
               ("message", VStr ("Sora API error: " +:+ Str.of_Z (status_code r)
                                 +:+ " - " +:+ text r))])
  else
    let* data := json r in
    query_result "视频生成完成" task_id data.

Definition query_video (self : t) (task_id : string) : Net (gmap string pyval) :=
  match configured (api_key self) with
  | None =>
      Net.ret (dict [("success", VBool false);
                     ("message", VStr "Sora API key not configured")])
  | Some key =>
      Net.bind
        (Net.send (mkRequest "GET" (query_endpoint self) (bearer_accept_headers key)
                     [("id", task_id)] None 180))
        (fun out =>
           Net.ret (try_except (bind_exn (response_of out) (parse_query task_id))
                      on_query_error))
  end.

End Query.

End SoraVideoService.

Module VeoVideoService.

Definition MODELS : list string :=
  ["veo2"; "veo2-fast"; "veo2-fast-frames"; "veo2-fast-components"; "veo2-pro";
   "veo3"; "veo3-fast"; "veo3-pro"; "veo3-pro-frames"; "veo3-fast-frames"; "veo3-frames"].

Record t : Type := {
  api_key : option string;
  base_url : string;
  model : string;
  create_endpoint : string;
  query_endpoint : string
}.

Definition init (api_key : option string) (base_url model : string) : t :=
  let base := Str.rstrip_char "/" base_url in
  {| api_key := api_key; base_url := base; model := model;
     create_endpoint := base +:+ "/v1/video/create";
     query_endpoint := base +:+ "/v1/video/query" |}.

(** [if aspect_ratio not in ("16:9", "9:16"): aspect_ratio = "16:9"] *)
Definition valid_aspect_ratio (aspect_ratio : option string) : string :=
  match aspect_ratio with
  | Some a => if str_in a ["16:9"; "9:16"] then a else "16:9"
  | None => "16:9"
  end.

(** [model or self.model] *)
Definition use_model (self : t) (model_override : option string) : string :=
  match configured model_override with Some m => m | None => model self end.

Definition create_payload (self : t) (prompt : string) (model_override : option string)
                          (aspect_ratio : option string)
                          (enhance_prompt enable_upsample : option bool)
                          (images : option (list string)) : pyval :=
  VDict ([("model", VStr (use_model self model_override));
          ("prompt", VStr prompt);
          ("enhance_prompt", opt_bool enhance_prompt);
          ("enable_upsample", opt_bool enable_upsample);
          ("aspect_ratio", VStr (valid_aspect_ratio aspect_ratio))]
         ++ match images with
            | Some (x :: l) => [("images", str_list (x :: l))]
            | _ => []
            end).

Definition parse_create (prompt use_model aspect_ratio : string)
                        (enhance_prompt : option bool) (r : Response)
  : exn + gmap string pyval :=
  if negb (status_code r =? 200) then
    inr (dict [("success", VBool false);
               ("message", VStr ("VEO API error: " +:+ Str.of_Z (status_code r)
                                 +:+ " - " +:+ text r))])
  else
    let* data := json r in
    let* task_id := Py.get data "id" VNone in
    let* status := Py.get data "status" (VStr "pending") in
    if negb (Py.truthy task_id) then
      inr (dict [("success", VBool false);
                 ("message", VStr "No task ID returned from API");
                 ("raw_response", data)])
    else
      inr (dict [("success", VBool true);
                 ("task_id", task_id);
                 ("status", status);
                 ("message", VStr "VEO 视频生成任务已创建");
                 ("metadata", VDict [("model", VStr use_model);
                                     ("aspect_ratio", VStr aspect_ratio);
                                     ("enhance_prompt", opt_bool enhance_prompt);
                                     ("prompt", VStr prompt)])]).

Definition on_create_error (e : exn) : gmap string pyval :=
  match exn_class_of e with
  | HttpxTimeoutException =>
      dict [("success", VBool false);
            ("message", VStr "VEO request timed out. Please try again.")]
  | _ =>
      dict [("success", VBool false);
            ("message", VStr ("VEO video creation failed: " +:+ exn_str e))]
  end.

Definition create_video (self : t) (prompt : string) (model_override : option string)
                        (aspect_ratio : option string)
                        (enhance_prompt enable_upsample : option bool)
                        (images : option (list string))
  : Net (gmap string pyval) :=
  match configured (api_key self) with
  | None =>
      Net.ret (dict [("success", VBool false);
                     ("message", VStr "VEO API key not configured")])
  | Some key =>
      Net.bind
        (Net.send (mkRequest "POST" (create_endpoint self) (bearer_accept_headers key) []
                     (Some (create_payload self prompt model_override aspect_ratio
                              enhance_prompt enable_upsample images)) 180))
        (fun out =>
           Net.ret (try_except
                      (bind_exn (response_of out)
                         (parse_create prompt (use_model self model_override)
                            (valid_aspect_ratio aspect_ratio) enhance_prompt))
                      on_create_error))
  end.

Definition on_query_error (e : exn) : gmap string pyval :=
  match exn_class_of e with
  | HttpxTimeoutException =>
      dict [("success", VBool false);
            ("message", VStr "Query request timed out. Please try again.")]
  | _ =>
      dict [("success", VBool false);
            ("message", VStr ("Failed to query video status: " +:+ exn_str e))]
  end.

Section Query.
Context `{PyBuiltins}.

Definition parse_query (task_id : string) (r : Response) : exn + gmap string pyval :=
  if negb (status_code r =? 200) then
    inr (dict [("success", VBool false);
               ("message", VStr ("VEO API error: " +:+ Str.of_Z (status_code r)
                                 +:+ " - " +:+ text r))])
  else
    let* data := json r in
    query_result "VEO 视频生成完成" task_id data.

Definition query_video (self : t) (task_id : string) : Net (gmap string pyval) :=
  match configured (api_key self) with
  | None =>
      Net.ret (dict [("success", VBool false);
                     ("message", VStr "VEO API key not configured")])
  | Some key =>
      Net.bind
        (Net.send (mkRequest "GET" (query_endpoint self) (bearer_accept_headers key)
                     [("id", task_id)] None 180))
        (fun out =>
           Net.ret (try_except (bind_exn (response_of out) (parse_query task_id))
                      on_query_error))
  end.

End Query.

End VeoVideoService.

(* ===================================================================== *)
(** ** services/video_analysis.py *)
(* ===================================================================== *)

(** What the adapter sees of a file: its size, and what reading it gives. *)
Record File : Type := { st_size : Z; contents : exn + string }.

(** The files that exist, by path. *)
Definition FileSystem : Type := string -> option File.

Module VideoAnalysisService.

Record t : Type := {
  api_key : option string;
  base_url : string;
  model : string;
  endpoint : string;
  host : string
}.

Definition init (api_key : option string) (base_url model : string) : t :=
  let base := Str.rstrip_char "/" base_url in
  {| api_key := api_key; base_url := base; model := model;
     endpoint := "/v1beta/models/" +:+ model +:+ ":generateContent";
     host := if Str.startswith "https://" base then Str.drop 8 base
             else if Str.startswith "http://" base then Str.drop 7 base
             else base |}.

(** [api_key or self.api_key] *)
Definition effective_key (self : t) (api_key_arg : option string) : option string :=
  match configured api_key_arg with
  | Some k => Some k
  | None => api_key self
  end.

Definition max_size : Z := 100 * 1024 * 1024.

Section Analyze.
Context `{PyBuiltins}.

Definition _encode_video_to_base64 (f : File) : exn + string :=
  match contents f with
  | inr video_data => inr (b64encode video_data)
  | inl e => inl (Exn OtherException ("视频文件读取失败: " +:+ exn_str e))
  end.

Definition payload (video_base64 prompt : string) : pyval :=
  VDict [("contents",
          VList [VDict [("role", VStr "user");
                        ("parts",
                         VList [VDict [("inline_data",
                                        VDict [("mime_type", VStr "video/mp4");
                                               ("data", VStr video_base64)])];
                                VDict [("text", VStr prompt)]])]])].

Definition request (self : t) (key video_base64 prompt : string) : Request :=
  mkRequest "POST"
    ("https://" +:+ host self +:+ endpoint self +:+ "?key=" +:+ key)
    [("Authorization", "Bearer " +:+ key); ("Content-Type", "application/json")]
    [] (Some (payload video_base64 prompt)) 180.

(** [text_response += part["text"]] for the parts that have a text. *)
Definition add_text (text_response : string) (part : pyval) : exn + string :=
  let* has_text := Py.contains "text" part in
  if has_text then
    let* t := Py.item part "text" in
    match t with
    | VStr s => inr (text_response +:+ s)
    | _ => inl (Exn TypeError ("can only concatenate str (not "
                               +:+ String (ascii_of_nat 34) (Py.type_name t)
                               +:+ String (ascii_of_nat 34) ") to str"))
    end
  else inr text_response.

(** After the response was read and decoded: [if res.status == 200: ...] *)
Definition interpret (metadata : pyval) (status : Z) (response_data : pyval)
  : exn + gmap string pyval :=
  if status =? 200 then
    let* candidates := Py.get response_data "candidates" (VList []) in
    if Py.truthy candidates then
      let* first := Py.item0 candidates in
      let* content := Py.get first "content" (VDict []) in
      let* parts := Py.get content "parts" (VList []) in
      let* elems := Py.iter parts in
      let* text_response := fold_exn add_text "" elems in
      inr (dict [("success", VBool true);
                 ("message", VStr "视频分析完成");
                 ("analysis", VStr text_response);
                 ("raw_response", response_data);
                 ("metadata", metadata)])
    else
      inr (dict [("success", VBool false);
                 ("message", VStr "未找到分析结果");
                 ("raw_response", response_data)])
  else
    let* error := Py.get response_data "error" (VDict []) in
    let* error_msg := Py.get error "message" (VStr "未知错误") in
    inr (dict [("success", VBool false);
               ("message", VStr ("API错误: " +:+ py_str error_msg));
               ("raw_response", response_data)]).

Definition on_error (e : exn) : gmap string pyval :=
  dict [("success", VBool false);
        ("message", VStr ("视频分析失败: " +:+ exn_str e))].

(** The handlers of the inner [try] around the request. *)
Definition on_request_error (timeout_message : string) (e : exn) : gmap string pyval :=
  match exn_class_of e with
  | TimeoutError => dict [("success", VBool false); ("message", VStr timeout_message)]
  | _ => dict [("success", VBool false);
               ("message", VStr ("网络请求失败: " +:+ exn_str e))]
  end.

Definition exchange (timeout_message : string) (metadata : pyval) (out : Outcome)
  : gmap string pyval :=
  match bind_exn (response_of out) (fun r => let* data := json r in inr (r, data)) with
  | inl e => on_request_error timeout_message e
  | inr (r, response_data) =>
      try_except (interpret metadata (status_code r) response_data) on_error
  end.

Definition analyze_video (self : t) (fs : FileSystem) (video_path prompt : string)
                         (api_key_arg : option string)
  : Net (gmap string pyval) :=
  match configured (effective_key self api_key_arg) with
  | None =>
      Net.ret (dict [("success", VBool false); ("message", VStr "API密钥未配置")])
  | Some key =>
      match fs video_path with
      | None =>
          Net.ret (dict [("success", VBool false);
                         ("message", VStr ("视频文件不存在: " +:+ video_path))])
      | Some f =>
          let file_size := st_size f in
          if max_size <? file_size then
            Net.ret (dict [("success", VBool false);
                           ("message",
                            VStr ("视频文件过大: " +:+ py_fmt_mib file_size 1
                                  +:+ "MB / " +:+ py_fmt_mib max_size 0 +:+ "MB"))])
          else
            match _encode_video_to_base64 f with
            | inl e => Net.ret (on_error e)
            | inr video_base64 =>
                Net.bind
                  (Net.send (request self key video_base64 prompt))
                  (fun out =>
                     Net.ret
                       (exchange
                          "请求超时（180秒）。视频文件可能太大或网络较慢，建议使用更小的视频（<50MB）"
                          (VDict [("model", VStr (model self));
                                  ("prompt", VStr prompt);
                                  ("video_path", VStr video_path);
                                  ("video_size", VInt file_size);
                                  ("video_size_human",
                                   VStr (py_fmt_mib file_size 2 +:+ "MB"))])
                          out))
            end
      end
  end.

Definition analyze_video_from_base64 (self : t) (video_base64 prompt : string)
                                     (api_key_arg : option string)
  : Net (gmap string pyval) :=
  match configured (effective_key self api_key_arg) with
  | None =>
      Net.ret (dict [("success", VBool false); ("message", VStr "API密钥未配置")])
  | Some key =>
      Net.bind
        (Net.send (request self key video_base64 prompt))
        (fun out =>
           Net.ret
             (exchange "请求超时（180秒）。建议使用更小的视频文件"
                (VDict [("model", VStr (model self)); ("prompt", VStr prompt)])
                out))
  end.

End Analyze.

End VideoAnalysisService.

(* ===================================================================== *)
(** ** routers/video.py: the reference images of a VEO request *)
(* ===================================================================== *)

Module VideoRouter.

(** The fields of [VeoVideoGenerationRequest]. *)
Record VeoVideoGenerationRequest : Type := {
  prompt : string;
  model : option string;
  aspect_ratio : option string;
  enhance_prompt : option bool;
  upsample : option bool;
  image_data : option string;
  images : option (list string)
}.

Definition image_supported_models : list string :=
  ["veo3-fast-frames"; "veo2-fast-frames"; "veo2-fast-components"].

(** [request.model in image_supported_models] *)
Definition model_supported (m : option string) : bool :=
  match m with
  | Some s => str_in s image_supported_models
  | None => false
  end.

Definition model_is (m : option string) (name : string) : bool :=
  match m with
  | Some s => String.eqb s name
  | None => false
  end.

(** The value of [images] that [generate_veo_video] passes on to
    [veo_service.create_video]. *)
Definition forwarded_images (request : VeoVideoGenerationRequest)
  : option (list string) :=
  (* images array first, then the single image_data *)
  let '(images0, has_images) :=
    match images request with
    | Some (x :: l) => (Some (x :: l), true)
    | _ =>
        match configured (image_data request) with
        | Some d => (Some [d], true)
        | None => (None, false)
        end
    end in
  (* a model that takes no images: drop them *)
  let images1 :=
    if has_images && negb (model_supported (model request)) then None else images0 in
  (* a model that takes images: at most its number of them *)
  match images1 with
  | Some (x :: l) =>
      if model_supported (model request) then
        if model_is (model request) "veo3-fast-frames" then Some (take 1 (x :: l))
        else if model_is (model request) "veo2-fast-frames" then Some (take 2 (x :: l))
        else if model_is (model request) "veo2-fast-components" then Some (take 3 (x :: l))
        else images1
      else images1
  | _ => images1
  end.

(** The call of the adapter in [generate_veo_video]. *)
Definition create_call (veo_service : VeoVideoService.t)
                       (request : VeoVideoGenerationRequest)
  : Net (gmap string pyval) :=
  VeoVideoService.create_video veo_service (prompt request) (model request)
    (aspect_ratio request) (enhance_prompt request) (upsample request)
    (forwarded_images request).

End VideoRouter.

(* ===================================================================== *)
(** ** history.py and routers/history.py *)
(* ===================================================================== *)

Module History.

(** A row of the table [history].  [created_at] is filled by
    [CURRENT_TIMESTAMP], whose text ['YYYY-MM-DD HH:MM:SS'] has a
    resolution of one second and orders as the time it denotes: the model
    keeps it as that count of seconds. *)
Record Row : Type := mkRow {
  id : Z;
  type : string;
  prompt : string;
  response : string;
  metadata : string;
  created_at : Z
}.

(** The database file: the rows in rowid order, and the largest rowid
    ever handed out, which [AUTOINCREMENT] keeps in [sqlite_sequence] (no
    row has a greater id). *)
Record Db : Type := mkDb { rows : list Row; seq : Z }.

(** A fresh file after [init_db]. *)
Definition empty : Db := mkDb [] 0.

(** A dictionary of the list [get_history] returns. *)
Record HistoryRecord : Type := mkRecord {
  rec_id : Z;
  rec_type : string;
  rec_prompt : string;
  rec_response : string;
  rec_metadata : pyval;
  rec_created_at : Z
}.

(** [ORDER BY created_at DESC].  The query names no second key: the table
    is scanned in rowid order and SQLite's sorter keeps rows of equal
    [created_at] in the order they arrive.  So a row goes in front of the
    first row whose [created_at] is not greater than its own. *)
Fixpoint insert_desc (r : Row) (l : list Row) : list Row :=
  match l with
  | [] => [r]
  | x :: l' =>
      if created_at r <? created_at x then x :: insert_desc r l'
      else r :: l
  end.

Fixpoint order_by_created_at_desc (l : list Row) : list Row :=
  match l with
  | [] => []
  | r :: l' => insert_desc r (order_by_created_at_desc l')
  end.

(** [LIMIT ? OFFSET ?]: a negative limit is no limit, a negative offset
    is no offset. *)
Definition limit_offset {A : Type} (limit offset : Z) (l : list A) : list A :=
  let rest := drop (Z.to_nat offset) l in
  if limit <? 0 then rest else take (Z.to_nat limit) rest.

(** [SELECT * FROM history ORDER BY created_at DESC LIMIT ? OFFSET ?] *)
Definition select_history (db : Db) (limit offset : Z) : list Row :=
  limit_offset limit offset (order_by_created_at_desc (rows db)).

(** A query parameter must fit SQLite's 64-bit integer; binding a larger
    [int] raises. *)
Definition sqlite_int (z : Z) : bool := (- 2 ^ 63 <=? z) && (z <? 2 ^ 63).

(** [DELETE FROM history]; the sequence is kept. *)
Definition clear_history (db : Db) : Db := mkDb [] (seq db).

Section WithBuiltins.
Context `{PyBuiltins}.

(** [now] is the clock at the time of the insert; the result is the new
    state and [cursor.lastrowid]. *)
Definition add_history (db : Db) (now : Z) (type prompt response : string)
                       (metadata : option pyval) : Db * Z :=
  let metadata_json :=
    match metadata with
    | Some m => if Py.truthy m then json_dumps m else "{}"
    | None => "{}"
    end in
  let record_id := seq db + 1 in
  (mkDb (rows db ++ [mkRow record_id type prompt response metadata_json now]) record_id,
   record_id).

Definition to_record (row : Row) : exn + HistoryRecord :=
  let* meta := (if Str.is_empty (metadata row) then inr (VDict [])
                else json_loads (metadata row)) in
  inr (mkRecord (id row) (type row) (prompt row) (response row) meta (created_at row)).

Fixpoint to_records (l : list Row) : exn + list HistoryRecord :=
  match l with
  | [] => inr []
  | row :: l' =>
      let* r := to_record row in
      let* rs := to_records l' in
      inr (r :: rs)
  end.

Definition get_history (db : Db) (limit offset : Z) : exn + list HistoryRecord :=
  if sqlite_int limit && sqlite_int offset then
    to_records (select_history db limit offset)
  else inl (Exn OverflowError "Python int too large to convert to SQLite INTEGER").

End WithBuiltins.

(** The attributes an instance of [HistoryManager] has besides those of
    every object: the field [db_path] and the methods the class defines. *)
Definition attributes : list string :=
  ["db_path"; "__init__"; "init_db"; "add_history"; "get_history"; "clear_history"].

(** What an endpoint answers: a body, or a raised [HTTPException]. *)
Inductive Reply : Type :=
| Body (b : gmap string pyval)
| HTTPException (status : Z) (detail : string).

Section Router.
(** What calling an attribute the instance has, with one integer
    argument, does to the database and returns. *)
Variable call_attribute : string -> Db -> Z -> (exn + pyval) * Db.

(** [history_manager.<name>(item_id)], for a name that [object] does not
    define: the attribute is looked up first, and the lookup of a name the
    instance does not have raises. *)
Definition call_with_id (db : Db) (name : string) (item_id : Z)
  : (exn + pyval) * Db :=
  if str_in name attributes then call_attribute name db item_id
  else (inl (Exn AttributeError
               ("'HistoryManager' object has no attribute '" +:+ name +:+ "'")), db).

(** [DELETE /api/history/{item_id}] *)
Definition delete_history_item (db : Db) (item_id : Z) : Reply * Db :=
  let '(outcome, db') := call_with_id db "delete_history" item_id in
  match outcome with
  | inr success =>
      if Py.truthy success then
        (Body (dict [("success", VBool true);
                     ("message", VStr "History item deleted")]), db')
      else (HTTPException 404 "History item not found", db')
  | inl e => (HTTPException 500 (exn_str e), db')
  end.

End Router.

End History.

(* ===================================================================== *)
(** ** config.py and dependencies.py *)
(* ===================================================================== *)

(** The environment after [load_dotenv]: what [os.getenv] gives for a
    name. *)
Definition Env : Type := string -> option string.

(** [os.getenv(name, default)] *)
Definition getenv (env : Env) (name default : string) : string :=
  match env name with
  | Some value => value
  | None => default
  end.

(** [a or b] on two optional texts. *)
Definition or_key (a b : option string) : option string :=
  match configured a with
  | Some _ => a
  | None => b
  end.

Module Config.

(** [Config.get_allowed_origins()], as a function of the class attribute
    [ALLOWED_ORIGINS_STR]. *)
Definition get_allowed_origins (ALLOWED_ORIGINS_STR : string) : list string :=
  let origins := Str.split "," ALLOWED_ORIGINS_STR in
  if (length origins =? 1)%nat && String.eqb (hd "" origins) "*" then ["*"]
  else List.map Str.strip
         (List.filter (fun origin => negb (Str.is_empty (Str.strip origin))) origins).

(** The keys, addresses and models the services below are built from. *)
Definition OPENAI_API_KEY (env : Env) : option string := env "OPENAI_API_KEY".
Definition GEMINI_API_KEY (env : Env) : option string := env "GEMINI_API_KEY".
Definition CHAT_API_KEY (env : Env) : option string := env "CHAT_API_KEY".
Definition CHAT_BASE_URL (env : Env) : string :=
  getenv env "CHAT_BASE_URL" "https://yunwu.ai/v1".
Definition CHAT_MODEL (env : Env) : string := getenv env "CHAT_MODEL" "gpt-5.2-2025-12-11".
Definition SORA_API_KEY (env : Env) : option string :=
  or_key (env "SORA_API_KEY") (env "OPENAI_API_KEY").
Definition SORA_BASE_URL (env : Env) : string :=
  getenv env "SORA_BASE_URL" "https://yunwu.ai/v1".
Definition VEO_API_KEY (env : Env) : option string :=
  or_key (env "VEO_API_KEY") (GEMINI_API_KEY env).
Definition VEO_BASE_URL (env : Env) : string := getenv env "VEO_BASE_URL" "https://yunwu.ai".
Definition VEO_MODEL (env : Env) : string := getenv env "VEO_MODEL" "veo3-fast".

End Config.

(** The chat and video services of dependencies.py. *)
Module Dependencies.

Definition chat_service (env : Env) : ChatService.t :=
  ChatService.init
    (or_key (or_key (Config.CHAT_API_KEY env) (Config.GEMINI_API_KEY env))
            (Config.OPENAI_API_KEY env))
    (Config.CHAT_BASE_URL env) (Config.CHAT_MODEL env).

Definition sora_service (env : Env) : SoraVideoService.t :=
  SoraVideoService.init (Config.SORA_API_KEY env) (Config.SORA_BASE_URL env) "sora-2".

Definition veo_service (env : Env) : VeoVideoService.t :=
  VeoVideoService.init (Config.VEO_API_KEY env) (Config.VEO_BASE_URL env)
    (Config.VEO_MODEL env).

End Dependencies.

(* ===================================================================== *)
(** ** routers: the endpoints for history, video and chat *)
(* ===================================================================== *)

(** [result.get(k, default)] on a result dictionary. *)
Definition get_or (k : string) (default : pyval) (result : gmap string pyval) : pyval :=
  match result !! k with
  | Some v => v
  | None => default
  end.

Definition opt_str (o : option string) : pyval :=
  match o with Some s => VStr s | None => VNone end.

Definition opt_int (o : option Z) : pyval :=
  match o with Some z => VInt z | None => VNone end.

(** [if result["success"]: ... else: ...] inside the [try] of an endpoint:
    a result without the key raises [KeyError], which [handler] receives
    as its text. *)
Definition if_success {A : Type} (result : gmap string pyval) (handler : string -> A)
    (on_success on_failure : A) : A :=
  match result !! "success" with
  | None => handler "'success'"
  | Some success => if Py.truthy success then on_success else on_failure
  end.

(** [history_manager.add_history(type, prompt, response, metadata)] with
    any value as the response.  [add_history_other] is what the call does
    when the value bound as [response] is not a [str]: the outcome of the
    insert and the store after it. *)
Definition add_history_value `{PyBuiltins}
    (add_history_other :
       History.Db -> Z -> string -> string -> pyval -> option pyval
       -> (exn + Z) * History.Db)
    (db : History.Db) (now : Z) (type prompt : string)
    (response : pyval) (metadata : option pyval)
  : (exn + Z) * History.Db :=
  match response with
  | VStr s =>
      let '(db', record_id) := History.add_history db now type prompt s metadata in
      (inr record_id, db')
  | _ => add_history_other db now type prompt response metadata
  end.

(** routers/history.py, the listing and the clearing. *)
Module HistoryRouter.

Inductive Reply : Type :=
| Listing (success : bool) (history : list History.HistoryRecord)
| Message (success : bool) (message : string)
| HTTPException (status : Z) (detail : string).

(** [GET /api/history] *)
Definition get_history `{PyBuiltins} (db : History.Db) : Reply :=
  match History.get_history db 50 0 with
  | inr history => Listing true history
  | inl _ => HTTPException 500 "Failed to retrieve history"
  end.

(** [DELETE /api/history] *)
Definition clear_history (db : History.Db) : Reply * History.Db :=
  (Message true "History cleared", History.clear_history db).

End HistoryRouter.

(** routers/video.py, the endpoints. *)
Module VideoEndpoints.

(** The fields of [VideoGenerationRequest]. *)
Record VideoGenerationRequest : Type := {
  prompt : string;
  orientation : option string;
  duration : option Z;
  image_data : option string
}.

Section Endpoints.
Context `{PyBuiltins}.
Variable add_history_other :
  History.Db -> Z -> string -> string -> pyval -> option pyval -> (exn + Z) * History.Db.

(** [POST /api/generate_video]; [now] is the clock at the insert. *)
Definition generate_video (sora_service : SoraVideoService.t)
    (request : VideoGenerationRequest) (now : Z) (db : History.Db)
  : Net (History.Reply * History.Db) :=
  Net.bind
    (SoraVideoService.create_video sora_service (prompt request) (orientation request)
       (duration request) false true
       (match configured (image_data request) with
        | Some data => Some [data]
        | None => None
        end))
    (fun result =>
       Net.ret
         (if_success result (fun detail => (History.HTTPException 500 detail, db))
            (let '(stored, db') :=
               add_history_value add_history_other db now "video" (prompt request)
                 (get_or "video_url" (VStr "generated_video") result)
                 (Some (VDict [("service", VStr "sora-video");
                               ("orientation", opt_str (orientation request));
                               ("duration", opt_int (duration request))])) in
             match stored with
             | inr _ =>
                 (History.Body
                    (dict [("success", VBool true);
                           ("video_url", get_or "video_url" VNone result);
                           ("message", get_or "message" (VStr "视频生成成功") result);
                           ("metadata", get_or "metadata" (VDict []) result)]), db')
             | inl e => (History.HTTPException 500 (exn_str e), db')
             end)
            (History.Body
               (dict [("success", VBool false);
                      ("message", get_or "message" (VStr "视频生成失败") result)]), db))).

(** [POST /api/video] *)
Definition generate_video_sora := generate_video.

(** [has_images] at the end of the image handling of [generate_veo_video]. *)
Definition has_images (request : VideoRouter.VeoVideoGenerationRequest) : bool :=
  let has :=
    match VideoRouter.images request with
    | Some (_ :: _) => true
    | _ => match configured (VideoRouter.image_data request) with
           | Some _ => true
           | None => false
           end
    end in
  if has && negb (VideoRouter.model_supported (VideoRouter.model request))
  then false else has.

(** [POST /api/veo_video] *)
Definition generate_veo_video (veo_service : VeoVideoService.t)
    (request : VideoRouter.VeoVideoGenerationRequest) (now : Z) (db : History.Db)
  : Net (History.Reply * History.Db) :=
  Net.bind
    (VideoRouter.create_call veo_service request)
    (fun result =>
       Net.ret
         (if_success result (fun detail => (History.HTTPException 500 detail, db))
            (let '(stored, db') :=
               add_history_value add_history_other db now "video"
                 (VideoRouter.prompt request)
                 (get_or "task_id" (VStr "unknown_task") result)
                 (Some (VDict [("service", VStr "veo-video");
                               ("model", opt_str (VideoRouter.model request));
                               ("aspect_ratio", opt_str (VideoRouter.aspect_ratio request));
                               ("task_id", get_or "task_id" VNone result);
                               ("status", get_or "status" VNone result);
                               ("has_images",
                                VBool (has_images request
                                       && VideoRouter.model_supported
                                            (VideoRouter.model request)))])) in
             match stored with
             | inr _ =>
                 (History.Body
                    (dict [("success", VBool true);
                           ("task_id", get_or "task_id" VNone result);
                           ("status", get_or "status" VNone result);
                           ("message",
                            get_or "message" (VStr "VEO 视频生成任务已创建") result);
                           ("metadata", get_or "metadata" (VDict []) result)]), db')
             | inl e => (History.HTTPException 500 (exn_str e), db')
             end)
            (History.Body
               (dict [("success", VBool false);
                      ("message", get_or "message" (VStr "视频生成失败") result)]), db))).

(** [POST /api/generate_veo_video] *)
Definition generate_veo_video_legacy := generate_veo_video.

(** [GET /api/veo_video/{task_id}] *)
Definition get_veo_video_status (veo_service : VeoVideoService.t) (task_id : string)
  : Net History.Reply :=
  Net.bind
    (VeoVideoService.query_video veo_service task_id)
    (fun result =>
       Net.ret
         (if_success result (History.HTTPException 500)
            (History.Body
               (dict [("success", VBool true);
                      ("task_id", VStr task_id);
                      ("status", get_or "status" VNone result);
                      ("video_url", get_or "video_url" VNone result);
                      ("message", get_or "message" VNone result);
                      ("metadata",
                       VDict [("enhanced_prompt",
                               get_or "enhanced_prompt" VNone result)])]))
            (History.Body
               (dict [("success", VBool false);
                      ("message", get_or "message" (VStr "查询失败") result)])))).

End Endpoints.

End VideoEndpoints.

(** routers/chat.py *)
Module ChatRouter.

(** The fields of [ChatRequest]; a message is a JSON object. *)
Record ChatRequest : Type := {
  messages : list (list (string * pyval));
  service : string;
  model : option string
}.

(** [next((m for m in reversed(messages) if m["role"] == "user"), None)],
    on the messages in reverse order. *)
Fixpoint last_user_message (reversed : list (list (string * pyval)))
  : exn + option (list (string * pyval)) :=
  match reversed with
  | [] => inr None
  | m :: rest =>
      let* role := Py.item (VDict m) "role" in
      if Py.eq_str role "user" then inr (Some m) else last_user_message rest
  end.

(** [next((p["text"] for p in parts if p["type"] == "text"), "")] *)
Fixpoint text_part (parts : list pyval) : exn + pyval :=
  match parts with
  | [] => inr (VStr "")
  | p :: rest =>
      let* type := Py.item p "type" in
      if Py.eq_str type "text" then Py.item p "text" else text_part rest
  end.

(** The value whose text the endpoint records as the prompt. *)
Definition prompt_text (messages : list (list (string * pyval))) : exn + pyval :=
  let* last_user_msg := last_user_message (rev messages) in
  let* content := match last_user_msg with
                  | Some (f :: m) => Py.item (VDict (f :: m)) "content"
                  | _ => inr (VStr "Unknown")
                  end in
  match content with
  | VList parts => text_part parts
  | _ => inr content
  end.

Section Endpoint.
Context `{PyBuiltins}.
Variable add_history_other :
  History.Db -> Z -> string -> string -> pyval -> option pyval -> (exn + Z) * History.Db.

(** The part of [text_chat] after the completion returned. *)
Definition record_chat (request : ChatRequest) (provider_model : string)
    (result : gmap string pyval) (now : Z) (db : History.Db)
  : History.Reply * History.Db :=
  if_success result (fun detail => (History.HTTPException 500 detail, db))
    (match prompt_text (messages request) with
     | inl e => (History.HTTPException 500 (exn_str e), db)
     | inr prompt =>
         match result !! "message" with
         | None => (History.HTTPException 500 "'message'", db)
         | Some response =>
             let '(stored, db') :=
               add_history_value add_history_other db now "chat" (py_str prompt)
                 response
                 (Some (VDict [("model", VStr (match configured (model request) with
                                               | Some m => m
                                               | None => provider_model
                                               end));
                               ("service", VStr (service request))])) in
             match stored with
             | inr _ => (History.Body result, db')
             | inl e => (History.HTTPException 500 (exn_str e), db')
             end
         end
     end)
    (History.Body result, db).

(** [POST /api/text_chat] *)
Definition text_chat (chat_service : ChatService.t) (mimo_chat_service : MimoChatService.t)
    (request : ChatRequest) (now : Z) (db : History.Db)
  : Net (History.Reply * History.Db) :=
  let messages := VList (List.map VDict (messages request)) in
  if String.eqb (service request) "mimo-chat" then
    Net.bind (MimoChatService.chat_completion mimo_chat_service messages (model request))
      (fun result =>
         Net.ret (record_chat request (MimoChatService.model mimo_chat_service) result now db))
  else if String.eqb (service request) "chat" then
    Net.bind (ChatService.chat_completion chat_service messages (model request))
      (fun result =>
         Net.ret (record_chat request (ChatService.model chat_service) result now db))
  else
    Net.ret (History.Body
               (dict [("success", VBool false);
                      ("message", VStr ("Unsupported chat service: " +:+ service request))]),
             db).

End Endpoint.

End ChatRouter.



(* ===================================================================== *)
(** ** The adapter operations *)
(* ===================================================================== *)

(** One call of an adapter operation: the service instance and the
    arguments. *)
Inductive Call : Type :=
| DalleGenerate (self : DalleService.t) (prompt size quality : string) (n : Z)
| StableDiffusionGenerate (self : StableDiffusionService.t) (prompt : string)
    (width height steps : Z)
| GeminiGenerate (self : GeminiImageService.t) (prompt aspect_ratio image_size : string)
    (reference_image : option string)
| DoubaoGenerate (self : DoubaoImageService.t) (prompt aspect_ratio image_size : string)
    (reference_image : option (string + list string))
    (response_format sequential_mode : string) (max_images : Z) (watermark : bool)
    (size_override : option string)
| ChatCompletion (self : ChatService.t) (messages : pyval) (model : option string)
| MimoChatCompletion (self : MimoChatService.t) (messages : pyval) (model : option string)
| SoraCreate (self : SoraVideoService.t) (prompt : string) (orientation : option string)
    (duration : option Z) (watermark private : bool) (images : option (list string))
| SoraQuery (self : SoraVideoService.t) (task_id : string)
| VeoCreate (self : VeoVideoService.t) (prompt : string) (model aspect_ratio : option string)
    (enhance_prompt enable_upsample : option bool) (images : option (list string))
| VeoQuery (self : VeoVideoService.t) (task_id : string)
| AnalyzeVideo (self : VideoAnalysisService.t) (fs : FileSystem)
    (video_path prompt : string) (api_key : option string)
| AnalyzeVideoFromBase64 (self : VideoAnalysisService.t)
    (video_base64 prompt : string) (api_key : option string).

Definition perform `{PyBuiltins} (c : Call) : Net (gmap string pyval) :=
  match c with
  | DalleGenerate self prompt size quality n =>
      DalleService.generate_image self prompt size quality n
  | StableDiffusionGenerate self prompt width height steps =>
      StableDiffusionService.generate_image self prompt width height steps
  | GeminiGenerate self prompt aspect_ratio image_size reference_image =>
      GeminiImageService.generate_image self prompt aspect_ratio image_size reference_image
  | DoubaoGenerate self prompt aspect_ratio image_size reference_image response_format
      sequential_mode max_images watermark size_override =>
      DoubaoImageService.generate_image self prompt aspect_ratio image_size
        reference_image response_format sequential_mode max_images watermark size_override
  | ChatCompletion self messages model => ChatService.chat_completion self messages model
  | MimoChatCompletion self messages model =>
      MimoChatService.chat_completion self messages model
  | SoraCreate self prompt orientation duration watermark private images =>
      SoraVideoService.create_video self prompt orientation duration watermark private images
  | SoraQuery self task_id => SoraVideoService.query_video self task_id
  | VeoCreate self prompt model aspect_ratio enhance_prompt enable_upsample images =>
      VeoVideoService.create_video self prompt model aspect_ratio enhance_prompt
        enable_upsample images
  | VeoQuery self task_id => VeoVideoService.query_video self task_id
  | AnalyzeVideo self fs video_path prompt api_key =>
      VideoAnalysisService.analyze_video self fs video_path prompt api_key
  | AnalyzeVideoFromBase64 self video_base64 prompt api_key =>
      VideoAnalysisService.analyze_video_from_base64 self video_base64 prompt api_key
  end.

(** The credential an operation checks before anything else. *)
Definition credential (c : Call) : option string :=
  match c with
  | DalleGenerate self _ _ _ _ => DalleService.api_key self
  | StableDiffusionGenerate self _ _ _ _ => StableDiffusionService.api_key self
  | GeminiGenerate self _ _ _ _ => GeminiImageService.api_key self
  | DoubaoGenerate self _ _ _ _ _ _ _ _ _ => DoubaoImageService.api_key self
  | ChatCompletion self _ _ => ChatService.api_key self
  | MimoChatCompletion self _ _ => MimoChatService.api_key self
  | SoraCreate self _ _ _ _ _ _ | SoraQuery self _ => SoraVideoService.api_key self
  | VeoCreate self _ _ _ _ _ _ | VeoQuery self _ => VeoVideoService.api_key self
  | AnalyzeVideo self _ _ _ api_key | AnalyzeVideoFromBase64 self _ _ api_key =>
      VideoAnalysisService.effective_key self api_key
  end.

(** The same call on a service constructed with [api_key=key] (for video
    analysis, with [key] as the per-call key as well). *)
Definition with_credential (key : option string) (c : Call) : Call :=
  match c with
  | DalleGenerate self prompt size quality n =>
      DalleGenerate {| DalleService.api_key := key;
                       DalleService.base_url := DalleService.base_url self |}
        prompt size quality n
  | StableDiffusionGenerate self prompt width height steps =>
      StableDiffusionGenerate
        {| StableDiffusionService.api_key := key;
           StableDiffusionService.base_url := StableDiffusionService.base_url self |}
        prompt width height steps
  | GeminiGenerate self prompt aspect_ratio image_size reference_image =>
      GeminiGenerate
        {| GeminiImageService.api_key := key;
           GeminiImageService.base_url := GeminiImageService.base_url self;
           GeminiImageService.model := GeminiImageService.model self;
           GeminiImageService.auth_mode := GeminiImageService.auth_mode self;
           GeminiImageService.endpoint := GeminiImageService.endpoint self |}
        prompt aspect_ratio image_size reference_image
  | DoubaoGenerate self prompt aspect_ratio image_size reference_image response_format
      sequential_mode max_images watermark size_override =>
      DoubaoGenerate
        {| DoubaoImageService.api_key := key;
           DoubaoImageService.base_url := DoubaoImageService.base_url self;
           DoubaoImageService.model := DoubaoImageService.model self;
           DoubaoImageService.endpoint := DoubaoImageService.endpoint self |}
        prompt aspect_ratio image_size reference_image response_format
        sequential_mode max_images watermark size_override
  | ChatCompletion self messages model =>
      ChatCompletion {| ChatService.api_key := key;
                        ChatService.base_url := ChatService.base_url self;
                        ChatService.model := ChatService.model self |}
        messages model
  | MimoChatCompletion self messages model =>
      MimoChatCompletion
        {| MimoChatService.api_key := key;
           MimoChatService.base_url := MimoChatService.base_url self;
           MimoChatService.model := MimoChatService.model self;
           MimoChatService.temperature := MimoChatService.temperature self;
           MimoChatService.top_p := MimoChatService.top_p self;
           MimoChatService.max_completion_tokens := MimoChatService.max_completion_tokens self;
           MimoChatService.endpoint := MimoChatService.endpoint self |}
        messages model
  | SoraCreate self prompt orientation duration watermark private images =>
      SoraCreate
        {| SoraVideoService.api_key := key;
           SoraVideoService.base_url := SoraVideoService.base_url self;
           SoraVideoService.model := SoraVideoService.model self;
           SoraVideoService.create_endpoint := SoraVideoService.create_endpoint self;
           SoraVideoService.query_endpoint := SoraVideoService.query_endpoint self |}
        prompt orientation duration watermark private images
  | SoraQuery self task_id =>
      SoraQuery
        {| SoraVideoService.api_key := key;
           SoraVideoService.base_url := SoraVideoService.base_url self;
           SoraVideoService.model := SoraVideoService.model self;
           SoraVideoService.create_endpoint := SoraVideoService.create_endpoint self;
           SoraVideoService.query_endpoint := SoraVideoService.query_endpoint self |}
        task_id
  | VeoCreate self prompt model aspect_ratio enhance_prompt enable_upsample images =>
      VeoCreate
        {| VeoVideoService.api_key := key;
           VeoVideoService.base_url := VeoVideoService.base_url self;
           VeoVideoService.model := VeoVideoService.model self;
           VeoVideoService.create_endpoint := VeoVideoService.create_endpoint self;
           VeoVideoService.query_endpoint := VeoVideoService.query_endpoint self |}
        prompt model aspect_ratio enhance_prompt enable_upsample images
  | VeoQuery self task_id =>
      VeoQuery
        {| VeoVideoService.api_key := key;
           VeoVideoService.base_url := VeoVideoService.base_url self;
           VeoVideoService.model := VeoVideoService.model self;
           VeoVideoService.create_endpoint := VeoVideoService.create_endpoint self;
           VeoVideoService.query_endpoint := VeoVideoService.query_endpoint self |}
        task_id
  | AnalyzeVideo self fs video_path prompt _ =>
      AnalyzeVideo
        {| VideoAnalysisService.api_key := key;
           VideoAnalysisService.base_url := VideoAnalysisService.base_url self;
           VideoAnalysisService.model := VideoAnalysisService.model self;
           VideoAnalysisService.endpoint := VideoAnalysisService.endpoint self;
           VideoAnalysisService.host := VideoAnalysisService.host self |}
        fs video_path prompt key
  | AnalyzeVideoFromBase64 self video_base64 prompt _ =>
      AnalyzeVideoFromBase64
        {| VideoAnalysisService.api_key := key;
           VideoAnalysisService.base_url := VideoAnalysisService.base_url self;
           VideoAnalysisService.model := VideoAnalysisService.model self;
           VideoAnalysisService.endpoint := VideoAnalysisService.endpoint self;
           VideoAnalysisService.host := VideoAnalysisService.host self |}
        video_base64 prompt key
  end.



(** The result an operation returned and the requests it sent. *)
Definition result_of {A : Type} (p : A * list Request) : A := fst p.
Definition requests_of {A : Type} (p : A * list Request) : list Request := snd p.

(** The field [name] of the JSON payload of a request. *)
Definition payload_field (name : string) (req : Request) : option pyval :=
  match req_json req with
  | Some (VDict d) => Py.assoc name d
  | _ => None
  end.

(* ===================================================================== *)
(** ** A concrete interpreter for running the model *)
(* ===================================================================== *)

(** The properties below hold for every [PyBuiltins].  To evaluate the
    model on concrete inputs this module fixes one, exact on the part of
    Python it covers: [int] on ASCII digits; the rounded division of
    positive integers, through the nearest binary64 number; the fixed-point
    formatting of a size below 2^53; [str] of [None], booleans, integers
    and strings; base64; [json.dumps] of values without floats; and
    [json.loads] of the text [add_history] writes for an absent metadata
    and of the JSON constants.  Outside that part it prints a type name
    between angle brackets, or raises, and the examples never go there. *)
Module Reference.

Definition digit_of (c : ascii) : option Z :=
  let n := nat_of_ascii c in
  if ((48 <=? n) && (n <=? 57))%nat then Some (Z.of_nat (n - 48)) else None.

(** Decimal digits, with single underscores between digits. *)
Fixpoint digits (s : string) (acc : Z) (after_digit : bool) : option Z :=
  match s with
  | EmptyString => if after_digit then Some acc else None
  | String c s' =>
      match digit_of c with
      | Some d => digits s' (10 * acc + d) true
      | None =>
          if Ascii.eqb c "_" && after_digit then digits s' acc false else None
      end
  end.

Definition int_of_str (s : string) : option Z :=
  match Str.strip s with
  | String "+" r => digits r 0 false
  | String "-" r => Z.opp <$> digits r 0 false
  | t => digits t 0 false
  end.

(** The integer nearest to [n / d] for [d > 0], ties to the even one. *)
Definition round_half_even (n d : Z) : Z :=
  let q := n / d in
  let r := n mod d in
  if 2 * r <? d then q
  else if d <? 2 * r then q + 1
  else if Z.even q then q else q + 1.

(** [int(round(a / b))] for positive [a] and [b]: the quotient is rounded
    to the nearest binary64 number, [m * 2^(-k)] with a 53-bit [m], and
    that number to the nearest integer. *)
Definition round_div (a b : Z) : Z :=
  if (a <=? 0) || (b <=? 0) then 0
  else
    let e0 := Z.log2 a - Z.log2 b in
    let below :=
      if 0 <=? e0 then a <? b * 2 ^ e0 else a * 2 ^ (- e0) <? b in
    let e := if below then e0 - 1 else e0 in
    let k := Z.min (52 - e) 1074 in
    if 0 <=? k then round_half_even (round_half_even (a * 2 ^ k) b) (2 ^ k)
    else round_half_even a (b * 2 ^ (- k)) * 2 ^ (- k).

Fixpoint zeros (n : nat) : string :=
  match n with
  | O => EmptyString
  | S n' => String "0" (zeros n')
  end.

(** [f"{n / (1024*1024):.<decimals>f}"] for [0 <= n < 2^53]. *)
Definition fmt_mib (n : Z) (decimals : nat) : string :=
  let scale := 10 ^ Z.of_nat decimals in
  let q := round_half_even (n * scale) (1024 * 1024) in
  let whole := Str.of_Z (q / scale) in
  match decimals with
  | O => whole
  | _ =>
      let frac := Str.of_Z (q mod scale) in
      whole +:+ "." +:+ zeros (decimals - String.length frac) +:+ frac
  end.

Definition unsupported (v : pyval) : string := "<" +:+ Py.type_name v +:+ ">".

Definition str_of (v : pyval) : string :=
  match v with
  | VNone => "None"
  | VBool true => "True"
  | VBool false => "False"
  | VInt z => Str.of_Z z
  | VStr s => s
  | _ => unsupported v
  end.

Definition b64_digit (n : Z) : ascii :=
  ascii_of_nat
    (Z.to_nat (if n <? 26 then 65 + n
               else if n <? 52 then 97 + (n - 26)
               else if n <? 62 then 48 + (n - 52)
               else if n =? 62 then 43 else 47)).

Definition byte (c : ascii) : Z := Z.of_nat (nat_of_ascii c).

(** [base64.b64encode(data).decode('utf-8')] *)
Fixpoint b64 (data : string) : string :=
  match data with
  | EmptyString => EmptyString
  | String a EmptyString =>
      let n := byte a * 16 in
      String (b64_digit (n / 64)) (String (b64_digit (n mod 64)) "==")
  | String a (String b EmptyString) =>
      let n := (byte a * 256 + byte b) * 4 in
      String (b64_digit (n / 4096))
        (String (b64_digit (n / 64 mod 64)) (String (b64_digit (n mod 64)) "="))
  | String a (String b (String c rest)) =>
      let n := (byte a * 256 + byte b) * 256 + byte c in
      String (b64_digit (n / 262144))
        (String (b64_digit (n / 4096 mod 64))
           (String (b64_digit (n / 64 mod 64))
              (String (b64_digit (n mod 64)) (b64 rest))))
  end.

Definition hex_digit (n : nat) : ascii :=
  ascii_of_nat (if (n <? 10)%nat then 48 + n else 87 + n).

(** A character inside a JSON string, as [json.dumps] writes it. *)
Definition json_char (c : ascii) : string :=
  let n := nat_of_ascii c in
  let backslash := ascii_of_nat 92 in
  if (n =? 34)%nat then String backslash (String c EmptyString)
  else if (n =? 92)%nat then String backslash (String c EmptyString)
  else if (n =? 10)%nat then String backslash "n"
  else if (n =? 13)%nat then String backslash "r"
  else if (n =? 9)%nat then String backslash "t"
  else if (n =? 8)%nat then String backslash "b"
  else if (n =? 12)%nat then String backslash "f"
  else if ((32 <=? n) && (n <=? 126))%nat then String c EmptyString
  else String backslash
         ("u00" +:+ String (hex_digit (n / 16)) (String (hex_digit (n mod 16)) EmptyString)).

Fixpoint json_chars (s : string) : string :=
  match s with
  | EmptyString => EmptyString
  | String c s' => json_char c +:+ json_chars s'
  end.

Definition json_string (s : string) : string :=
  String (ascii_of_nat 34) (json_chars s +:+ String (ascii_of_nat 34) EmptyString).

(** [json.dumps(v)] for a value without floats. *)
Fixpoint dumps (v : pyval) : string :=
  match v with
  | VNone => "null"
  | VBool true => "true"
  | VBool false => "false"
  | VInt z => Str.of_Z z
  | VFloat _ => unsupported v
  | VStr s => json_string s
  | VList l =>
      "[" +:+ (fix items (l : list pyval) : string :=
                 match l with
                 | [] => EmptyString
                 | [x] => dumps x
                 | x :: l' => dumps x +:+ ", " +:+ items l'
                 end) l +:+ "]"
  | VDict d =>
      "{" +:+ (fix items (d : list (string * pyval)) : string :=
                 match d with
                 | [] => EmptyString
                 | [(k, x)] => json_string k +:+ ": " +:+ dumps x
                 | (k, x) :: d' => json_string k +:+ ": " +:+ dumps x +:+ ", " +:+ items d'
                 end) d +:+ "}"
  end.

(** [json.loads(s)] for the texts ["{}"], ["[]"], ["null"], ["true"] and
    ["false"]. *)
Definition loads (s : string) : exn + pyval :=
  if String.eqb s "{}" then inr (VDict [])
  else if String.eqb s "[]" then inr (VList [])
  else if String.eqb s "null" then inr VNone
  else if String.eqb s "true" then inr (VBool true)
  else if String.eqb s "false" then inr (VBool false)
  else inl (Exn ValueError "Expecting value: line 1 column 1 (char 0)").

#[local] Instance builtins : PyBuiltins := {|
  py_str := str_of;
  py_int := int_of_str;
  py_round_div := round_div;
  py_fmt_mib := fmt_mib;
  json_dumps := dumps;
  json_loads := loads;
  b64encode := b64
|}.

End Reference.


(* ===================================================================== *)
(** ** The vocabulary of the specification *)
(* ===================================================================== *)

(** Clamping of a side into [512, 4096]. *)
Definition clamp (x : Z) : Z := Z.max 512 (Z.min 4096 x).

(** An aspect ratio the parser reads: splitting it at the colons gives at
    least two fields, and [int] accepts the first two. *)
Definition well_formed_ratio `{PyBuiltins} (ratio : string) : option (Z * Z) :=
  match Str.split ":" ratio with
  | p0 :: p1 :: _ =>
      match py_int p0, py_int p1 with
      | Some w, Some h => Some (w, h)
      | _, _ => None
      end
  | _ => None
  end.

(** An aspect ratio in the form the specification names, [W:H]: exactly
    two fields around one colon, both integers, both at least 1.  Any other
    text is malformed in the words of the specification. *)
Definition proper_ratio `{PyBuiltins} (ratio : string) : option (Z * Z) :=
  match Str.split ":" ratio with
  | [p0; p1] =>
      match py_int p0, py_int p1 with
      | Some w, Some h => if (1 <=? w) && (1 <=? h) then Some (w, h) else None
      | _, _ => None
      end
  | _ => None
  end.

(** The reference-image allow-list of the specification: the models that
    accept reference images and how many each accepts. *)
Definition allow_list : list (string * nat) :=
  [("veo3-fast-frames", 1%nat); ("veo2-fast-frames", 2%nat);
   ("veo2-fast-components", 3%nat)].

Definition allowed_images (model : option string) : option nat :=
  match model with
  | Some m => snd <$> List.find (fun entry => String.eqb (fst entry) m) allow_list
  | None => None
  end.





(** Every stored metadata text is one [json.loads] decodes. *)
Definition decodable `{PyBuiltins} (row : History.Row) : Prop :=
  Str.is_empty (History.metadata row) = true \/
  exists v, json_loads (History.metadata row) = inr v.





(** A record to append: the clock at the insert and the arguments of
    [add_history]. *)
Record Entry : Type := mkEntry {
  entry_now : Z;
  entry_type : string;
  entry_prompt : string;
  entry_response : string;
  entry_metadata : option pyval
}.

(** Appending the entries one after the other. *)
Fixpoint append_all `{PyBuiltins} (db : History.Db) (entries : list Entry) : History.Db :=
  match entries with
  | [] => db
  | e :: entries' =>
      append_all (fst (History.add_history db (entry_now e) (entry_type e)
                         (entry_prompt e) (entry_response e) (entry_metadata e)))
                 entries'
  end.

(** The ids [add_history] hands out for [n] appends after [seq]. *)
Fixpoint next_ids (seq : Z) (n : nat) : list Z :=
  match n with
  | O => []
  | S n' => (seq + 1) :: next_ids (seq + 1) n'
  end.



(* ===================================================================== *)
(** ** The vocabulary of the further properties *)
(* ===================================================================== *)

(** *** Texts *)

(** A text without the character [c]. *)
Fixpoint free_of (c : ascii) (s : string) : bool :=
  match s with
  | EmptyString => true
  | String a s' => negb (Ascii.eqb a c) && free_of c s'
  end.


(** [",".join(l)] *)
Fixpoint join_commas (l : list string) : string :=
  match l with
  | [] => ""
  | [x] => x
  | x :: l' => x +:+ String "," (join_commas l')
  end.

(** ["".join(l)] *)
Fixpoint join_texts (l : list string) : string :=
  match l with
  | [] => ""
  | s :: l' => s +:+ join_texts l'
  end.

(** A text that does not end with a slash. *)
Definition no_trailing_slash (s : string) : Prop := Str.rstrip_char "/" s = s.

(** An origin as the list of allowed origins holds it: not empty, without
    surrounding whitespace and without a comma. *)
Definition clean_origin (origin : string) : Prop :=
  origin <> "" /\ Str.strip origin = origin /\ free_of "," origin = true.

(** *** Results and requests of the adapters *)

(** A result whose [success] is a boolean, and [P] holds when it is
    true. *)
Definition flagged (P : Prop) (res : gmap string pyval) : Prop :=
  exists b, res !! "success" = Some (VBool b) /\ (b = true -> P).

(** A result with a boolean [success] and a text as [message]. *)
Definition plain_result (res : gmap string pyval) : Prop :=
  exists b msg, res !! "success" = Some (VBool b) /\ res !! "message" = Some (VStr msg).

(** The answer was a 200 whose body decodes as JSON. *)
Definition ok_json (r : Response) : Prop :=
  status_code r = 200 /\ exists v, json r = inr v.

(** The requests an operation sent were one request, answered with a 200
    whose body decodes as JSON. *)
Definition answered_ok (net : Transport) (sent : list Request) : Prop :=
  exists req r, sent = [req] /\ net req = Responded r /\ ok_json r.



(** What the Gemini adapter was asked to use for authentication, as
    [__init__] reads it: the text, trimmed and in lower case; [auto] when
    none was given. *)
Definition requested_auth_mode (auth_mode : option string) : string :=
  Str.lower (Str.strip (match configured auth_mode with Some m => m | None => "auto" end)).

(** Whether the Gemini adapter sends the key as a bearer token: when asked
    to, and otherwise for a key that starts with [sk-] unless the Google
    header was asked for. *)
Definition sends_bearer (auth_mode : option string) (key : string) : bool :=
  String.eqb (requested_auth_mode auth_mode) "bearer"
  || negb (String.eqb (requested_auth_mode auth_mode) "x-goog") && Str.startswith "sk-" key.

(** The reference images given to the Doubao adapter that are not empty
    texts, in the order given. *)
Definition given_references (reference : option (string + list string)) : list string :=
  match reference with
  | None => []
  | Some (inl value) => if Str.is_empty value then [] else [value]
  | Some (inr items) => List.filter (fun item => negb (Str.is_empty item)) items
  end.

(** The texts of a JSON value that is a text or a list of texts. *)
Definition texts_of (v : pyval) : list string :=
  match v with
  | VStr s => [s]
  | VList l => omap (fun x => match x with VStr s => Some s | _ => None end) l
  | _ => []
  end.

(** The reference images a request of the Doubao adapter carries. *)
Definition images_sent (req : Request) : list string :=
  match payload_field "image" req with
  | Some v => texts_of v
  | None => []
  end.


(** The field [k] of a JSON object, or [default]. *)
Definition field (k : string) (d : list (string * pyval)) (default : pyval) : pyval :=
  match Py.assoc k d with Some v => v | None => default end.

(** What a status query reports for a 200 answer whose body is the JSON
    object [d]: the task asked about, the status and the enhanced prompt
    of the answer, failure exactly for the status "failed", and the video
    URL exactly for the status "completed" with a URL. *)
Definition reports_status (task_id : string) (d : list (string * pyval))
    (res : gmap string pyval) : Prop :=
  let status := field "status" d (VStr "unknown") in
  let video_url := field "video_url" d VNone in
  res !! "success" = Some (VBool (negb (Py.eq_str status "failed"))) /\
  res !! "task_id" = Some (VStr task_id) /\
  res !! "status" = Some status /\
  res !! "enhanced_prompt" = Some (field "enhanced_prompt" d VNone) /\
  res !! "video_url" = (if Py.eq_str status "completed" && Py.truthy video_url
                        then Some video_url else None).

(** The task id a creation answer carries: the answer is a 200, its body
    is a JSON object, and its [id] is there and not empty, zero, false or
    null. *)
Definition task_of (r : Response) : option pyval :=
  if status_code r =? 200 then
    match json r with
    | inr (VDict d) =>
        match Py.assoc "id" d with
        | Some task_id => if Py.truthy task_id then Some task_id else None
        | None => None
        end
    | _ => None
    end
  else None.

(** The result of a creation succeeds exactly when the answer carries a
    task id, and hands that id on. *)
Definition creates_task (r : Response) (res : gmap string pyval) : Prop :=
  res !! "success" = Some (VBool (bool_decide (is_Some (task_of r)))) /\
  res !! "task_id" = task_of r.

(** A part of a Gemini answer as the API sends it: a JSON object whose
    [text], when it has one, is a text. *)
Definition plain_part (part : pyval) : Prop :=
  exists p, part = VDict p /\
            (Py.assoc "text" p = None \/ exists s, Py.assoc "text" p = Some (VStr s)).

Definition text_of_part (part : pyval) : string :=
  match part with
  | VDict p => match Py.assoc "text" p with Some (VStr s) => s | _ => "" end
  | _ => ""
  end.

(** The parts of the first candidate of an answer. *)
Definition first_candidate_parts (body : pyval) (parts : list pyval) : Prop :=
  exists d first rest content,
    body = VDict d /\
    Py.assoc "candidates" d = Some (VList (VDict first :: rest)) /\
    Py.assoc "content" first = Some (VDict content) /\
    Py.assoc "parts" content = Some (VList parts).

(** The first of the given values that is set and not empty. *)
Fixpoint first_configured (l : list (option string)) : option string :=
  match l with
  | [] => None
  | k :: l' => match configured k with Some key => Some key | None => first_configured l' end
  end.

(** The requests are one request that carries [key] as a bearer token,
    when there is a key; there is no request when there is none. *)
Definition sent_with (key : option string) (sent : list Request) : Prop :=
  match key with
  | Some k => exists req, sent = [req] /\ In ("Authorization", "Bearer " +:+ k) (req_headers req)
  | None => sent = []
  end.

(** *** The history store and the endpoints *)

(** One use of the store: an append or a clearing. *)
Inductive Op : Type :=
| Add (e : Entry)
| Clear.

(** Running the uses one after the other: the store at the end and the
    ids the appends returned. *)
Fixpoint run_ops `{PyBuiltins} (db : History.Db) (ops : list Op) : History.Db * list Z :=
  match ops with
  | [] => (db, [])
  | Add e :: ops' =>
      let '(db', record_id) :=
        History.add_history db (entry_now e) (entry_type e) (entry_prompt e)
          (entry_response e) (entry_metadata e) in
      let '(db'', ids) := run_ops db' ops' in
      (db'', record_id :: ids)
  | Clear :: ops' => run_ops (History.clear_history db) ops'
  end.

(** How many of the uses are appends. *)
Definition appends (ops : list Op) : nat :=
  length (List.filter (fun op => match op with Add _ => true | Clear => false end) ops).

(** The ids of the stored rows grow in rowid order, and each lies
    between 1 and the sequence. *)
Definition ids_in_sequence (db : History.Db) : Prop :=
  StronglySorted Z.lt (List.map History.id (History.rows db)) /\
  Forall (fun r => 1 <= History.id r <= History.seq db) (History.rows db) /\
  0 <= History.seq db.

(** The text [add_history] stores for a metadata argument. *)
Definition metadata_text `{PyBuiltins} (metadata : option pyval) : string :=
  match metadata with
  | Some m => if Py.truthy m then json_dumps m else "{}"
  | None => "{}"
  end.


(** The metadata the VEO endpoint records for a created task: with
    [has_images] set exactly when images went to the provider. *)
Definition veo_history_metadata (request : VideoRouter.VeoVideoGenerationRequest)
    (task_id status : pyval) : pyval :=
  VDict [("service", VStr "veo-video");
         ("model", opt_str (VideoRouter.model request));
         ("aspect_ratio", opt_str (VideoRouter.aspect_ratio request));
         ("task_id", task_id);
         ("status", status);
         ("has_images",
          VBool match VideoRouter.forwarded_images request with
                | Some _ => true
                | None => false
                end)].



(* ===================================================================== *)
(** * Properties *)
(* ===================================================================== *)

(** ** Stripping and prefixes *)

Lemma lstrip_fixed (c : ascii) (s : string) :
  Str.isspace c = false -> Str.lstrip (String c s) = String c s.
Proof. intros Hc. simpl. now rewrite Hc. Qed.

Lemma lstrip_cases (s : string) :
  Str.lstrip s = EmptyString \/
  exists c r, Str.lstrip s = String c r /\ Str.isspace c = false.
Proof.
  induction s as [|c s IH]; simpl; [now left|].
  destruct (Str.isspace c) eqn:Hc; [exact IH|].
  right. now exists c, s.
Qed.

Lemma rstrip_cases (c : ascii) (s : string) :
  Str.rstrip (String c s) = EmptyString \/
  exists r, Str.rstrip (String c s) = String c r /\
            (r = EmptyString -> Str.isspace c = false).
Proof.
  simpl. destruct (Str.rstrip s) as [|c' r'] eqn:Hr.
  - destruct (Str.isspace c) eqn:Hc; [now left|]. right. now exists EmptyString.
  - right. exists (String c' r'). split; [reflexivity|discriminate].
Qed.

Lemma rstrip_idempotent (s : string) : Str.rstrip (Str.rstrip s) = Str.rstrip s.
Proof.
  induction s as [|c s IH]; [reflexivity|].
  simpl. destruct (Str.rstrip s) as [|c' r'] eqn:Hr.
  - destruct (Str.isspace c) eqn:Hc; [reflexivity|]. simpl. now rewrite Hc.
  - change (Str.rstrip (String c (String c' r'))) with
      (match Str.rstrip (String c' r') with
       | EmptyString => if Str.isspace c then EmptyString else String c EmptyString
       | String a b => String c (String a b)
       end).
    now rewrite IH.
Qed.

Lemma strip_fixed_lstrip (s : string) : Str.lstrip (Str.strip s) = Str.strip s.
Proof.
  unfold Str.strip.
  destruct (lstrip_cases s) as [-> | (c & r & -> & Hc)]; [reflexivity|].
  destruct (rstrip_cases c r) as [-> | (r' & -> & _)]; [reflexivity|].
  now apply lstrip_fixed.
Qed.

Lemma strip_idempotent (s : string) : Str.strip (Str.strip s) = Str.strip s.
Proof.
  unfold Str.strip at 1. rewrite strip_fixed_lstrip.
  unfold Str.strip. apply rstrip_idempotent.
Qed.

Lemma rstrip_cons_clean (c : ascii) (t : string) :
  Str.rstrip t = t -> t <> EmptyString -> Str.rstrip (String c t) = String c t.
Proof.
  intros Ht Hne. simpl. rewrite Ht. destruct t; [contradiction|reflexivity].
Qed.

Lemma rstrip_app_clean (p t : string) (c : ascii) :
  Str.isspace c = false -> Str.rstrip t = t ->
  Str.rstrip (p +:+ String c t) = p +:+ String c t.
Proof.
  intros Hc Ht.
  assert (Hbase : Str.rstrip (String c t) = String c t).
  { simpl. rewrite Ht. destruct t; [now rewrite Hc|reflexivity]. }
  induction p as [|a p IH]; [exact Hbase|].
  cbn [String.append]. apply rstrip_cons_clean; [exact IH|].
  destruct p; discriminate.
Qed.

Lemma strip_clean (s : string) : Str.rstrip (Str.strip s) = Str.strip s.
Proof. unfold Str.strip. apply rstrip_idempotent. Qed.

Lemma startswith_nonempty (p s : string) :
  p <> EmptyString -> Str.startswith p s = true -> Str.is_empty s = false.
Proof. destruct p; [contradiction|]. destruct s; [discriminate|reflexivity]. Qed.

Lemma ensure_fixed (r : string) :
  Str.is_empty r = false -> Str.strip r = r -> Str.startswith "data:" r = true ->
  DoubaoImageService._ensure_data_url r = r.
Proof.
  intros He Hs Hd. unfold DoubaoImageService._ensure_data_url.
  cbv zeta. now rewrite He, Hs, Hd.
Qed.

(** C9.  The reference-image normalizer of the Doubao adapter is
    idempotent: for every string [s], applying [_ensure_data_url] to its own
    result gives that result again. *)
Theorem ensure_data_url_idempotent (s : string) :
  DoubaoImageService._ensure_data_url (DoubaoImageService._ensure_data_url s)
  = DoubaoImageService._ensure_data_url s.
Proof.
  destruct (Str.is_empty s) eqn:Hs.
  { destruct s; [reflexivity|discriminate]. }
  assert (Hu : DoubaoImageService._ensure_data_url s =
               if Str.startswith "data:" (Str.strip s) then Str.strip s
               else "data:image/png;base64," +:+ Str.strip s).
  { unfold DoubaoImageService._ensure_data_url. now rewrite Hs. }
  rewrite Hu. destruct (Str.startswith "data:" (Str.strip s)) eqn:Hd.
  - apply ensure_fixed; [|apply strip_idempotent|exact Hd].
    now apply (startswith_nonempty "data:").
  - apply ensure_fixed; [reflexivity| |reflexivity].
    unfold Str.strip at 1.
    change (Str.lstrip ("data:image/png;base64," +:+ Str.strip s))
      with ("data:image/png;base64" +:+ String "," (Str.strip s)).
    apply rstrip_app_clean; [reflexivity|apply strip_clean].
Qed.

(** ** The pixel size of the Doubao adapter *)

Lemma upper_lower_char (c : ascii) :
  Str.upper_char (Str.lower_char c) = Str.upper_char c.
Proof. destruct c as [[] [] [] [] [] [] [] []]; reflexivity. Qed.

Lemma upper_upper_char (c : ascii) :
  Str.upper_char (Str.upper_char c) = Str.upper_char c.
Proof. destruct c as [[] [] [] [] [] [] [] []]; reflexivity. Qed.

Lemma upper_lower (s : string) : Str.upper (Str.lower s) = Str.upper s.
Proof.
  unfold Str.upper, Str.lower.
  induction s as [|c s IH]; [reflexivity|].
  cbn. now rewrite upper_lower_char, IH.
Qed.

Lemma upper_upper (s : string) : Str.upper (Str.upper s) = Str.upper s.
Proof.
  unfold Str.upper.
  induction s as [|c s IH]; [reflexivity|].
  cbn. now rewrite upper_upper_char, IH.
Qed.

Lemma base_value_cases (image_size : string) :
  let base := DoubaoImageService.base_value image_size in
  base = 1024 \/ base = 2048 \/ base = 4096.
Proof.
  unfold DoubaoImageService.base_value. cbv zeta.
  repeat (destruct (String.eqb _ _); [tauto|]). tauto.
Qed.

Lemma clamp_bounds (x : Z) : 512 <= clamp x <= 4096.
Proof. unfold clamp. lia. Qed.

Lemma clamp_max (x : Z) : Z.max 512 (Z.min 4096 (Z.max 512 x)) = clamp x.
Proof. unfold clamp. lia. Qed.

Lemma clamp_base (image_size : string) :
  clamp (DoubaoImageService.base_value image_size)
  = DoubaoImageService.base_value image_size.
Proof.
  unfold clamp. destruct (base_value_cases image_size) as [H|[H|H]]; cbv zeta in H; lia.
Qed.

Section SizeFacts.
Context `{PyBuiltins}.

Lemma parse_ratio_well_formed (ratio : string) :
  DoubaoImageService._parse_ratio ratio =
  match well_formed_ratio ratio with
  | Some (w, h) => (Z.max 1 w, Z.max 1 h)
  | None => (1, 1)
  end.
Proof.
  unfold DoubaoImageService._parse_ratio, well_formed_ratio.
  destruct (Str.split ":" ratio) as [|p0 [|p1 rest]]; try reflexivity.
  destruct (py_int p0), (py_int p1); reflexivity.
Qed.

Lemma parse_ratio_positive (ratio : string) :
  1 <= fst (DoubaoImageService._parse_ratio ratio) /\
  1 <= snd (DoubaoImageService._parse_ratio ratio).
Proof.
  rewrite parse_ratio_well_formed.
  destruct (well_formed_ratio ratio) as [[w h]|]; simpl; lia.
Qed.

Lemma build_dimensions_eq (aspect_ratio image_size : string) :
  let base := DoubaoImageService.base_value image_size in
  let ratio := DoubaoImageService._parse_ratio aspect_ratio in
  DoubaoImageService.build_dimensions aspect_ratio image_size =
  if snd ratio <=? fst ratio
  then (base, clamp (py_round_div (base * snd ratio) (fst ratio)))
  else (clamp (py_round_div (base * fst ratio) (snd ratio)), base).
Proof.
  cbv zeta. unfold DoubaoImageService.build_dimensions.
  pose proof (parse_ratio_positive aspect_ratio) as [Hw Hh].
  destruct (DoubaoImageService._parse_ratio aspect_ratio) as [w h]. simpl in *.
  pose proof (clamp_base image_size) as Hb. unfold clamp in Hb.
  destruct (h <=? w); rewrite Hb, clamp_max; now rewrite Z.max_l by lia.
Qed.

Lemma parse_ratio_proper (ratio : string) (w h : Z) :
  proper_ratio ratio = Some (w, h) -> DoubaoImageService._parse_ratio ratio = (w, h).
Proof.
  unfold proper_ratio, DoubaoImageService._parse_ratio.
  destruct (Str.split ":" ratio) as [|p0 [|p1 [|p2 rest]]]; try discriminate.
  destruct (py_int p0) as [w'|], (py_int p1) as [h'|]; try discriminate.
  destruct (1 <=? w') eqn:Hw, (1 <=? h') eqn:Hh; try discriminate.
  intros [= <- <-]. f_equal; lia.
Qed.

(** C4, as amended.  For every aspect-ratio string and size-class string,
    the pixel-size derivation reads the first two colon-separated fields
    of the ratio as integers, takes 1 for a value below 1 and ignores
    further fields (so a ratio W:H is read as W and H), and falls back to
    1:1 when there are fewer than two fields or [int] rejects one of the
    first two; nothing is raised.  It maps the size class, whatever its
    case, to a base of 1024, 2048 or 4096, with 1024 for an unknown class;
    gives the larger side the base and the smaller side
    round(base * min / max), clamped into [512, 4096]; so both sides
    always lie in [512, 4096]. *)
Theorem build_size_derivation (aspect_ratio image_size : string) :
  let base := DoubaoImageService.base_value image_size in
  let ratio := DoubaoImageService._parse_ratio aspect_ratio in
  let dims := DoubaoImageService.build_dimensions aspect_ratio image_size in
  (* the ratio: the first two fields, each at least 1, or the 1:1 fallback *)
  ratio = match well_formed_ratio aspect_ratio with
          | Some (w, h) => (Z.max 1 w, Z.max 1 h)
          | None => (1, 1)
          end /\
  (forall w h, proper_ratio aspect_ratio = Some (w, h) -> ratio = (w, h)) /\
  (* the size class *)
  base = (if String.eqb (Str.upper image_size) "1K" then 1024
          else if String.eqb (Str.upper image_size) "2K" then 2048
          else if String.eqb (Str.upper image_size) "4K" then 4096
          else 1024) /\
  DoubaoImageService.base_value (Str.lower image_size) = base /\
  DoubaoImageService.base_value (Str.upper image_size) = base /\
  (base = 1024 \/ base = 2048 \/ base = 4096) /\
  (* the larger side is the base, the smaller one the clamped rounding *)
  dims = (if snd ratio <=? fst ratio
          then (base, clamp (py_round_div (base * snd ratio) (fst ratio)))
          else (clamp (py_round_div (base * fst ratio) (snd ratio)), base)) /\
  (* both sides are in range *)
  512 <= fst dims <= 4096 /\ 512 <= snd dims <= 4096 /\
  (* and the result is their text *)
  DoubaoImageService._build_size aspect_ratio image_size
  = Str.of_Z (fst dims) +:+ "x" +:+ Str.of_Z (snd dims).
Proof.
  cbv zeta.
  pose proof (base_value_cases image_size) as Hbase. cbv zeta in Hbase.
  pose proof (build_dimensions_eq aspect_ratio image_size) as Hd. cbv zeta in Hd.
  split; [apply parse_ratio_well_formed|].
  split; [intros w h; apply parse_ratio_proper|].
  repeat split.
  - unfold DoubaoImageService.base_value. now rewrite upper_lower.
  - unfold DoubaoImageService.base_value. now rewrite upper_upper.
  - exact Hbase.
  - exact Hd.
  - rewrite Hd. destruct (_ <=? _); simpl; [lia|apply clamp_bounds].
  - rewrite Hd. destruct (_ <=? _); simpl; [lia|apply clamp_bounds].
  - rewrite Hd. destruct (_ <=? _); simpl; [apply clamp_bounds|lia].
  - rewrite Hd. destruct (_ <=? _); simpl; [apply clamp_bounds|lia].
  - unfold DoubaoImageService._build_size.
    now destruct (DoubaoImageService.build_dimensions aspect_ratio image_size).
Qed.

End SizeFacts.

(** ** Results of the adapters *)

Lemma bind_exn_inr {A B : Type} (m : exn + A) (f : A -> exn + B) (y : B) :
  bind_exn m f = inr y -> exists x, m = inr x /\ f x = inr y.
Proof. destruct m as [e|x]; simpl; [discriminate|]. eauto. Qed.

Lemma try_except_elim {A : Type} (P : A -> Prop) (body : exn + A) (handler : exn -> A) :
  (forall x, body = inr x -> P x) -> (forall e, P (handler e)) ->
  P (try_except body handler).
Proof. intros Hok Hexn. destruct body; simpl; auto. Qed.

Lemma try_bind_elim {A B : Type} (P : B -> Prop) (m : exn + A) (f : A -> exn + B)
      (handler : exn -> B) :
  (forall x y, f x = inr y -> P y) -> (forall e, P (handler e)) ->
  P (try_except (bind_exn m f) handler).
Proof.
  intros Hok Hexn. apply try_except_elim; [|exact Hexn].
  intros y Hy. apply bind_exn_inr in Hy as (x & _ & Hy). eauto.
Qed.

Lemma run_send (req : Request) {A : Type} (k : Outcome -> A) (net : Transport) :
  Net.run (Net.bind (Net.send req) (fun out => Net.ret (k out))) net = (k (net req), [req]).
Proof. reflexivity. Qed.

Ltac step_inr H :=
  match type of H with
  | bind_exn _ _ = inr _ =>
      let x := fresh "x" in
      let Hx := fresh "Hx" in
      apply bind_exn_inr in H as (x & Hx & H)
  | inr _ = inr _ => injection H as <-
  | inl _ = inr _ => discriminate H
  | (if ?b then _ else _) = inr _ => destruct b eqn:?
  | (match ?m with _ => _ end) = inr _ => destruct m eqn:?
  end.

Ltac invert_inr := repeat match goal with H : _ |- _ => step_inr H end.

















Section ResultFacts.
Context `{PyBuiltins}.






End ResultFacts.

Create HintDb adapters.
#[local] Hint Unfold
  DalleService.generate_image StableDiffusionService.generate_image
  GeminiImageService.generate_image DoubaoImageService.generate_image
  ChatService.chat_completion MimoChatService.chat_completion
  SoraVideoService.create_video SoraVideoService.query_video
  VeoVideoService.create_video VeoVideoService.query_video
  VideoAnalysisService.analyze_video VideoAnalysisService.analyze_video_from_base64
  : adapters.

Section AdapterFacts.
Context `{PyBuiltins}.

Lemma perform_unconfigured (c : Call) (net : Transport) :
  configured (credential c) = None ->
  exists r, Net.run (perform c) net = (r, []) /\ r !! "success" = Some (VBool false).
Proof.
  destruct c; simpl; intros Hkey; autounfold with adapters;
    rewrite Hkey; eexists; split; reflexivity.
Qed.

(** C6.  For every adapter operation, if the credential is not configured
    the call returns a result with success=false and sends no request:
    the network step is never reached. *)
Theorem unconfigured_makes_no_request (c : Call) (net : Transport) :
  configured (credential c) = None ->
  result_of (Net.run (perform c) net) !! "success" = Some (VBool false) /\
  requests_of (Net.run (perform c) net) = [].
Proof.
  intros Hkey. destruct (perform_unconfigured c net Hkey) as (r & -> & Hr).
  now split.
Qed.

Lemma with_credential_unconfigured (key : option string) (c : Call) :
  configured key = None -> configured (credential (with_credential key c)) = None.
Proof.
  intros Hkey. destruct c; simpl; try exact Hkey;
    unfold VideoAnalysisService.effective_key; simpl; now rewrite Hkey.
Qed.

Lemma perform_with_absent (c : Call) (net : Transport) :
  Net.run (perform (with_credential (Some "") c)) net
  = Net.run (perform (with_credential None c)) net.
Proof. destruct c; reflexivity. Qed.

(** C10.  An empty-string credential is treated like an absent one by every
    adapter operation: with api_key="" the operation returns exactly what
    it returns with api_key=None, a result with success=false, and no
    request is sent. *)
Theorem empty_credential_is_absent (c : Call) (net : Transport) :
  Net.run (perform (with_credential (Some "") c)) net
  = Net.run (perform (with_credential None c)) net /\
  result_of (Net.run (perform (with_credential (Some "") c)) net) !! "success"
  = Some (VBool false) /\
  requests_of (Net.run (perform (with_credential (Some "") c)) net) = [].
Proof.
  split; [apply perform_with_absent|].
  destruct (perform_unconfigured (with_credential (Some "") c) net) as (r & -> & Hr).
  - now apply with_credential_unconfigured.
  - now split.
Qed.


End AdapterFacts.

(** ** Video status, reference images and option coercion *)

Section VideoFacts.
Context `{PyBuiltins}.

Lemma query_result_failed (done_message task_id : string) (d : list (string * pyval)) :
  Py.assoc "status" d = Some (VStr "failed") ->
  exists res, query_result done_message task_id (VDict d) = inr res /\
              res !! "success" = Some (VBool false) /\
              res !! "message" = Some (VStr "视频生成失败").
Proof.
  intros Hs. unfold query_result. simpl. rewrite Hs. simpl.
  eexists. split; [reflexivity|]. split; reflexivity.
Qed.

(** C5.  For every query_video response whose status string is "failed",
    the result has success=false although the HTTP status is 200; for both
    video providers, Sora and VEO. *)
Theorem failed_status_is_failure (sora : SoraVideoService.t) (veo : VeoVideoService.t)
    (task_id : string) (r : Response) (d : list (string * pyval)) :
  status_code r = 200 ->
  json r = inr (VDict d) ->
  Py.assoc "status" d = Some (VStr "failed") ->
  let net : Transport := fun _ => Responded r in
  result_of (Net.run (SoraVideoService.query_video sora task_id) net) !! "success"
  = Some (VBool false) /\
  result_of (Net.run (VeoVideoService.query_video veo task_id) net) !! "success"
  = Some (VBool false).
Proof.
  intros Hcode Hjson Hstatus net. split.
  - unfold SoraVideoService.query_video. destruct (configured _); [|reflexivity].
    rewrite run_send. unfold net, result_of, SoraVideoService.parse_query.
    cbn [response_of bind_exn fst]. rewrite Hcode, Hjson.
    change (negb (200 =? 200)) with false. cbn [bind_exn].
    destruct (query_result_failed "视频生成完成" task_id d Hstatus) as (res & -> & Hres & _).
    exact Hres.
  - unfold VeoVideoService.query_video. destruct (configured _); [|reflexivity].
    rewrite run_send. unfold net, result_of, VeoVideoService.parse_query.
    cbn [response_of bind_exn fst]. rewrite Hcode, Hjson.
    change (negb (200 =? 200)) with false. cbn [bind_exn].
    destruct (query_result_failed "VEO 视频生成完成" task_id d Hstatus) as (res & -> & Hres & _).
    exact Hres.
Qed.

End VideoFacts.

#[local] Arguments String.eqb : simpl never.

Lemma model_supported_allowed (model : option string) :
  VideoRouter.model_supported model
  = match allowed_images model with Some _ => true | None => false end.
Proof.
  destruct model as [m|]; [|reflexivity].
  unfold VideoRouter.model_supported, str_in, VideoRouter.image_supported_models,
    allowed_images, allow_list. simpl.
  rewrite !(String.eqb_sym m).
  repeat (destruct (String.eqb _ m); [reflexivity|]). reflexivity.
Qed.

Lemma forwarded_images_allowed (request : VideoRouter.VeoVideoGenerationRequest)
      (k : nat) (l : list string) :
  allowed_images (VideoRouter.model request) = Some k ->
  VideoRouter.images request = Some l -> l <> [] ->
  VideoRouter.forwarded_images request = Some (take k l) /\ take k l <> [].
Proof.
  intros Hk Hl Hne. unfold VideoRouter.forwarded_images.
  rewrite Hl. destruct l as [|x l]; [contradiction|].
  pose proof (model_supported_allowed (VideoRouter.model request)) as Hs.
  rewrite Hk in Hs. rewrite Hs. simpl negb. cbv iota.
  destruct (VideoRouter.model request) as [m|]; [|discriminate].
  unfold allowed_images, allow_list in Hk. simpl in Hk.
  unfold VideoRouter.model_is.
  destruct (String.eqb_spec "veo3-fast-frames" m) as [Hm|Hm].
  { subst m. injection Hk as <-. now split. }
  destruct (String.eqb_spec "veo2-fast-frames" m) as [Hm'|Hm'].
  { subst m. injection Hk as <-.
    rewrite (proj2 (String.eqb_neq _ _)) by discriminate. now split. }
  destruct (String.eqb_spec "veo2-fast-components" m) as [Hm''|Hm'']; [|discriminate].
  subst m. injection Hk as <-.
  rewrite !(proj2 (String.eqb_neq _ _)) by discriminate. now split.
Qed.

Lemma forwarded_images_not_allowed (request : VideoRouter.VeoVideoGenerationRequest) :
  allowed_images (VideoRouter.model request) = None ->
  VideoRouter.forwarded_images request = None.
Proof.
  intros Hk. unfold VideoRouter.forwarded_images.
  pose proof (model_supported_allowed (VideoRouter.model request)) as Hs.
  rewrite Hk in Hs. rewrite Hs.
  destruct (VideoRouter.images request) as [[|x l]|];
    destruct (configured (VideoRouter.image_data request)); reflexivity.
Qed.

(** C7.  For every VEO video-generation request: when the selected model
    is on the reference-image allow-list with a maximum of k images, a
    supplied list of images is cut to its first k elements before it is
    forwarded; when the model is not on the allow-list, no image is
    forwarded at all. *)
Theorem veo_reference_images (veo : VeoVideoService.t) (key : string)
    (request : VideoRouter.VeoVideoGenerationRequest) (net : Transport) :
  configured (VeoVideoService.api_key veo) = Some key ->
  exists req,
    requests_of (Net.run (VideoRouter.create_call veo request) net) = [req] /\
    match allowed_images (VideoRouter.model request) with
    | Some k =>
        forall l, VideoRouter.images request = Some l -> l <> [] ->
                  VideoRouter.forwarded_images request = Some (take k l) /\
                  payload_field "images" req = Some (str_list (take k l))
    | None =>
        VideoRouter.forwarded_images request = None /\
        payload_field "images" req = None
    end.
Proof.
  intros Hkey. unfold VideoRouter.create_call, VeoVideoService.create_video.
  rewrite Hkey, run_send. eexists. split; [reflexivity|].
  unfold payload_field, VeoVideoService.create_payload. simpl req_json. cbv iota.
  destruct (allowed_images (VideoRouter.model request)) as [k|] eqn:Hk.
  - intros l Hl Hne.
    destruct (forwarded_images_allowed request k l Hk Hl Hne) as [-> Htake].
    split; [reflexivity|].
    destruct (take k l) as [|x t]; [contradiction|]. reflexivity.
  - rewrite (forwarded_images_not_allowed request Hk). split; reflexivity.
Qed.

(** C8.  For every create_video call, an option outside its range is
    replaced by the default and the call goes on: the request is sent, with
    orientation "landscape" unless it was "portrait" or "landscape", with
    duration 15 unless it was 15 or 25 (Sora), and with aspect ratio "16:9"
    unless it was "16:9" or "9:16" (VEO). *)
Theorem create_video_coerces_options
    (sora : SoraVideoService.t) (veo : VeoVideoService.t) (sora_key veo_key : string)
    (prompt : string) (orientation : option string) (duration : option Z)
    (watermark private : bool) (images : option (list string))
    (model aspect_ratio : option string) (enhance_prompt enable_upsample : option bool)
    (net : Transport) :
  configured (SoraVideoService.api_key sora) = Some sora_key ->
  configured (VeoVideoService.api_key veo) = Some veo_key ->
  (exists req o d,
      requests_of (Net.run (SoraVideoService.create_video sora prompt orientation
                              duration watermark private images) net) = [req] /\
      payload_field "orientation" req = Some (VStr o) /\
      payload_field "duration" req = Some (VInt d) /\
      (o = "portrait" \/ o = "landscape") /\
      (orientation = Some o \/
       orientation <> Some "portrait" /\ orientation <> Some "landscape" /\
       o = "landscape") /\
      (d = 15 \/ d = 25) /\
      (duration = Some d \/
       duration <> Some 15 /\ duration <> Some 25 /\ d = 15)) /\
  (exists req a,
      requests_of (Net.run (VeoVideoService.create_video veo prompt model aspect_ratio
                              enhance_prompt enable_upsample images) net) = [req] /\
      payload_field "aspect_ratio" req = Some (VStr a) /\
      (a = "16:9" \/ a = "9:16") /\
      (aspect_ratio = Some a \/
       aspect_ratio <> Some "16:9" /\ aspect_ratio <> Some "9:16" /\ a = "16:9")).
Proof.
  intros Hs Hv. split.
  - unfold SoraVideoService.create_video. rewrite Hs, run_send.
    eexists. exists (SoraVideoService.valid_orientation orientation),
      (SoraVideoService.valid_duration duration).
    split; [reflexivity|]. split; [reflexivity|]. split; [reflexivity|].
    unfold SoraVideoService.valid_orientation, SoraVideoService.valid_duration, str_in.
    repeat split.
    + destruct orientation as [o|]; [|now right]. simpl.
      destruct (String.eqb_spec o "portrait") as [->|]; [now left|].
      destruct (String.eqb_spec o "landscape") as [->|]; now right.
    + destruct orientation as [o|]; [|right; repeat split; congruence]. simpl.
      destruct (String.eqb_spec o "portrait") as [->|]; [now left|].
      destruct (String.eqb_spec o "landscape") as [->|]; [now left|].
      right. repeat split; congruence.
    + destruct duration as [d|]; [|now left].
      destruct (Z.eqb_spec d 15) as [->|]; [now left|].
      destruct (Z.eqb_spec d 25) as [->|]; [now right|now left].
    + destruct duration as [d|]; [|right; repeat split; congruence].
      destruct (Z.eqb_spec d 15) as [->|]; [now left|].
      destruct (Z.eqb_spec d 25) as [->|]; [now left|].
      right. repeat split; congruence.
  - unfold VeoVideoService.create_video. rewrite Hv, run_send.
    eexists. exists (VeoVideoService.valid_aspect_ratio aspect_ratio).
    split; [reflexivity|]. split; [reflexivity|].
    unfold VeoVideoService.valid_aspect_ratio, str_in. split.
    + destruct aspect_ratio as [a|]; [|now left]. simpl.
      destruct (String.eqb_spec a "16:9") as [->|]; [now left|].
      destruct (String.eqb_spec a "9:16") as [->|]; [now right|now left].
    + destruct aspect_ratio as [a|]; [|right; repeat split; congruence]. simpl.
      destruct (String.eqb_spec a "16:9") as [->|]; [now left|].
      destruct (String.eqb_spec a "9:16") as [->|]; [now left|].
      right. repeat split; congruence.
Qed.

(** ** The history store *)

(** C1.  The claim is that [delete(id)] returns true when a record with
    that id existed and was removed, and false when there is none.
    [HistoryManager] defines no [delete_history]: whatever the id and the
    stored records, the endpoint that calls it answers with status 500 and
    the store is left as it was. *)
Theorem delete_history_item_fails
    (call_attribute : string -> History.Db -> Z -> (exn + pyval) * History.Db)
    (db : History.Db) (item_id : Z) :
  History.delete_history_item call_attribute db item_id
  = (History.HTTPException 500
       "'HistoryManager' object has no attribute 'delete_history'", db).
Proof. reflexivity. Qed.



Lemma insert_desc_perm (r : History.Row) (l : list History.Row) :
  Permutation (History.insert_desc r l) (r :: l).
Proof.
  induction l as [|x l IH]; simpl; [reflexivity|].
  destruct (_ <? _); [|reflexivity].
  rewrite IH. apply perm_swap.
Qed.

Lemma order_perm (l : list History.Row) :
  Permutation (History.order_by_created_at_desc l) l.
Proof.
  induction l as [|r l IH]; simpl; [reflexivity|].
  rewrite insert_desc_perm. now constructor.
Qed.






(** A row later than all the others comes first. *)
Lemma order_newest_last (l : list History.Row) (r : History.Row) :
  Forall (fun x => History.created_at x < History.created_at r) l ->
  History.order_by_created_at_desc (l ++ [r]) = r :: History.order_by_created_at_desc l.
Proof.
  induction 1 as [|x l Hx Hl IH]; [reflexivity|].
  simpl. rewrite IH. simpl.
  now rewrite (proj2 (Z.ltb_lt _ _) Hx).
Qed.


Section HistoryFacts.
Context `{PyBuiltins}.

Lemma to_records_decodable (l : list History.Row) :
  Forall decodable l ->
  exists rs, History.to_records l = inr rs /\
             List.map History.rec_id rs = List.map History.id l /\
             List.map History.rec_created_at rs = List.map History.created_at l.
Proof.
  induction 1 as [|row l Hrow Hl (rs & Hrs & Hid & Ht)]; [now exists []|].
  assert (exists meta, History.to_record row =
                       inr (History.mkRecord (History.id row) (History.type row)
                              (History.prompt row) (History.response row) meta
                              (History.created_at row))) as [meta Hmeta].
  { unfold History.to_record. destruct Hrow as [-> | [v ->]]; [now eexists|].
    destruct (Str.is_empty _); now eexists. }
  eexists. simpl. rewrite Hmeta, Hrs. simpl. split; [reflexivity|].
  simpl. now rewrite Hid, Ht.
Qed.


End HistoryFacts.





Section ListFacts.
Context `{PyBuiltins}.



End ListFacts.

(* ===================================================================== *)
(** * Further properties of the code *)
(* ===================================================================== *)

(** ** Splitting and joining texts *)

Lemma split_nonempty (sep : ascii) (s : string) : Str.split sep s <> [].
Proof.
  induction s as [|c s IH]; simpl; [discriminate|].
  destruct (Ascii.eqb c sep); [discriminate|].
  destruct (Str.split sep s); [contradiction|discriminate].
Qed.

Lemma split_free (sep : ascii) (s : string) :
  free_of sep s = true -> Str.split sep s = [s].
Proof.
  induction s as [|c s IH]; simpl; [reflexivity|].
  destruct (Ascii.eqb c sep); simpl; [discriminate|].
  intros Hs. now rewrite IH.
Qed.

Lemma split_app (sep : ascii) (p t : string) :
  free_of sep p = true -> Str.split sep (p +:+ String sep t) = p :: Str.split sep t.
Proof.
  induction p as [|c p IH]; simpl.
  - now rewrite Ascii.eqb_refl.
  - destruct (Ascii.eqb c sep); simpl; [discriminate|].
    intros Hp. now rewrite IH.
Qed.

Lemma split1_app (sep : ascii) (p t : string) :
  free_of sep p = true -> Str.split1 sep (p +:+ String sep t) = [p; t].
Proof.
  induction p as [|c p IH]; simpl.
  - now rewrite Ascii.eqb_refl.
  - destruct (Ascii.eqb c sep); simpl; [discriminate|].
    intros Hp. now rewrite IH.
Qed.

Lemma split1_nonempty (sep : ascii) (s : string) : Str.split1 sep s <> [].
Proof.
  induction s as [|c s IH]; simpl; [discriminate|].
  destruct (Ascii.eqb c sep); [discriminate|].
  destruct (Str.split1 sep s); [contradiction|discriminate].
Qed.

Lemma split_free_of (sep : ascii) (s : string) :
  Forall (fun field => free_of sep field = true) (Str.split sep s).
Proof.
  induction s as [|c s IH]; simpl; [now repeat constructor|].
  destruct (Ascii.eqb c sep) eqn:Hc; [now constructor|].
  destruct (Str.split sep s) as [|h t]; [now repeat constructor; simpl; rewrite Hc|].
  inversion IH as [|? ? Hh Ht]; subst. constructor; [|exact Ht].
  simpl. now rewrite Hc.
Qed.

Lemma rstrip_keeps (c : ascii) (t : string) :
  Str.isspace c = false -> Str.rstrip (String c t) = String c (Str.rstrip t).
Proof. intros Hc. simpl. destruct (Str.rstrip t); [now rewrite Hc|reflexivity]. Qed.

Lemma rstrip_app (p t : string) (c : ascii) :
  Str.isspace c = false -> Str.rstrip (p +:+ String c t) = p +:+ String c (Str.rstrip t).
Proof.
  intros Hc. induction p as [|a p IH]; [now apply rstrip_keeps|].
  cbn [String.append]. simpl. cbn [String.append] in IH. rewrite IH.
  destruct p; reflexivity.
Qed.

Lemma lstrip_free_of (c : ascii) (s : string) :
  free_of c s = true -> free_of c (Str.lstrip s) = true.
Proof.
  induction s as [|a s IH]; [reflexivity|]. simpl.
  intros Hs. apply andb_prop in Hs as [Ha Hs].
  destruct (Str.isspace a); [now apply IH|]. simpl. now rewrite Ha.
Qed.

Lemma rstrip_free_of (c : ascii) (s : string) :
  free_of c s = true -> free_of c (Str.rstrip s) = true.
Proof.
  induction s as [|a s IH]; [reflexivity|]. simpl.
  intros Hs. apply andb_prop in Hs as [Ha Hs]. specialize (IH Hs).
  destruct (Str.rstrip s) as [|b r].
  - destruct (Str.isspace a); [reflexivity|]. simpl. now rewrite Ha.
  - cbn [free_of] in *. now rewrite Ha.
Qed.

Lemma strip_free_of (c : ascii) (s : string) :
  free_of c s = true -> free_of c (Str.strip s) = true.
Proof. intros Hs. unfold Str.strip. now apply rstrip_free_of, lstrip_free_of. Qed.

Lemma free_of_app (c : ascii) (p t : string) :
  free_of c (p +:+ t) = free_of c p && free_of c t.
Proof.
  induction p as [|a p IH]; [reflexivity|].
  cbn [String.append free_of]. change (String a p +:+ t) with (String a (p +:+ t)).
  cbn [free_of]. rewrite IH. now rewrite andb_assoc.
Qed.

Lemma app_assoc_string (a b c : string) : (a +:+ b) +:+ c = a +:+ (b +:+ c).
Proof.
  induction a as [|x a IH]; [reflexivity|].
  change (String x a +:+ b) with (String x (a +:+ b)).
  change (String x (a +:+ b) +:+ c) with (String x ((a +:+ b) +:+ c)).
  now rewrite IH.
Qed.

Lemma append_empty_r (s : string) : s +:+ "" = s.
Proof.
  induction s as [|c s IH]; [reflexivity|].
  change (String c s +:+ "") with (String c (s +:+ "")). now rewrite IH.
Qed.

Lemma startswith_app (p s : string) :
  Str.startswith p s = true -> exists r, s = p +:+ r.
Proof.
  unfold Str.startswith. revert s.
  induction p as [|a p IH]; intros s Hs; [now exists s|].
  destruct s as [|b s]; [discriminate|].
  change (String.prefix (String a p) (String b s))
    with (if Ascii.ascii_dec a b then String.prefix p s else false) in Hs.
  destruct (Ascii.ascii_dec a b) as [<-|]; [|discriminate].
  destruct (IH s Hs) as [r ->]. now exists r.
Qed.

Lemma startswith_prefix (p r : string) : Str.startswith p (p +:+ r) = true.
Proof.
  unfold Str.startswith. induction p as [|a p IH]; [now destruct r|].
  change (String a p +:+ r) with (String a (p +:+ r)).
  change (String.prefix (String a p) (String a (p +:+ r)))
    with (if Ascii.ascii_dec a a then String.prefix p (p +:+ r) else false).
  now destruct (Ascii.ascii_dec a a).
Qed.

Lemma rstrip_char_app (x : ascii) (s : string) :
  Str.rstrip_char x (s +:+ String x "") = Str.rstrip_char x s.
Proof.
  induction s as [|c s IH].
  - simpl. now rewrite Ascii.eqb_refl.
  - change (String c s +:+ String x "") with (String c (s +:+ String x "")).
    simpl. now rewrite IH.
Qed.

Lemma rstrip_char_idempotent (x : ascii) (s : string) :
  Str.rstrip_char x (Str.rstrip_char x s) = Str.rstrip_char x s.
Proof.
  induction s as [|c s IH]; [reflexivity|].
  simpl. destruct (Str.rstrip_char x s) as [|c' r'] eqn:Hr.
  - destruct (Ascii.eqb c x) eqn:Hc; [reflexivity|]. simpl. now rewrite Hc.
  - change (Str.rstrip_char x (String c (String c' r'))) with
      (match Str.rstrip_char x (String c' r') with
       | EmptyString => if Ascii.eqb c x then EmptyString else String c EmptyString
       | String a b => String c (String a b)
       end).
    now rewrite IH.
Qed.

Lemma split_join_commas (x : string) (l : list string) :
  Forall (fun o => free_of "," o = true) (x :: l) ->
  Str.split "," (join_commas (x :: l)) = x :: l.
Proof.
  revert x. induction l as [|y l IH]; intros x Hl.
  - simpl. apply split_free. now inversion Hl.
  - inversion Hl as [|? ? Hx Hl']; subst.
    change (join_commas (x :: y :: l)) with (x +:+ String "," (join_commas (y :: l))).
    rewrite split_app by exact Hx. now rewrite IH.
Qed.

Lemma keep_clean (l : list string) :
  Forall clean_origin l ->
  List.map Str.strip (List.filter (fun origin => negb (Str.is_empty (Str.strip origin))) l)
  = l.
Proof.
  induction 1 as [|x l (Hne & Hs & _) _ IH]; [reflexivity|].
  simpl. rewrite Hs. destruct x; [contradiction|]. simpl. rewrite Hs. now rewrite IH.
Qed.

(** ** Every adapter operation: the success flag and the one request *)

Lemma flagged_weaken (P Q : Prop) (res : gmap string pyval) :
  (P -> Q) -> flagged P res -> flagged Q res.
Proof. intros HPQ (b & Hb & HP). exists b. auto. Qed.

Ltac failed := exists false; split; [reflexivity|discriminate].

Ltac flag :=
  first [ failed
        | exists true; split; [reflexivity|intros _] ].

Ltac ok200 :=
  split; [ first [ now apply Z.eqb_eq
                 | match goal with
                   | Hc : negb (status_code ?r =? 200) = false |- _ =>
                       apply negb_false_iff, Z.eqb_eq in Hc; exact Hc
                   end ]
         | eauto ].

Ltac plain := eexists _, _; split; reflexivity.

Ltac handler_failed h := intros e; unfold h; destruct (exn_class_of e); failed.

Lemma dalle_parse_flag size quality r res :
  DalleService.parse size quality r = inr res -> flagged (ok_json r) res.
Proof. unfold DalleService.parse. intros Hres. invert_inr; flag. ok200. Qed.

Lemma sd_parse_flag w h st r res :
  StableDiffusionService.parse w h st r = inr res -> flagged (ok_json r) res.
Proof. unfold StableDiffusionService.parse. intros Hres. invert_inr; flag. ok200. Qed.

Lemma gemini_parse_flag self a i r res :
  GeminiImageService.parse self a i r = inr res -> flagged (ok_json r) res.
Proof.
  unfold GeminiImageService.parse, GeminiImageService.parse_candidates.
  intros Hres. invert_inr; flag. ok200.
Qed.

Lemma doubao_parse_flag `{PyBuiltins} self a i r res :
  DoubaoImageService.parse self a i r = inr res -> flagged (ok_json r) res.
Proof. unfold DoubaoImageService.parse. intros Hres. invert_inr; flag; ok200. Qed.

Lemma chat_parse_flag r res : ChatService.parse r = inr res -> flagged (ok_json r) res.
Proof. unfold ChatService.parse. intros Hres. invert_inr; flag. ok200. Qed.

Lemma mimo_parse_flag r res : MimoChatService.parse r = inr res -> flagged (ok_json r) res.
Proof. unfold MimoChatService.parse. intros Hres. invert_inr; flag. ok200. Qed.

Lemma sora_parse_create_flag self p o d r res :
  SoraVideoService.parse_create self p o d r = inr res -> flagged (ok_json r) res.
Proof. unfold SoraVideoService.parse_create. intros Hres. invert_inr; flag. ok200. Qed.

Lemma veo_parse_create_flag p m a e r res :
  VeoVideoService.parse_create p m a e r = inr res -> flagged (ok_json r) res.
Proof. unfold VeoVideoService.parse_create. intros Hres. invert_inr; flag. ok200. Qed.

Lemma run_bind_ret {A B : Type} (m : Net A) (f : A -> B) (net : Transport) :
  Net.run (Net.bind m (fun x => Net.ret (f x))) net
  = (f (fst (Net.run m net)), snd (Net.run m net)).
Proof. unfold Net.run, Net.bind, Net.ret. now destruct (m net []). Qed.

Lemma data_prefix (r : string) :
  "data:" +:+ r = String "d" (String "a" (String "t" (String "a" (String ":" r)))).
Proof. reflexivity. Qed.

(** The header of a data URL: what [_split_reference_image] reads of a
    text that starts with [data:]. *)
Lemma split_data_header (r : string) :
  exists m rest,
    Str.split ":" (hd "" (Str.split ";" ("data:" +:+ r))) = "data" :: m :: rest.
Proof.
  assert (Hsemi : exists h, hd "" (Str.split ";" ("data:" +:+ r)) = "data:" +:+ h).
  { rewrite (data_prefix r). cbn.
    destruct (Str.split ";" r) as [|h t] eqn:Hr; [now apply split_nonempty in Hr|].
    now exists h. }
  destruct Hsemi as [h ->]. rewrite (data_prefix h). cbn.
  destruct (Str.split ":" h) as [|m rest] eqn:Hh; [now apply split_nonempty in Hh|].
  now exists m, rest.
Qed.

Lemma split1_data (r : string) :
  Str.split1 "," ("data:" +:+ r) =
  match Str.split1 "," r with
  | h :: t => ("data:" +:+ h) :: t
  | [] => ["data:"]
  end.
Proof. rewrite (data_prefix r). cbn. destruct (Str.split1 "," r); reflexivity. Qed.

Lemma split_reference_total (s : string) :
  exists mime data,
    GeminiImageService._split_reference_image s = inr (mime, data) /\
    mime <> EmptyString.
Proof.
  unfold GeminiImageService._split_reference_image.
  destruct (Str.is_empty s); [now eexists _, _|].
  destruct (Str.startswith "data:" (Str.strip s)) eqn:Hd; [|now eexists _, _].
  apply startswith_app in Hd as [r ->].
  rewrite split1_data.
  destruct (Str.split1 "," r) as [|h [|b [|? ?]]] eqn:Hr; try (now eexists _, _).
  destruct (split_data_header h) as (m & rest & ->).
  destruct m; now eexists _, _.
Qed.

Lemma gemini_request_body_total self prompt aspect_ratio image_size reference_image :
  exists body,
    GeminiImageService.request_body self prompt aspect_ratio image_size reference_image
    = inr body.
Proof.
  unfold GeminiImageService.request_body, GeminiImageService._prepare_reference_part.
  destruct (configured reference_image) as [ref|]; simpl; [|eauto].
  destruct (split_reference_total ref) as (mime & data & -> & _). simpl. eauto.
Qed.

Section FlagFacts.
Context `{PyBuiltins}.

Lemma query_result_flag done_message task_id data res :
  query_result done_message task_id data = inr res -> flagged True res.
Proof.
  unfold query_result. intros Hres. invert_inr.
  repeat match goal with |- context [if ?b then _ else _] => destruct b end;
    first [ failed | exists true; split; [reflexivity|trivial] ].
Qed.

Lemma sora_parse_query_flag task_id r res :
  SoraVideoService.parse_query task_id r = inr res -> flagged (ok_json r) res.
Proof.
  unfold SoraVideoService.parse_query. intros Hres. invert_inr; [failed|].
  eapply flagged_weaken; [|eapply query_result_flag; eassumption].
  intros _. ok200.
Qed.

Lemma veo_parse_query_flag task_id r res :
  VeoVideoService.parse_query task_id r = inr res -> flagged (ok_json r) res.
Proof.
  unfold VeoVideoService.parse_query. intros Hres. invert_inr; [failed|].
  eapply flagged_weaken; [|eapply query_result_flag; eassumption].
  intros _. ok200.
Qed.

Lemma analysis_interpret_flag metadata status data res :
  VideoAnalysisService.interpret metadata status data = inr res ->
  flagged (status = 200) res.
Proof.
  unfold VideoAnalysisService.interpret. intros Hres. invert_inr; flag.
  now apply Z.eqb_eq.
Qed.

Lemma analysis_exchange_flag timeout_message metadata out :
  flagged (exists r, out = Responded r /\ ok_json r)
          (VideoAnalysisService.exchange timeout_message metadata out).
Proof.
  unfold VideoAnalysisService.exchange.
  destruct (bind_exn _ _) as [e|[r data]] eqn:Hout.
  - unfold VideoAnalysisService.on_request_error. destruct (exn_class_of e); failed.
  - destruct out as [r'|e]; [|discriminate]. simpl in Hout.
    destruct (json r') as [e|v] eqn:Hj; [discriminate|]. injection Hout as <- <-.
    apply try_except_elim.
    + intros res Hres. eapply flagged_weaken; [|eapply analysis_interpret_flag; eassumption].
      intros Hs. exists r'. split; [reflexivity|]. split; eauto.
    + intros e. unfold VideoAnalysisService.on_error. failed.
Qed.

(** What sending one request and reading the answer inside a [try]
    gives. *)
Lemma send_flag (req : Request) (parse : Response -> exn + gmap string pyval)
      (handler : exn -> gmap string pyval) (net : Transport) :
  (forall r res, parse r = inr res -> flagged (ok_json r) res) ->
  (forall e, flagged False (handler e)) ->
  flagged (exists r, net req = Responded r /\ ok_json r)
          (try_except (bind_exn (response_of (net req)) parse) handler).
Proof.
  intros Hparse Hhandler. destruct (net req) as [r|e]; simpl.
  - destruct (parse r) as [e|res] eqn:Hres; simpl.
    + eapply flagged_weaken; [|apply Hhandler]. contradiction.
    + eapply flagged_weaken; [|eapply Hparse; eassumption]. eauto.
  - eapply flagged_weaken; [|apply Hhandler]. contradiction.
Qed.

Lemma run_send_flag (req : Request) (parse : Response -> exn + gmap string pyval)
      (handler : exn -> gmap string pyval) (net : Transport) :
  (forall r res, parse r = inr res -> flagged (ok_json r) res) ->
  (forall e, flagged False (handler e)) ->
  let run := Net.run (Net.bind (Net.send req)
                        (fun out => Net.ret (try_except (bind_exn (response_of out) parse)
                                               handler))) net in
  flagged (answered_ok net (requests_of run)) (result_of run).
Proof.
  intros Hparse Hhandler run. unfold run. rewrite run_send. simpl.
  eapply flagged_weaken; [|apply send_flag; eassumption].
  intros (r & Hr & Hok). now exists req, r.
Qed.

Lemma perform_flag (c : Call) (net : Transport) :
  flagged (answered_ok net (requests_of (Net.run (perform c) net)))
          (result_of (Net.run (perform c) net)).
Proof.
  destruct c; simpl; autounfold with adapters;
    (destruct (configured _); [|failed]).
  - apply run_send_flag; [intros ? ?; apply dalle_parse_flag|intros; failed].
  - apply run_send_flag; [intros ? ?; apply sd_parse_flag|intros; failed].
  - destruct (GeminiImageService.request_body _ _ _ _ _) as [e|body].
    { unfold GeminiImageService.on_error. destruct (exn_class_of e); failed. }
    apply run_send_flag; [intros ? ?; apply gemini_parse_flag|].
    handler_failed GeminiImageService.on_error.
  - apply run_send_flag; [intros ? ?; apply doubao_parse_flag|].
    handler_failed DoubaoImageService.on_error.
  - apply run_send_flag; [intros ? ?; apply chat_parse_flag|intros; failed].
  - apply run_send_flag; [intros ? ?; apply mimo_parse_flag|].
    handler_failed MimoChatService.on_error.
  - apply run_send_flag; [intros ? ?; apply sora_parse_create_flag|].
    handler_failed SoraVideoService.on_create_error.
  - apply run_send_flag; [intros ? ?; apply sora_parse_query_flag|].
    handler_failed SoraVideoService.on_query_error.
  - apply run_send_flag; [intros ? ?; apply veo_parse_create_flag|].
    handler_failed VeoVideoService.on_create_error.
  - apply run_send_flag; [intros ? ?; apply veo_parse_query_flag|].
    handler_failed VeoVideoService.on_query_error.
  - destruct (fs video_path) as [f|]; [|failed].
    destruct (_ <? _); [failed|].
    destruct (VideoAnalysisService._encode_video_to_base64 f);
      [unfold VideoAnalysisService.on_error; failed|].
    rewrite run_send. simpl.
    eapply flagged_weaken; [|apply analysis_exchange_flag].
    intros (r & Hr & Hok). eexists _, r. eauto.
  - rewrite run_send. simpl.
    eapply flagged_weaken; [|apply analysis_exchange_flag].
    intros (r & Hr & Hok). eexists _, r. eauto.
Qed.

(** X1.  Every result of the twelve adapter operations has a [success]
    entry, and it is a boolean: the endpoints index it without a check. *)
Theorem adapter_result_has_success (c : Call) (net : Transport) :
  exists b, result_of (Net.run (perform c) net) !! "success" = Some (VBool b).
Proof. destruct (perform_flag c net) as (b & Hb & _). eauto. Qed.

(** X2.  An adapter operation reports success only after it sent exactly
    one request and the transport answered it with status 200 and a body
    that decodes as JSON: a raise of the transport, any other status (201
    and 204 too) and an undecodable body all give success=false. *)
Theorem success_only_on_200 (c : Call) (net : Transport) :
  result_of (Net.run (perform c) net) !! "success" = Some (VBool true) ->
  exists req r v,
    requests_of (Net.run (perform c) net) = [req] /\
    net req = Responded r /\ status_code r = 200 /\ json r = inr v.
Proof.
  intros Hs. destruct (perform_flag c net) as (b & Hb & Hok).
  rewrite Hb in Hs. injection Hs as ->.
  destruct (Hok eq_refl) as (req & r & Hsent & Hr & Hcode & v & Hv).
  now exists req, r, v.
Qed.


End FlagFacts.

(** ** The Gemini adapter: reference images and the credential header *)

(** X4.  [_split_reference_image] never raises, whatever the text: it
    gives a MIME type that is not empty and the data; a text that is not a
    data URL is handed on trimmed, as image/jpeg. *)
Theorem gemini_reference_never_raises (s : string) :
  exists mime data,
    GeminiImageService._split_reference_image s = inr (mime, data) /\
    mime <> "" /\
    (Str.startswith "data:" (Str.strip s) = false ->
     mime = "image/jpeg" /\ data = Str.strip s).
Proof.
  destruct (split_reference_total s) as (mime & data & Hs & Hm).
  exists mime, data. split; [exact Hs|]. split; [exact Hm|].
  intros Hd. unfold GeminiImageService._split_reference_image in Hs.
  destruct (Str.is_empty s) eqn:He.
  - destruct s; [|discriminate]. injection Hs as <- <-. now split.
  - rewrite Hd in Hs. injection Hs as <- <-. now split.
Qed.

(** X5.  A data URL [data:<mime>;<parameters>,<data>] is split into its
    MIME type and its data, the data without trailing whitespace; an empty
    MIME type is read as image/jpeg.  Commas in the data stay in the
    data. *)
Theorem gemini_reference_data_url (m q d : string) :
  free_of "," m = true -> free_of ";" m = true -> free_of ":" m = true ->
  free_of "," q = true ->
  GeminiImageService._split_reference_image
    ("data:" +:+ m +:+ ";" +:+ q +:+ "," +:+ d)
  = inr (if Str.is_empty m then "image/jpeg" else m, Str.rstrip d).
Proof.
  intros Hm1 Hm2 Hm3 Hq.
  unfold GeminiImageService._split_reference_image.
  change (Str.is_empty ("data:" +:+ m +:+ ";" +:+ q +:+ "," +:+ d)) with false.
  cbv iota.
  assert (Hstrip : Str.strip ("data:" +:+ m +:+ ";" +:+ q +:+ "," +:+ d)
                   = ("data:" +:+ m +:+ ";" +:+ q) +:+ String "," (Str.rstrip d)).
  { unfold Str.strip.
    change (Str.lstrip ("data:" +:+ m +:+ ";" +:+ q +:+ "," +:+ d))
      with ("data:" +:+ m +:+ ";" +:+ q +:+ "," +:+ d).
    replace ("data:" +:+ m +:+ ";" +:+ q +:+ "," +:+ d)
      with (("data:" +:+ m +:+ ";" +:+ q) +:+ String "," d).
    - now apply rstrip_app.
    - now rewrite !app_assoc_string. }
  rewrite Hstrip.
  replace (Str.startswith "data:" (("data:" +:+ m +:+ ";" +:+ q) +:+ String "," (Str.rstrip d)))
    with true by (now rewrite app_assoc_string, startswith_prefix).
  rewrite split1_app.
  2:{ rewrite !free_of_app, Hm1, Hq. reflexivity. }
  replace ("data:" +:+ m +:+ ";" +:+ q) with (("data:" +:+ m) +:+ String ";" q)
    by now rewrite !app_assoc_string.
  rewrite split_app by (rewrite free_of_app, Hm2; reflexivity).
  cbn [hd].
  change ("data:" +:+ m) with ("data" +:+ String ":" m).
  rewrite split_app by reflexivity.
  rewrite split_free by exact Hm3.
  reflexivity.
Qed.

Lemma configured_some (k : option string) (key : string) :
  configured k = Some key -> k = Some key.
Proof.
  destruct k as [s|]; simpl; [|discriminate].
  destruct (Str.is_empty s); [discriminate|]. now intros [= ->].
Qed.

Lemma gemini_init_auth_mode (api_key : option string) (base_url model : string)
      (auth_mode : option string) (key : string) :
  configured api_key = Some key ->
  GeminiImageService.auth_mode (GeminiImageService.init api_key base_url model auth_mode)
  = if sends_bearer auth_mode key then "bearer" else "x-goog".
Proof.
  intros Hkey. unfold GeminiImageService.init, sends_bearer, requested_auth_mode.
  cbv zeta. cbn [GeminiImageService.auth_mode]. rewrite Hkey.
  set (requested := Str.lower (Str.strip _)).
  unfold str_in. cbn [existsb].
  destruct (String.eqb_spec requested "auto") as [Ha|Ha].
  { rewrite Ha. cbn [orb]. change ("auto" =? "auto")%string with true.
    change ("auto" =? "bearer")%string with false.
    change ("auto" =? "x-goog")%string with false. cbn. reflexivity. }
  destruct (String.eqb_spec requested "x-goog") as [Hx|Hx].
  { rewrite Hx. cbn [orb]. change ("x-goog" =? "auto")%string with false.
    change ("x-goog" =? "bearer")%string with false. reflexivity. }
  destruct (String.eqb_spec requested "bearer") as [Hb|Hb].
  { rewrite Hb. cbn [orb]. change ("bearer" =? "auto")%string with false. reflexivity. }
  cbn [orb]. change ("auto" =? "auto")%string with true. cbn. reflexivity.
Qed.

(** X6.  A Gemini adapter built with a key always ends up in one of the
    two authentication modes, and its request, sent to
    [<base_url>/v1beta/models/<model>:generateContent], carries the key in
    exactly one header: [Authorization: Bearer] when the mode asked for
    (trimmed, in any case) is bearer, or when it is not x-goog and the key
    starts with sk-; [x-goog-api-key] otherwise. *)
Theorem gemini_credential_header `{PyBuiltins}
    (api_key : option string) (base_url model : string) (auth_mode : option string)
    (prompt aspect_ratio image_size : string) (reference_image : option string)
    (net : Transport) (key : string) :
  configured api_key = Some key ->
  let self := GeminiImageService.init api_key base_url model auth_mode in
  (GeminiImageService.auth_mode self = "bearer" \/
   GeminiImageService.auth_mode self = "x-goog") /\
  exists req,
    requests_of (Net.run (GeminiImageService.generate_image self prompt aspect_ratio
                            image_size reference_image) net) = [req] /\
    req_url req = base_url +:+ "/v1beta/models/" +:+ model +:+ ":generateContent" /\
    req_headers req =
      [("Content-Type", "application/json");
       if sends_bearer auth_mode key then ("Authorization", "Bearer " +:+ key)
       else ("x-goog-api-key", key)].
Proof.
  intros Hkey self.
  pose proof (gemini_init_auth_mode api_key base_url model auth_mode key Hkey) as Hmode.
  fold self in Hmode. split.
  { rewrite Hmode. destruct (sends_bearer auth_mode key); tauto. }
  unfold GeminiImageService.generate_image.
  replace (configured (GeminiImageService.api_key self)) with (Some key)
    by (symmetry; exact Hkey).
  destruct (gemini_request_body_total self prompt aspect_ratio image_size reference_image)
    as [body ->].
  rewrite run_send. eexists. split; [reflexivity|]. split; [reflexivity|].
  simpl. unfold GeminiImageService.headers. rewrite Hmode.
  destruct (sends_bearer auth_mode key); reflexivity.
Qed.

(** ** The Doubao adapter: what it sends and what it returns *)

Lemma assoc_app (k : string) (l1 l2 : list (string * pyval)) :
  Py.assoc k (l1 ++ l2) =
  match Py.assoc k l1 with Some v => Some v | None => Py.assoc k l2 end.
Proof.
  induction l1 as [|[k' v] l1 IH]; [reflexivity|].
  simpl. destruct (String.eqb k' k); [reflexivity|exact IH].
Qed.

Lemma ensure_data_url_prefix (value : string) :
  Str.is_empty value = false ->
  Str.startswith "data:" (DoubaoImageService._ensure_data_url value) = true.
Proof.
  intros Hv. unfold DoubaoImageService._ensure_data_url. rewrite Hv. cbv zeta.
  destruct (Str.startswith "data:" (Str.strip value)) eqn:Hd; [exact Hd|].
  change "data:image/png;base64,"%string with ("data:" +:+ "image/png;base64,").
  rewrite app_assoc_string. apply startswith_prefix.
Qed.

Lemma texts_of_map (f : string -> string) (l : list string) :
  texts_of (VList (List.map (fun item => VStr (f item)) l)) = List.map f l.
Proof.
  unfold texts_of. induction l as [|x l IH]; simpl in *; [reflexivity|now f_equal].
Qed.

Lemma filter_nonempty_forall (l : list string) :
  Forall (fun s => Str.is_empty s = false)
         (List.filter (fun item => negb (Str.is_empty item)) l).
Proof.
  induction l as [|x l IH]; simpl; [constructor|].
  destruct (Str.is_empty x) eqn:Hx; simpl; [exact IH|]. now constructor.
Qed.

Lemma given_references_nonempty (reference : option (string + list string)) :
  Forall (fun s => Str.is_empty s = false) (given_references reference).
Proof.
  destruct reference as [[s|l]|]; simpl; [|apply filter_nonempty_forall|constructor].
  destruct (Str.is_empty s) eqn:Hs; [constructor|]. now repeat constructor.
Qed.


Section DoubaoFacts.
Context `{PyBuiltins}.

Lemma doubao_payload_image self prompt aspect_ratio image_size reference_image
      response_format sequential_mode max_images watermark size_override :
  let body := DoubaoImageService.payload self prompt aspect_ratio image_size
                reference_image response_format sequential_mode max_images watermark
                size_override in
  match body with
  | VDict d =>
      match given_references reference_image with
      | [] => Py.assoc "image" d = None
      | refs =>
          exists v, Py.assoc "image" d = Some v /\
                    texts_of v = List.map DoubaoImageService._ensure_data_url refs
      end
  | _ => False
  end.
Proof.
  cbv zeta. unfold DoubaoImageService.payload.
  rewrite assoc_app. change (Py.assoc "image" _) with (@None pyval) at 1. cbv iota.
  rewrite assoc_app.
  replace (Py.assoc "image"
             (if String.eqb sequential_mode "auto"
              then [("sequential_image_generation_options",
                     VDict [("max_images", VInt (Z.max 1 (Z.min 15 max_images)))])]
              else [])) with (@None pyval) by (destruct (String.eqb _ _); reflexivity).
  destruct reference_image as [[s|l]|]; simpl; [| |reflexivity].
  - destruct (Str.is_empty s) eqn:Hs; simpl; [reflexivity|].
    pose proof (ensure_data_url_prefix s Hs) as Hp.
    apply (startswith_nonempty "data:") in Hp; [|discriminate].
    rewrite Hp. simpl. eauto.
  - destruct l as [|x l]; [reflexivity|].
    cbn [DoubaoImageService.reference_truthy].
    set (kept := List.filter _ (x :: l)).
    destruct kept as [|y kept'] eqn:Hk; [reflexivity|].
    cbn [List.map Py.truthy]. simpl Py.assoc.
    eexists. split; [reflexivity|].
    change (VList (VStr (DoubaoImageService._ensure_data_url y)
                   :: List.map (fun item => VStr (DoubaoImageService._ensure_data_url item)) kept'))
      with (VList (List.map (fun item => VStr (DoubaoImageService._ensure_data_url item))
                            (y :: kept'))).
    apply texts_of_map.
Qed.

(** X7.  The Doubao adapter forwards every reference image that is not an
    empty text, in the order given, each normalized by [_ensure_data_url];
    so every image it sends starts with [data:], and the request has no
    [image] field at all when there is nothing to forward. *)
Theorem doubao_reference_images_are_data_urls
    (self : DoubaoImageService.t) (prompt aspect_ratio image_size : string)
    (reference_image : option (string + list string))
    (response_format sequential_mode : string) (max_images : Z) (watermark : bool)
    (size_override : option string) (net : Transport) (key : string) :
  configured (DoubaoImageService.api_key self) = Some key ->
  exists req,
    requests_of (Net.run (DoubaoImageService.generate_image self prompt aspect_ratio
                            image_size reference_image response_format sequential_mode
                            max_images watermark size_override) net) = [req] /\
    images_sent req
    = List.map DoubaoImageService._ensure_data_url (given_references reference_image) /\
    Forall (fun u => Str.startswith "data:" u = true) (images_sent req) /\
    (payload_field "image" req = None <-> given_references reference_image = []).
Proof.
  intros Hkey. unfold DoubaoImageService.generate_image. rewrite Hkey.
  rewrite run_send. eexists. split; [reflexivity|].
  pose proof (doubao_payload_image self prompt aspect_ratio image_size reference_image
                response_format sequential_mode max_images watermark size_override) as Hp.
  cbv zeta in Hp.
  unfold images_sent, payload_field. cbn [req_json].
  destruct (DoubaoImageService.payload _ _ _ _ _ _ _ _ _ _) as [| | | | | |d];
    try contradiction.
  assert (Himg : match Py.assoc "image" d with Some v => texts_of v | None => [] end
                 = List.map DoubaoImageService._ensure_data_url
                            (given_references reference_image)).
  { destruct (given_references reference_image) as [|x refs].
    - now rewrite Hp.
    - destruct Hp as (v & -> & Hv). exact Hv. }
  split; [exact Himg|]. split.
  - rewrite Himg. apply Forall_map.
    eapply Forall_impl; [apply given_references_nonempty|].
    intros s Hs. now apply ensure_data_url_prefix.
  - destruct (given_references reference_image) as [|x refs].
    + now rewrite Hp.
    + destruct Hp as (v & -> & _). split; discriminate.
Qed.

(** X8.  The request of the Doubao adapter asks for the size given as
    [size] when there is one, else for the size derived from aspect ratio
    and size class; and it carries the options of sequential generation
    exactly in the mode "auto", with [max_images] brought into 1..15. *)
Theorem doubao_payload_options
    (self : DoubaoImageService.t) (prompt aspect_ratio image_size : string)
    (reference_image : option (string + list string))
    (response_format sequential_mode : string) (max_images : Z) (watermark : bool)
    (size_override : option string) (net : Transport) (key : string) :
  configured (DoubaoImageService.api_key self) = Some key ->
  exists req,
    requests_of (Net.run (DoubaoImageService.generate_image self prompt aspect_ratio
                            image_size reference_image response_format sequential_mode
                            max_images watermark size_override) net) = [req] /\
    payload_field "size" req
    = Some (VStr (match configured size_override with
                  | Some size => size
                  | None => DoubaoImageService._build_size aspect_ratio image_size
                  end)) /\
    if String.eqb sequential_mode "auto" then
      exists n,
        payload_field "sequential_image_generation_options" req
        = Some (VDict [("max_images", VInt n)]) /\
        1 <= n <= 15 /\
        (1 <= max_images <= 15 -> n = max_images) /\
        (max_images < 1 -> n = 1) /\ (15 < max_images -> n = 15)
    else payload_field "sequential_image_generation_options" req = None.
Proof.
  intros Hkey. unfold DoubaoImageService.generate_image. rewrite Hkey, run_send.
  eexists. split; [reflexivity|].
  unfold payload_field, DoubaoImageService.payload. cbn [req_json].
  split; [reflexivity|].
  rewrite assoc_app.
  change (Py.assoc "sequential_image_generation_options" _) with (@None pyval) at 1.
  cbv iota. rewrite assoc_app.
  destruct (String.eqb sequential_mode "auto").
  - exists (Z.max 1 (Z.min 15 max_images)). split; [reflexivity|]. lia.
  - simpl. destruct reference_image as [reference|]; [|reflexivity].
    destruct (DoubaoImageService.reference_truthy _); [|reflexivity].
    destruct (Py.truthy _); reflexivity.
Qed.



End DoubaoFacts.

(** ** Video tasks and video analysis *)

Lemma sora_create_task self prompt orientation duration r :
  creates_task r
    (try_except (SoraVideoService.parse_create self prompt orientation duration r)
                SoraVideoService.on_create_error).
Proof.
  unfold SoraVideoService.parse_create, creates_task, task_of.
  destruct (status_code r =? 200); simpl; [|now split].
  destruct (json r) as [e|[| | | | | |d]]; simpl;
    try (unfold SoraVideoService.on_create_error; simpl; now split).
  - unfold SoraVideoService.on_create_error. destruct (exn_class_of e); now split.
  - destruct (Py.assoc "id" d) as [task_id|]; simpl; [|now split].
    destruct (Py.truthy task_id); simpl; now split.
Qed.

Lemma veo_create_task prompt use_model aspect_ratio enhance_prompt r :
  creates_task r
    (try_except (VeoVideoService.parse_create prompt use_model aspect_ratio
                   enhance_prompt r)
                VeoVideoService.on_create_error).
Proof.
  unfold VeoVideoService.parse_create, creates_task, task_of.
  destruct (status_code r =? 200); simpl; [|now split].
  destruct (json r) as [e|[| | | | | |d]]; simpl;
    try (unfold VeoVideoService.on_create_error; simpl; now split).
  - unfold VeoVideoService.on_create_error. destruct (exn_class_of e); now split.
  - destruct (Py.assoc "id" d) as [task_id|]; simpl; [|now split].
    destruct (Py.truthy task_id); simpl; now split.
Qed.

Lemma veo_create_ok prompt use_model aspect_ratio enhance_prompt r task :
  task_of r = Some task ->
  exists status metadata,
    try_except (VeoVideoService.parse_create prompt use_model aspect_ratio enhance_prompt r)
               VeoVideoService.on_create_error
    = dict [("success", VBool true); ("task_id", task); ("status", status);
            ("message", VStr "VEO 视频生成任务已创建"); ("metadata", metadata)].
Proof.
  unfold task_of, VeoVideoService.parse_create.
  destruct (status_code r =? 200); [|discriminate]. simpl.
  destruct (json r) as [e|[| | | | | |d]]; try discriminate. simpl.
  destruct (Py.assoc "id" d) as [task_id|]; [|discriminate].
  destruct (Py.truthy task_id) eqn:Ht; [|discriminate].
  intros [= <-]. simpl. eauto.
Qed.

Lemma veo_create_failed prompt use_model aspect_ratio enhance_prompt r :
  task_of r = None ->
  exists msg,
    let res := try_except (VeoVideoService.parse_create prompt use_model aspect_ratio
                             enhance_prompt r)
                          VeoVideoService.on_create_error in
    res !! "success" = Some (VBool false) /\ res !! "message" = Some (VStr msg).
Proof.
  unfold task_of, VeoVideoService.parse_create. cbv zeta.
  destruct (status_code r =? 200); simpl; [|intros _; eexists; split; reflexivity].
  destruct (json r) as [e|[| | | | | |d]]; simpl;
    try (intros _; unfold VeoVideoService.on_create_error; simpl;
         eexists; split; reflexivity).
  - intros _. unfold VeoVideoService.on_create_error.
    destruct (exn_class_of e); eexists; split; reflexivity.
  - destruct (Py.assoc "id" d) as [task_id|]; simpl.
    + destruct (Py.truthy task_id); [discriminate|]. intros _. simpl.
      eexists; split; reflexivity.
    + intros _. eexists; split; reflexivity.
Qed.

Lemma add_text_plain (acc : string) (parts : list pyval) :
  Forall plain_part parts ->
  fold_exn VideoAnalysisService.add_text acc parts
  = inr (acc +:+ join_texts (List.map text_of_part parts)).
Proof.
  intros Hparts. revert acc.
  induction Hparts as [|part parts (p & -> & Hp) _ IH]; intros acc.
  - simpl. now rewrite append_empty_r.
  - cbn [fold_exn List.map join_texts]. unfold VideoAnalysisService.add_text at 1.
    simpl. destruct Hp as [-> | (s & ->)]; simpl.
    + apply IH.
    + rewrite IH. now rewrite app_assoc_string.
Qed.


Section VideoTaskFacts.
Context `{PyBuiltins}.

Lemma query_result_reports (done_message task_id : string) (d : list (string * pyval)) :
  exists res, query_result done_message task_id (VDict d) = inr res /\
              reports_status task_id d res.
Proof.
  unfold query_result, reports_status, field. simpl.
  destruct (Py.assoc "status" d) as [status|]; cbv zeta.
  - destruct (Py.eq_str status "completed") eqn:Hc.
    + destruct status as [| | | |s| |]; try discriminate Hc. simpl in Hc.
      apply String.eqb_eq in Hc as ->.
      destruct (Py.truthy _); eexists; (split; [reflexivity|]); repeat split.
    + simpl. destruct (Py.eq_str status "failed");
        [|destruct (Py.eq_str status "pending"); [|destruct (Py.eq_str status "processing")]];
        eexists; (split; [reflexivity|]); repeat split.
  - simpl. eexists. split; [reflexivity|]. repeat split.
Qed.

Lemma query_result_plain done_message task_id data res :
  query_result done_message task_id data = inr res -> plain_result res.
Proof.
  unfold query_result. intros Hres. invert_inr.
  repeat match goal with |- context [if ?b then _ else _] => destruct b end; plain.
Qed.

Lemma veo_query_plain self task_id net :
  plain_result (result_of (Net.run (VeoVideoService.query_video self task_id) net)).
Proof.
  unfold VeoVideoService.query_video.
  destruct (configured _); [|plain].
  rewrite run_send. unfold result_of. cbn [fst].
  apply try_bind_elim.
  - intros r res. unfold VeoVideoService.parse_query. intros Hres.
    invert_inr; [plain|]. eauto using query_result_plain.
  - intros e. unfold VeoVideoService.on_query_error. destruct (exn_class_of e); plain.
Qed.

Lemma interpret_text (metadata body : pyval) (parts : list pyval) :
  first_candidate_parts body parts -> Forall plain_part parts ->
  VideoAnalysisService.interpret metadata 200 body
  = inr (dict [("success", VBool true);
               ("message", VStr "视频分析完成");
               ("analysis", VStr (join_texts (List.map text_of_part parts)));
               ("raw_response", body);
               ("metadata", metadata)]).
Proof.
  intros (d & first & rest & content & -> & Hc & Hf & Hp) Hparts.
  unfold VideoAnalysisService.interpret. simpl.
  rewrite Hc. simpl. rewrite Hf. simpl. rewrite Hp. simpl.
  now rewrite add_text_plain.
Qed.

(** X10.  For a 200 answer whose body is a JSON object, a status query of
    either provider reports the task asked about, the status and the
    enhanced prompt of the answer; success is false exactly for the status
    "failed", so unknown statuses count as success; and the video URL is
    handed on exactly for the status "completed" with a URL that is not
    empty. *)
Theorem query_video_reports_status
    (sora : SoraVideoService.t) (veo : VeoVideoService.t) (sora_key veo_key : string)
    (task_id : string) (net : Transport) (r : Response) (d : list (string * pyval)) :
  configured (SoraVideoService.api_key sora) = Some sora_key ->
  configured (VeoVideoService.api_key veo) = Some veo_key ->
  (forall req, net req = Responded r) ->
  status_code r = 200 ->
  json r = inr (VDict d) ->
  reports_status task_id d
    (result_of (Net.run (SoraVideoService.query_video sora task_id) net)) /\
  reports_status task_id d
    (result_of (Net.run (VeoVideoService.query_video veo task_id) net)).
Proof.
  intros Hsora Hveo Hnet Hcode Hjson. split.
  - unfold SoraVideoService.query_video. rewrite Hsora, run_send, Hnet.
    unfold result_of, SoraVideoService.parse_query.
    cbn [response_of bind_exn fst]. rewrite Hcode, Hjson.
    change (negb (200 =? 200)) with false. cbn [bind_exn].
    destruct (query_result_reports "视频生成完成" task_id d) as (res & -> & Hres).
    exact Hres.
  - unfold VeoVideoService.query_video. rewrite Hveo, run_send, Hnet.
    unfold result_of, VeoVideoService.parse_query.
    cbn [response_of bind_exn fst]. rewrite Hcode, Hjson.
    change (negb (200 =? 200)) with false. cbn [bind_exn].
    destruct (query_result_reports "VEO 视频生成完成" task_id d) as (res & -> & Hres).
    exact Hres.
Qed.

(** X11.  Creating a video, with either provider, succeeds exactly when the
    answer is a 200 whose body is a JSON object with an [id] that is not
    empty; the result then hands that id on as [task_id], and has no
    [task_id] otherwise. *)
Theorem create_video_returns_provider_task
    (sora : SoraVideoService.t) (veo : VeoVideoService.t) (sora_key veo_key : string)
    (prompt : string) (orientation : option string) (duration : option Z)
    (watermark private : bool) (model aspect_ratio : option string)
    (enhance_prompt enable_upsample : option bool) (images : option (list string))
    (net : Transport) (r : Response) :
  configured (SoraVideoService.api_key sora) = Some sora_key ->
  configured (VeoVideoService.api_key veo) = Some veo_key ->
  (forall req, net req = Responded r) ->
  creates_task r
    (result_of (Net.run (SoraVideoService.create_video sora prompt orientation duration
                           watermark private images) net)) /\
  creates_task r
    (result_of (Net.run (VeoVideoService.create_video veo prompt model aspect_ratio
                           enhance_prompt enable_upsample images) net)).
Proof.
  intros Hsora Hveo Hnet. split.
  - unfold SoraVideoService.create_video. rewrite Hsora, run_send, Hnet.
    apply sora_create_task.
  - unfold VeoVideoService.create_video. rewrite Hveo, run_send, Hnet.
    apply veo_create_task.
Qed.

(** X12.  For a 200 answer in the shape of the Gemini API, both analysis
    operations succeed and return as [analysis] the texts of the parts of
    the first candidate, joined in order; parts without a text are
    skipped. *)
Theorem analysis_is_the_joined_text
    (self : VideoAnalysisService.t) (fs : FileSystem) (video_path video_base64 : string)
    (prompt : string) (api_key : option string) (key : string) (f : File)
    (video_data : string) (net : Transport) (r : Response)
    (body : pyval) (parts : list pyval) :
  configured (VideoAnalysisService.effective_key self api_key) = Some key ->
  fs video_path = Some f ->
  st_size f <= VideoAnalysisService.max_size ->
  contents f = inr video_data ->
  (forall req, net req = Responded r) ->
  status_code r = 200 -> json r = inr body ->
  first_candidate_parts body parts -> Forall plain_part parts ->
  let analysis := VStr (join_texts (List.map text_of_part parts)) in
  let from_file :=
    result_of (Net.run (VideoAnalysisService.analyze_video self fs video_path prompt
                          api_key) net) in
  let from_base64 :=
    result_of (Net.run (VideoAnalysisService.analyze_video_from_base64 self
                          video_base64 prompt api_key) net) in
  (from_file !! "success" = Some (VBool true) /\
   from_file !! "analysis" = Some analysis) /\
  (from_base64 !! "success" = Some (VBool true) /\
   from_base64 !! "analysis" = Some analysis).
Proof.
  intros Hkey Hfile Hsize Hdata Hnet Hcode Hjson Hfirst Hparts. cbv zeta. split.
  - unfold VideoAnalysisService.analyze_video. rewrite Hkey, Hfile.
    rewrite (proj2 (Z.ltb_ge _ _) Hsize).
    unfold VideoAnalysisService._encode_video_to_base64. rewrite Hdata.
    rewrite run_send, Hnet. unfold result_of, VideoAnalysisService.exchange.
    cbn [response_of bind_exn fst]. rewrite Hjson. cbn [bind_exn]. rewrite Hcode.
    rewrite (interpret_text _ body parts Hfirst Hparts). now split.
  - unfold VideoAnalysisService.analyze_video_from_base64.
    rewrite Hkey, run_send, Hnet. unfold result_of, VideoAnalysisService.exchange.
    cbn [response_of bind_exn fst]. rewrite Hjson. cbn [bind_exn]. rewrite Hcode.
    rewrite (interpret_text _ body parts Hfirst Hparts). now split.
Qed.

End VideoTaskFacts.

(** X13.  The Doubao, chat, MiMO, Sora, VEO and video-analysis services
    ignore a trailing slash of the base URL they are built with: the
    instance is the same with and without it, and the base URL it keeps
    never ends with a slash. *)
Theorem base_url_trailing_slash_is_ignored
    (api_key : option string) (base_url model : string)
    (temperature top_p : spec_float) (max_completion_tokens : Z) :
  let slashed := base_url +:+ "/" in
  (DoubaoImageService.init api_key slashed model
   = DoubaoImageService.init api_key base_url model /\
   no_trailing_slash (DoubaoImageService.base_url
                        (DoubaoImageService.init api_key base_url model))) /\
  (ChatService.init api_key slashed model = ChatService.init api_key base_url model /\
   no_trailing_slash (ChatService.base_url (ChatService.init api_key base_url model))) /\
  (MimoChatService.init api_key slashed model temperature top_p max_completion_tokens
   = MimoChatService.init api_key base_url model temperature top_p max_completion_tokens /\
   no_trailing_slash (MimoChatService.base_url
                        (MimoChatService.init api_key base_url model temperature top_p
                           max_completion_tokens))) /\
  (SoraVideoService.init api_key slashed model
   = SoraVideoService.init api_key base_url model /\
   no_trailing_slash (SoraVideoService.base_url
                        (SoraVideoService.init api_key base_url model))) /\
  (VeoVideoService.init api_key slashed model
   = VeoVideoService.init api_key base_url model /\
   no_trailing_slash (VeoVideoService.base_url
                        (VeoVideoService.init api_key base_url model))) /\
  (VideoAnalysisService.init api_key slashed model
   = VideoAnalysisService.init api_key base_url model /\
   no_trailing_slash (VideoAnalysisService.base_url
                        (VideoAnalysisService.init api_key base_url model))).
Proof.
  cbv zeta.
  unfold DoubaoImageService.init, ChatService.init, MimoChatService.init,
    SoraVideoService.init, VeoVideoService.init, VideoAnalysisService.init,
    no_trailing_slash.
  cbv zeta. simpl. rewrite !rstrip_char_app, !rstrip_char_idempotent.
  repeat split.
Qed.

(** ** The history store: ids, round trip and pages *)

Section StoreFacts.
Context `{PyBuiltins}.

Lemma add_history_in_sequence db now type prompt response metadata :
  ids_in_sequence db ->
  ids_in_sequence (fst (History.add_history db now type prompt response metadata)).
Proof.
  intros (Hs & Hb & Hseq). unfold History.add_history, ids_in_sequence.
  cbn [fst History.rows History.seq].
  split; [|split; [|lia]].
  - rewrite map_app. simpl. apply StronglySorted_app. split; [|split].
    + intros x y Hx Hy. apply list_elem_of_singleton in Hy as ->.
      apply list_elem_of_fmap in Hx as (r & -> & Hr).
      rewrite Forall_forall in Hb. specialize (Hb r Hr). lia.
    + exact Hs.
    + repeat constructor.
  - apply Forall_app. split.
    + eapply Forall_impl; [exact Hb|]. intros x Hx. cbn in *. lia.
    + repeat constructor; simpl; lia.
Qed.

Lemma run_ops_ids (db : History.Db) (ops : list Op) :
  ids_in_sequence db ->
  snd (run_ops db ops) = next_ids (History.seq db) (appends ops) /\
  History.seq (fst (run_ops db ops)) = History.seq db + Z.of_nat (appends ops) /\
  ids_in_sequence (fst (run_ops db ops)).
Proof.
  revert db. induction ops as [|[e|] ops IH]; intros db Hdb.
  - unfold appends. simpl. split; [reflexivity|]. split; [lia|exact Hdb].
  - pose proof (add_history_in_sequence db (entry_now e) (entry_type e) (entry_prompt e)
                  (entry_response e) (entry_metadata e) Hdb) as Hdb'.
    cbn [run_ops].
    destruct (History.add_history db _ _ _ _ _) as [db' record_id] eqn:Hadd.
    assert (Hid : record_id = History.seq db + 1 /\ History.seq db' = History.seq db + 1).
    { unfold History.add_history in Hadd. injection Hadd as <- <-. now split. }
    destruct Hid as [-> Hseq]. simpl in Hdb'.
    destruct (IH db' Hdb') as (Hids & Hs & Hinv).
    destruct (run_ops db' ops) as [db'' ids]. simpl in *.
    unfold appends in *. simpl. rewrite Hids, Hseq. split; [reflexivity|].
    split; [lia|exact Hinv].
  - assert (Hclear : ids_in_sequence (History.clear_history db)).
    { destruct Hdb as (_ & _ & Hseq). split; [constructor|]. split; [constructor|exact Hseq]. }
    destruct (IH _ Hclear) as (Hids & Hs & Hinv).
    cbn [run_ops]. unfold appends in *. simpl. now split.
Qed.


Lemma to_records_take (n : nat) (l : list History.Row) (rs : list History.HistoryRecord) :
  History.to_records l = inr rs -> History.to_records (take n l) = inr (take n rs).
Proof.
  revert n rs. induction l as [|row l IH]; intros n rs Hrs.
  - injection Hrs as <-. now destruct n.
  - destruct n as [|n]; [reflexivity|]. simpl in *.
    destruct (History.to_record row) as [e|r]; [discriminate|]. simpl in *.
    destruct (History.to_records l) as [e|rs'] eqn:Hl; [discriminate|].
    injection Hrs as <-. now rewrite (IH n rs').
Qed.

(** X14.  Starting from a fresh store, whatever appends and clearings
    follow, the k-th append returns the id k: clearing the history does not
    start the ids again.  The ids of the stored records are distinct, grow
    in the order of insertion and lie between 1 and the number of appends
    made. *)
Theorem history_ids_are_never_reused (ops : list Op) :
  let '(db, ids) := run_ops History.empty ops in
  ids = next_ids 0 (appends ops) /\
  History.seq db = Z.of_nat (appends ops) /\
  StronglySorted Z.lt (List.map History.id (History.rows db)) /\
  Forall (fun r => 1 <= History.id r <= Z.of_nat (appends ops)) (History.rows db).
Proof.
  assert (Hempty : ids_in_sequence History.empty).
  { split; [constructor|]. split; [constructor|reflexivity]. }
  destruct (run_ops_ids History.empty ops Hempty) as (Hids & Hseq & Hsorted & Hbound & _).
  destruct (run_ops History.empty ops) as [db ids]. simpl in *.
  split; [exact Hids|]. split; [exact Hseq|]. split; [exact Hsorted|].
  eapply Forall_impl; [exact Hbound|]. intros r Hr. cbn in *. lia.
Qed.

(** X15.  A record appended at a time later than all stored records is
    what a listing with limit 1 returns: with the id the append returned,
    the type, prompt and response given, the metadata as decoded from the
    stored text, and that time. *)
Theorem add_history_is_listed_first (db : History.Db) (now : Z)
    (type prompt response : string) (metadata : option pyval) (meta : pyval) :
  Forall (fun x => History.created_at x < now) (History.rows db) ->
  metadata_text metadata <> "" ->
  json_loads (metadata_text metadata) = inr meta ->
  let '(db', record_id) := History.add_history db now type prompt response metadata in
  record_id = History.seq db + 1 /\
  History.get_history db' 1 0
  = inr [History.mkRecord record_id type prompt response meta now].
Proof.
  intros Hnew Hne Hmeta. unfold History.add_history. fold (metadata_text metadata).
  split; [reflexivity|].
  unfold History.get_history, History.select_history, History.limit_offset.
  cbn [History.rows andb History.sqlite_int].
  rewrite order_newest_last by exact Hnew.
  change (History.sqlite_int 1 && History.sqlite_int 0) with true. cbv iota.
  change (1 <? 0) with false. cbv iota.
  change (take (Z.to_nat 1) (drop (Z.to_nat 0) ?l)) with (take 1 l).
  cbn [take History.to_records]. unfold History.to_record.
  cbn [History.metadata History.id History.type History.prompt History.response
       History.created_at].
  destruct (metadata_text metadata) as [|c t] eqn:Ht; [contradiction|].
  cbn [Str.is_empty]. rewrite Hmeta. reflexivity.
Qed.


(** X17.  [GET /api/history] answers with the first 50 records of the full
    listing, newest first, and never more; after [DELETE /api/history] it
    answers with the empty list. *)
Theorem history_endpoint_lists_the_newest_50 (db : History.Db) :
  Forall decodable (History.rows db) ->
  exists everything,
    History.get_history db (-1) 0 = inr everything /\
    length everything = length (History.rows db) /\
    HistoryRouter.get_history db = HistoryRouter.Listing true (take 50 everything) /\
    HistoryRouter.get_history (snd (HistoryRouter.clear_history db))
    = HistoryRouter.Listing true [].
Proof.
  intros Hdec.
  assert (Hord : Forall decodable (History.order_by_created_at_desc (History.rows db))).
  { eapply Permutation_Forall; [symmetry; apply order_perm|exact Hdec]. }
  destruct (to_records_decodable _ Hord) as (everything & Hall & Hids & _).
  exists everything.
  split; [exact Hall|]. split.
  { rewrite <- (length_map History.rec_id), Hids, length_map.
    apply Permutation_length, order_perm. }
  split; [|reflexivity].
  unfold HistoryRouter.get_history, History.get_history, History.select_history,
    History.limit_offset.
  change (History.sqlite_int 50 && History.sqlite_int 0) with true. cbv iota.
  change (50 <? 0) with false. cbv iota.
  change (Z.to_nat 0) with 0%nat. change (Z.to_nat 50) with 50%nat. rewrite drop_0.
  now rewrite (to_records_take 50 _ _ Hall).
Qed.

End StoreFacts.

(** ** Configuration: allowed origins and keys *)

(** X18.  Whatever the configured text, every origin that
    [get_allowed_origins] returns is not empty, has no whitespace around
    it and contains no comma. *)
Theorem allowed_origins_are_clean (ALLOWED_ORIGINS_STR : string) :
  Forall clean_origin (Config.get_allowed_origins ALLOWED_ORIGINS_STR).
Proof.
  unfold Config.get_allowed_origins. cbv zeta.
  destruct (_ && _).
  { repeat constructor. discriminate. }
  pose proof (split_free_of "," ALLOWED_ORIGINS_STR) as Hfree.
  induction Hfree as [|origin origins Ho _ IH]; simpl; [constructor|].
  destruct (Str.is_empty (Str.strip origin)) eqn:He; simpl; [exact IH|].
  constructor; [|exact IH]. split; [|split].
  - intros Heq. now rewrite Heq in He.
  - apply strip_idempotent.
  - now apply strip_free_of.
Qed.

(** X19.  Writing a list of origins with commas between them and reading it
    back with [get_allowed_origins] gives the list again, for every list of
    origins that are not empty, trimmed and without a comma; the list of
    the one origin "*" and the empty list included. *)
Theorem allowed_origins_round_trip (origins : list string) :
  Forall clean_origin origins ->
  Config.get_allowed_origins (join_commas origins) = origins.
Proof.
  intros Hclean. unfold Config.get_allowed_origins. cbv zeta.
  destruct origins as [|x l]; [reflexivity|].
  rewrite split_join_commas.
  2:{ eapply Forall_impl; [exact Hclean|]. now intros o (_ & _ & Ho). }
  destruct l as [|y l].
  - cbn [length hd Nat.eqb andb].
    destruct (String.eqb_spec x "*") as [->|Hx]; [reflexivity|].
    now apply keep_clean.
  - cbn [length Nat.eqb andb]. now apply keep_clean.
Qed.

Lemma configured_or_key (a b : option string) :
  configured (or_key a b) = match configured a with Some k => Some k | None => configured b end.
Proof. unfold or_key. destruct (configured a) eqn:Ha; [exact Ha|reflexivity]. Qed.

Section KeyFacts.
Context `{PyBuiltins}.

(** X20.  The chat service uses the first of CHAT_API_KEY, GEMINI_API_KEY
    and OPENAI_API_KEY that is set and not empty, the Sora service the
    first of SORA_API_KEY and OPENAI_API_KEY, the VEO service the first of
    VEO_API_KEY and GEMINI_API_KEY: their requests carry that key as the
    bearer token, and they send nothing when none of the keys is there. *)
Theorem service_keys_fall_back (env : Env) (net : Transport)
    (messages : pyval) (model : option string) (task_id : string) :
  sent_with (first_configured [env "CHAT_API_KEY"; env "GEMINI_API_KEY"; env "OPENAI_API_KEY"])
    (requests_of (Net.run (ChatService.chat_completion (Dependencies.chat_service env)
                             messages model) net)) /\
  sent_with (first_configured [env "SORA_API_KEY"; env "OPENAI_API_KEY"])
    (requests_of (Net.run (SoraVideoService.query_video (Dependencies.sora_service env)
                             task_id) net)) /\
  sent_with (first_configured [env "VEO_API_KEY"; env "GEMINI_API_KEY"])
    (requests_of (Net.run (VeoVideoService.query_video (Dependencies.veo_service env)
                             task_id) net)).
Proof.
  split; [|split].
  - unfold ChatService.chat_completion, Dependencies.chat_service, ChatService.init.
    cbn [ChatService.api_key]. rewrite !configured_or_key. cbn [first_configured].
    unfold Config.CHAT_API_KEY, Config.GEMINI_API_KEY, Config.OPENAI_API_KEY.
    destruct (configured (env "CHAT_API_KEY")) as [k|];
      [|destruct (configured (env "GEMINI_API_KEY")) as [k|];
        [|destruct (configured (env "OPENAI_API_KEY")) as [k|]]];
      try (rewrite run_send; eexists; split; [reflexivity|]; simpl; tauto).
    reflexivity.
  - unfold SoraVideoService.query_video, Dependencies.sora_service, SoraVideoService.init.
    cbn [SoraVideoService.api_key]. unfold Config.SORA_API_KEY.
    rewrite !configured_or_key. cbn [first_configured].
    destruct (configured (env "SORA_API_KEY")) as [k|];
      [|destruct (configured (env "OPENAI_API_KEY")) as [k|]];
      try (rewrite run_send; eexists; split; [reflexivity|]; simpl; tauto).
    reflexivity.
  - unfold VeoVideoService.query_video, Dependencies.veo_service, VeoVideoService.init.
    cbn [VeoVideoService.api_key]. unfold Config.VEO_API_KEY, Config.GEMINI_API_KEY.
    rewrite !configured_or_key. cbn [first_configured].
    destruct (configured (env "VEO_API_KEY")) as [k|];
      [|destruct (configured (env "GEMINI_API_KEY")) as [k|]];
      try (rewrite run_send; eexists; split; [reflexivity|]; simpl; tauto).
    reflexivity.
Qed.

End KeyFacts.

(** ** The endpoints for video and chat *)

Lemma has_images_forwarded (request : VideoRouter.VeoVideoGenerationRequest) :
  VideoEndpoints.has_images request
  && VideoRouter.model_supported (VideoRouter.model request)
  = match VideoRouter.forwarded_images request with Some _ => true | None => false end.
Proof.
  unfold VideoEndpoints.has_images, VideoRouter.forwarded_images.
  destruct (VideoRouter.model_supported (VideoRouter.model request)) eqn:Hs;
    destruct (VideoRouter.images request) as [[|x l]|];
    destruct (configured (VideoRouter.image_data request)); simpl; try reflexivity;
    repeat (destruct (VideoRouter.model_is _ _); try reflexivity).
Qed.


Section EndpointFacts.
Context `{PyBuiltins}.
Variable add_history_other :
  History.Db -> Z -> string -> string -> pyval -> option pyval -> (exn + Z) * History.Db.

Lemma record_chat_failure request provider_model result now db body b :
  result !! "success" = Some (VBool b) ->
  fst (ChatRouter.record_chat add_history_other request provider_model result now db)
  = History.Body body ->
  body !! "success" = Some (VBool false) ->
  snd (ChatRouter.record_chat add_history_other request provider_model result now db) = db.
Proof.
  intros Hb. unfold ChatRouter.record_chat, if_success. rewrite Hb.
  cbn [Py.truthy]. destruct b; [|reflexivity].
  destruct (ChatRouter.prompt_text _); [discriminate|].
  destruct (result !! "message"); [|discriminate].
  destruct (add_history_value _ _ _ _ _ _ _) as [[e|record_id] db'];
    [discriminate|].
  simpl. intros [= <-] Hs. rewrite Hb in Hs. discriminate.
Qed.

(** X21.  [GET /api/veo_video/{task_id}] never answers with an error
    status: whatever the provider does, the reply is a body with the
    success flag of the adapter and a text as message, a successful one
    names the task asked about, and no request is sent besides the
    adapter's. *)
Theorem veo_status_endpoint_always_answers (veo_service : VeoVideoService.t)
    (task_id : string) (net : Transport) :
  let result := result_of (Net.run (VeoVideoService.query_video veo_service task_id) net) in
  let run := Net.run (VideoEndpoints.get_veo_video_status veo_service task_id) net in
  exists body b msg,
    result_of run = History.Body body /\
    result !! "success" = Some (VBool b) /\
    body !! "success" = Some (VBool b) /\
    body !! "message" = Some (VStr msg) /\
    (b = true -> body !! "task_id" = Some (VStr task_id)) /\
    requests_of run
    = requests_of (Net.run (VeoVideoService.query_video veo_service task_id) net).
Proof.
  cbv zeta. unfold VideoEndpoints.get_veo_video_status. rewrite run_bind_ret.
  destruct (veo_query_plain veo_service task_id net) as (b & msg & Hb & Hmsg).
  unfold result_of, requests_of in *. cbn [fst snd].
  set (result := fst (Net.run (VeoVideoService.query_video veo_service task_id) net)) in *.
  unfold if_success. rewrite Hb. cbn [Py.truthy].
  destruct b; eexists _, _, msg; (split; [reflexivity|]); (split; [reflexivity|]);
    (split; [reflexivity|]); unfold get_or; rewrite Hmsg; repeat split; discriminate.
Qed.


(** X23.  [POST /api/veo_video], for an answer of the provider that carries
    a task id that is a text: the reply names that task id, and one record
    is appended to the history with the task id as its response and, in its
    metadata, [has_images] set exactly when images went to the provider.
    For an answer without a task id the reply is a failure with a text as
    message and the history is left as it was. *)
Theorem veo_endpoint_records_the_task (veo_service : VeoVideoService.t) (key : string)
    (request : VideoRouter.VeoVideoGenerationRequest) (now : Z) (db : History.Db)
    (net : Transport) (r : Response) :
  configured (VeoVideoService.api_key veo_service) = Some key ->
  (forall req, net req = Responded r) ->
  let '(reply, db') :=
    result_of (Net.run (VideoEndpoints.generate_veo_video add_history_other veo_service
                          request now db) net) in
  match task_of r with
  | Some (VStr task) =>
      exists body status,
        reply = History.Body body /\
        body !! "success" = Some (VBool true) /\
        body !! "task_id" = Some (VStr task) /\
        body !! "status" = Some status /\
        db' = fst (History.add_history db now "video" (VideoRouter.prompt request) task
                     (Some (veo_history_metadata request (VStr task) status)))
  | Some _ => True
  | None =>
      exists body msg,
        reply = History.Body body /\
        body !! "success" = Some (VBool false) /\
        body !! "message" = Some (VStr msg) /\
        db' = db
  end.
Proof.
  intros Hkey Hnet.
  unfold VideoEndpoints.generate_veo_video. rewrite run_bind_ret.
  unfold result_of. cbn [fst].
  unfold VideoRouter.create_call, VeoVideoService.create_video.
  rewrite Hkey, run_send, Hnet. cbn [fst response_of bind_exn].
  rewrite has_images_forwarded.
  destruct (task_of r) as [task|] eqn:Htask.
  - destruct (veo_create_ok (VideoRouter.prompt request)
                (VeoVideoService.use_model veo_service (VideoRouter.model request))
                (VeoVideoService.valid_aspect_ratio (VideoRouter.aspect_ratio request))
                (VideoRouter.enhance_prompt request) r task Htask) as (status & md & ->).
    destruct task as [| | | |task| |]; try (now destruct (if_success _ _ _ _)).
    unfold if_success, get_or.
    change (dict _ !! "success") with (Some (VBool true)).
    change (dict _ !! "task_id") with (Some (VStr task)).
    change (dict _ !! "status") with (Some status).
    cbn [Py.truthy add_history_value].
    fold (veo_history_metadata request (VStr task) status).
    destruct (History.add_history db now "video" _ task _) as [db' record_id] eqn:Hadd.
    eexists _, status. repeat split. now rewrite Hadd.
  - destruct (veo_create_failed (VideoRouter.prompt request)
                (VeoVideoService.use_model veo_service (VideoRouter.model request))
                (VeoVideoService.valid_aspect_ratio (VideoRouter.aspect_ratio request))
                (VideoRouter.enhance_prompt request) r Htask) as (msg & Hs & Hm).
    cbv zeta in Hs, Hm. unfold if_success, get_or.
    rewrite Hs, Hm. cbn [Py.truthy]. eexists _, msg. repeat split.
Qed.

(** X24.  Whenever [POST /api/text_chat] answers with success=false, nothing
    was recorded in the history; and for a service other than "chat" and
    "mimo-chat" no request was sent and the message names the service. *)
Theorem text_chat_failure_records_nothing
    (chat_service : ChatService.t) (mimo_chat_service : MimoChatService.t)
    (request : ChatRouter.ChatRequest) (now : Z) (db : History.Db) (net : Transport)
    (body : gmap string pyval) :
  let run := Net.run (ChatRouter.text_chat add_history_other chat_service
                        mimo_chat_service request now db) net in
  fst (result_of run) = History.Body body ->
  body !! "success" = Some (VBool false) ->
  snd (result_of run) = db /\
  (ChatRouter.service request <> "chat" -> ChatRouter.service request <> "mimo-chat" ->
   requests_of run = [] /\
   body !! "message"
   = Some (VStr ("Unsupported chat service: " +:+ ChatRouter.service request))).
Proof.
  cbv zeta. unfold ChatRouter.text_chat.
  destruct (String.eqb_spec (ChatRouter.service request) "mimo-chat") as [Hm|Hm].
  - rewrite run_bind_ret. unfold result_of. cbn [fst snd].
    intros Hbody Hs. split; [|contradiction].
    destruct (perform_flag (MimoChatCompletion mimo_chat_service
                              (VList (List.map VDict (ChatRouter.messages request)))
                              (ChatRouter.model request)) net) as (b & Hb & _).
    eapply record_chat_failure; eassumption.
  - destruct (String.eqb_spec (ChatRouter.service request) "chat") as [Hc|Hc].
    + rewrite run_bind_ret. unfold result_of. cbn [fst snd].
      intros Hbody Hs. split; [|contradiction].
      destruct (perform_flag (ChatCompletion chat_service
                                (VList (List.map VDict (ChatRouter.messages request)))
                                (ChatRouter.model request)) net) as (b & Hb & _).
      eapply record_chat_failure; eassumption.
    + unfold result_of, requests_of, Net.run, Net.ret. cbn [fst snd].
      intros [= <-] _. split; [reflexivity|]. intros _ _. split; reflexivity.
Qed.


End EndpointFacts.


(* ===================================================================== *)
(** * The properties on concrete inputs *)
(* ===================================================================== *)

#[local] Existing Instance Reference.builtins.


(** C4, as stated, fails: "2:0" and "1:2:3" are not of the form W:H, and
    the parser does not fall back to 1:1 on them; it reads 2:1 and 1:2. *)
Lemma malformed_ratio_without_fallback :
  (proper_ratio "2:0" = None /\
   DoubaoImageService._parse_ratio "2:0" = (2, 1) /\
   DoubaoImageService._build_size "2:0" "1K" = "1024x512") /\
  (proper_ratio "1:2:3" = None /\
   DoubaoImageService._parse_ratio "1:2:3" = (1, 2) /\
   DoubaoImageService._build_size "1:2:3" "1K" = "512x1024") /\
  DoubaoImageService._build_size "1:1" "1K" = "1024x1024".
Proof. repeat split; reflexivity. Qed.



(** C5 on a response with HTTP status 200 and the status string "failed". *)
Lemma failed_status_is_failure_witness :
  let r := mkResponse 200 ""
             (inr (VDict [("id", VStr "task-1"); ("status", VStr "failed")])) in
  let net : Transport := fun _ => Responded r in
  result_of (Net.run (SoraVideoService.query_video
                        (SoraVideoService.init (Some "sk-key") "https://yunwu.ai" "sora-2")
                        "task-1") net) !! "success" = Some (VBool false) /\
  result_of (Net.run (VeoVideoService.query_video
                        (VeoVideoService.init (Some "sk-key") "https://yunwu.ai" "veo3-fast")
                        "task-1") net) !! "success" = Some (VBool false).
Proof.
  cbv zeta.
  apply (failed_status_is_failure
           (SoraVideoService.init (Some "sk-key") "https://yunwu.ai" "sora-2")
           (VeoVideoService.init (Some "sk-key") "https://yunwu.ai" "veo3-fast")
           "task-1"
           (mkResponse 200 ""
              (inr (VDict [("id", VStr "task-1"); ("status", VStr "failed")])))
           [("id", VStr "task-1"); ("status", VStr "failed")]);
    reflexivity.
Defined.

(** C6 on the Gemini adapter constructed without a key. *)
Lemma unconfigured_makes_no_request_witness :
  let c := GeminiGenerate
             (GeminiImageService.init None "https://yunwu.ai" "gemini-2.5-flash-image" None)
             "a red cat" "16:9" "1K" None in
  let net : Transport := fun _ => Raised (Exn OtherException "no network") in
  configured (credential c) = None /\
  result_of (Net.run (perform c) net) !! "success" = Some (VBool false) /\
  requests_of (Net.run (perform c) net) = [].
Proof.
  cbv zeta. split; [reflexivity|].
  apply (unconfigured_makes_no_request
           (GeminiGenerate
              (GeminiImageService.init None "https://yunwu.ai" "gemini-2.5-flash-image" None)
              "a red cat" "16:9" "1K" None)).
  reflexivity.
Defined.

(** C7 on five images for veo2-fast-frames, which takes two. *)
Lemma veo_reference_images_witness :
  let veo := VeoVideoService.init (Some "sk-key") "https://yunwu.ai" "veo3-fast" in
  let request :=
    {| VideoRouter.prompt := "a red cat";
       VideoRouter.model := Some "veo2-fast-frames";
       VideoRouter.aspect_ratio := Some "16:9";
       VideoRouter.enhance_prompt := Some true;
       VideoRouter.upsample := Some true;
       VideoRouter.image_data := None;
       VideoRouter.images := Some ["img1"; "img2"; "img3"; "img4"; "img5"] |} in
  let net : Transport := fun _ => Raised (Exn OtherException "no network") in
  exists req,
    requests_of (Net.run (VideoRouter.create_call veo request) net) = [req] /\
    payload_field "images" req = Some (str_list ["img1"; "img2"]).
Proof.
  cbv zeta.
  destruct (veo_reference_images
              (VeoVideoService.init (Some "sk-key") "https://yunwu.ai" "veo3-fast")
              "sk-key"
              {| VideoRouter.prompt := "a red cat";
                 VideoRouter.model := Some "veo2-fast-frames";
                 VideoRouter.aspect_ratio := Some "16:9";
                 VideoRouter.enhance_prompt := Some true;
                 VideoRouter.upsample := Some true;
                 VideoRouter.image_data := None;
                 VideoRouter.images := Some ["img1"; "img2"; "img3"; "img4"; "img5"] |}
              (fun _ => Raised (Exn OtherException "no network"))
              eq_refl) as (req & Hreq & Hallowed).
  exists req. split; [exact Hreq|].
  destruct (Hallowed ["img1"; "img2"; "img3"; "img4"; "img5"] eq_refl) as [_ Hfield];
    [discriminate|exact Hfield].
Defined.

(** C8 on orientation "sideways", duration 20 and aspect ratio "4:3". *)
Lemma create_video_coerces_options_witness :
  let sora := SoraVideoService.init (Some "sk-key") "https://yunwu.ai" "sora-2" in
  let veo := VeoVideoService.init (Some "sk-key") "https://yunwu.ai" "veo3-fast" in
  let net : Transport := fun _ => Raised (Exn OtherException "no network") in
  (exists req,
      requests_of (Net.run (SoraVideoService.create_video sora "a red cat"
                              (Some "sideways") (Some 20) false true None) net) = [req] /\
      payload_field "orientation" req = Some (VStr "landscape") /\
      payload_field "duration" req = Some (VInt 15)) /\
  (exists req,
      requests_of (Net.run (VeoVideoService.create_video veo "a red cat" None
                              (Some "4:3") (Some true) (Some true) None) net) = [req] /\
      payload_field "aspect_ratio" req = Some (VStr "16:9")).
Proof.
  cbv zeta.
  destruct (create_video_coerces_options
              (SoraVideoService.init (Some "sk-key") "https://yunwu.ai" "sora-2")
              (VeoVideoService.init (Some "sk-key") "https://yunwu.ai" "veo3-fast")
              "sk-key" "sk-key" "a red cat" (Some "sideways") (Some 20) false true None
              None (Some "4:3") (Some true) (Some true)
              (fun _ => Raised (Exn OtherException "no network")) eq_refl eq_refl)
    as [(req & o & d & Hreq & Ho & Hd & Hin & Horient & Hind & Hdur)
        (req' & a & Hreq' & Ha & Hina & Haspect)].
  split.
  - exists req. split; [exact Hreq|].
    destruct Horient as [Heq | (_ & _ & ->)];
      [injection Heq as <-; destruct Hin; discriminate | ].
    destruct Hdur as [Heq | (_ & _ & ->)];
      [injection Heq as <-; destruct Hind; discriminate | ].
    now split.
  - exists req'. split; [exact Hreq'|].
    destruct Haspect as [Heq | (_ & _ & ->)];
      [injection Heq as <-; destruct Hina; discriminate | exact Ha].
Defined.


(** X2 on a finished Sora task: the result is a success, and the one
    request was answered with a 200. *)
Lemma success_only_on_200_witness :
  let c := SoraQuery (SoraVideoService.init (Some "sk-key") "https://yunwu.ai" "sora-2")
             "task-1" in
  let net : Transport := fun _ =>
    Responded (mkResponse 200 ""
                 (inr (VDict [("status", VStr "completed");
                              ("video_url", VStr "https://v/1.mp4")]))) in
  result_of (Net.run (perform c) net) !! "success" = Some (VBool true) /\
  exists req r v,
    requests_of (Net.run (perform c) net) = [req] /\
    net req = Responded r /\ status_code r = 200 /\ json r = inr v.
Proof.
  cbv zeta. split; [reflexivity|].
  apply (success_only_on_200
           (SoraQuery (SoraVideoService.init (Some "sk-key") "https://yunwu.ai" "sora-2")
              "task-1")
           (fun _ => Responded (mkResponse 200 ""
                                  (inr (VDict [("status", VStr "completed");
                                               ("video_url", VStr "https://v/1.mp4")]))))).
  reflexivity.
Defined.


(** X5 on a PNG data URL with a space at its end. *)
Lemma gemini_reference_data_url_witness :
  GeminiImageService._split_reference_image "data:image/png;base64,iVBORw0KGgo= "
  = inr ("image/png", "iVBORw0KGgo=").
Proof.
  exact (gemini_reference_data_url "image/png" "base64" "iVBORw0KGgo= "
           eq_refl eq_refl eq_refl eq_refl).
Defined.

(** X6 on a key that starts with sk-: with no mode asked for, and with the
    mode " X-Goog ". *)
Lemma gemini_credential_header_witness :
  let net : Transport := fun _ => Raised (Exn OtherException "no network") in
  (exists req,
      requests_of (Net.run (GeminiImageService.generate_image
                              (GeminiImageService.init (Some "sk-abc") "https://yunwu.ai"
                                 "gemini-2.5-flash-image" None)
                              "a red cat" "1:1" "1K" None) net) = [req] /\
      req_headers req = [("Content-Type", "application/json");
                         ("Authorization", "Bearer sk-abc")]) /\
  (exists req,
      requests_of (Net.run (GeminiImageService.generate_image
                              (GeminiImageService.init (Some "sk-abc") "https://yunwu.ai"
                                 "gemini-2.5-flash-image" (Some " X-Goog "))
                              "a red cat" "1:1" "1K" None) net) = [req] /\
      req_headers req = [("Content-Type", "application/json");
                         ("x-goog-api-key", "sk-abc")]).
Proof.
  cbv zeta. split.
  - destruct (gemini_credential_header (Some "sk-abc") "https://yunwu.ai"
                "gemini-2.5-flash-image" None "a red cat" "1:1" "1K" None
                (fun _ => Raised (Exn OtherException "no network")) "sk-abc" eq_refl)
      as (_ & req & Hreq & _ & Hheaders).
    exists req. split; [exact Hreq|exact Hheaders].
  - destruct (gemini_credential_header (Some "sk-abc") "https://yunwu.ai"
                "gemini-2.5-flash-image" (Some " X-Goog ") "a red cat" "1:1" "1K" None
                (fun _ => Raised (Exn OtherException "no network")) "sk-abc" eq_refl)
      as (_ & req & Hreq & _ & Hheaders).
    exists req. split; [exact Hreq|exact Hheaders].
Defined.

(** X7 on a list of three references: an empty one, a bare base64 text
    with blanks around it and a JPEG data URL. *)
Lemma doubao_reference_images_are_data_urls_witness :
  let net : Transport := fun _ => Raised (Exn OtherException "no network") in
  exists req,
    requests_of (Net.run (DoubaoImageService.generate_image
                            (DoubaoImageService.init (Some "sk-key") "https://yunwu.ai"
                               "doubao-seedream-4-0-250828")
                            "a red cat" "1:1" "1K"
                            (Some (inr [""; " aGVsbG8= "; "data:image/jpeg;base64,/9j/4A"]))
                            "b64_json" "disabled" 1 false None) net) = [req] /\
    images_sent req = ["data:image/png;base64,aGVsbG8="; "data:image/jpeg;base64,/9j/4A"].
Proof.
  cbv zeta.
  destruct (doubao_reference_images_are_data_urls
              (DoubaoImageService.init (Some "sk-key") "https://yunwu.ai"
                 "doubao-seedream-4-0-250828")
              "a red cat" "1:1" "1K"
              (Some (inr [""; " aGVsbG8= "; "data:image/jpeg;base64,/9j/4A"]))
              "b64_json" "disabled" 1 false None
              (fun _ => Raised (Exn OtherException "no network")) "sk-key" eq_refl)
    as (req & Hreq & Himages & _).
  exists req. split; [exact Hreq|exact Himages].
Defined.

(** X8 on the mode "auto" with 50 images asked for and no size given. *)
Lemma doubao_payload_options_witness :
  let net : Transport := fun _ => Raised (Exn OtherException "no network") in
  exists req,
    requests_of (Net.run (DoubaoImageService.generate_image
                            (DoubaoImageService.init (Some "sk-key") "https://yunwu.ai"
                               "doubao-seedream-4-0-250828")
                            "a red cat" "16:9" "2K" None "b64_json" "auto" 50 false None)
                   net) = [req] /\
    payload_field "size" req = Some (VStr "2048x1152") /\
    payload_field "sequential_image_generation_options" req
    = Some (VDict [("max_images", VInt 15)]).
Proof.
  cbv zeta.
  destruct (doubao_payload_options
              (DoubaoImageService.init (Some "sk-key") "https://yunwu.ai"
                 "doubao-seedream-4-0-250828")
              "a red cat" "16:9" "2K" None "b64_json" "auto" 50 false None
              (fun _ => Raised (Exn OtherException "no network")) "sk-key" eq_refl)
    as (req & Hreq & Hsize & n & Hoptions & _ & _ & _ & Hmax).
  exists req. split; [exact Hreq|]. split; [exact Hsize|].
  rewrite Hoptions, (Hmax eq_refl). reflexivity.
Defined.


(** X10 on a finished task with its video, answered to both providers. *)
Lemma query_video_reports_status_witness :
  let r := mkResponse 200 ""
             (inr (VDict [("status", VStr "completed");
                          ("video_url", VStr "https://v/1.mp4")])) in
  let net : Transport := fun _ => Responded r in
  let sora :=
    result_of (Net.run (SoraVideoService.query_video
                          (SoraVideoService.init (Some "sk-key") "https://yunwu.ai" "sora-2")
                          "task-1") net) in
  let veo :=
    result_of (Net.run (VeoVideoService.query_video
                          (VeoVideoService.init (Some "sk-key") "https://yunwu.ai" "veo3-fast")
                          "task-1") net) in
  (sora !! "success" = Some (VBool true) /\
   sora !! "video_url" = Some (VStr "https://v/1.mp4")) /\
  (veo !! "success" = Some (VBool true) /\
   veo !! "video_url" = Some (VStr "https://v/1.mp4")).
Proof.
  cbv zeta.
  destruct (query_video_reports_status
              (SoraVideoService.init (Some "sk-key") "https://yunwu.ai" "sora-2")
              (VeoVideoService.init (Some "sk-key") "https://yunwu.ai" "veo3-fast")
              "sk-key" "sk-key" "task-1"
              (fun _ => Responded
                          (mkResponse 200 ""
                             (inr (VDict [("status", VStr "completed");
                                          ("video_url", VStr "https://v/1.mp4")]))))
              (mkResponse 200 ""
                 (inr (VDict [("status", VStr "completed");
                              ("video_url", VStr "https://v/1.mp4")])))
              [("status", VStr "completed"); ("video_url", VStr "https://v/1.mp4")]
              eq_refl eq_refl (fun _ => eq_refl) eq_refl eq_refl)
    as [(Hs & _ & _ & _ & Hu) (Hs' & _ & _ & _ & Hu')].
  split; split; assumption.
Defined.

(** X11 on an answer with the task id "task-9", given to both
    providers. *)
Lemma create_video_returns_provider_task_witness :
  let r := mkResponse 200 ""
             (inr (VDict [("id", VStr "task-9"); ("status", VStr "queued")])) in
  let net : Transport := fun _ => Responded r in
  let sora :=
    result_of (Net.run (SoraVideoService.create_video
                          (SoraVideoService.init (Some "sk-key") "https://yunwu.ai" "sora-2")
                          "a red cat" (Some "portrait") (Some 25) false true None) net) in
  let veo :=
    result_of (Net.run (VeoVideoService.create_video
                          (VeoVideoService.init (Some "sk-key") "https://yunwu.ai" "veo3-fast")
                          "a red cat" None (Some "16:9") (Some true) (Some true) None)
                 net) in
  (sora !! "success" = Some (VBool true) /\ sora !! "task_id" = Some (VStr "task-9")) /\
  (veo !! "success" = Some (VBool true) /\ veo !! "task_id" = Some (VStr "task-9")).
Proof.
  cbv zeta.
  exact (create_video_returns_provider_task
           (SoraVideoService.init (Some "sk-key") "https://yunwu.ai" "sora-2")
           (VeoVideoService.init (Some "sk-key") "https://yunwu.ai" "veo3-fast")
           "sk-key" "sk-key" "a red cat" (Some "portrait") (Some 25) false true
           None (Some "16:9") (Some true) (Some true) None
           (fun _ => Responded
                       (mkResponse 200 ""
                          (inr (VDict [("id", VStr "task-9"); ("status", VStr "queued")]))))
           (mkResponse 200 ""
              (inr (VDict [("id", VStr "task-9"); ("status", VStr "queued")])))
           eq_refl eq_refl (fun _ => eq_refl)).
Defined.

(** X12 on an answer with two texts around a part without text. *)
Lemma analysis_is_the_joined_text_witness :
  let parts := [VDict [("text", VStr "A cat ")];
                VDict [("inline_data", VDict [])];
                VDict [("text", VStr "jumps.")]] in
  let body := VDict [("candidates",
                      VList [VDict [("content", VDict [("role", VStr "model");
                                                       ("parts", VList parts)])]])] in
  let net : Transport := fun _ => Responded (mkResponse 200 "" (inr body)) in
  let service := VideoAnalysisService.init (Some "sk-key") "https://yunwu.ai"
                   "gemini-2.5-pro" in
  let fs : FileSystem := fun _ => Some {| st_size := 3; contents := inr "abc" |} in
  result_of (Net.run (VideoAnalysisService.analyze_video service fs "clip.mp4"
                        "what is it" None) net) !! "analysis"
  = Some (VStr "A cat jumps.") /\
  result_of (Net.run (VideoAnalysisService.analyze_video_from_base64 service "YWJj"
                        "what is it" None) net) !! "analysis"
  = Some (VStr "A cat jumps.").
Proof.
  cbv zeta.
  destruct (analysis_is_the_joined_text
              (VideoAnalysisService.init (Some "sk-key") "https://yunwu.ai" "gemini-2.5-pro")
              (fun _ => Some {| st_size := 3; contents := inr "abc" |})
              "clip.mp4" "YWJj" "what is it" None "sk-key"
              {| st_size := 3; contents := inr "abc" |} "abc"
              (fun _ =>
                 Responded
                   (mkResponse 200 ""
                      (inr (VDict [("candidates",
                                    VList [VDict [("content",
                                                   VDict [("role", VStr "model");
                                                          ("parts",
                                                           VList [VDict [("text", VStr "A cat ")];
                                                                  VDict [("inline_data", VDict [])];
                                                                  VDict [("text", VStr "jumps.")]])])]])]))))
              (mkResponse 200 ""
                 (inr (VDict [("candidates",
                               VList [VDict [("content",
                                              VDict [("role", VStr "model");
                                                     ("parts",
                                                      VList [VDict [("text", VStr "A cat ")];
                                                             VDict [("inline_data", VDict [])];
                                                             VDict [("text", VStr "jumps.")]])])]])])))
              (VDict [("candidates",
                       VList [VDict [("content",
                                      VDict [("role", VStr "model");
                                             ("parts",
                                              VList [VDict [("text", VStr "A cat ")];
                                                     VDict [("inline_data", VDict [])];
                                                     VDict [("text", VStr "jumps.")]])])]])])
              [VDict [("text", VStr "A cat ")];
               VDict [("inline_data", VDict [])];
               VDict [("text", VStr "jumps.")]]
              eq_refl eq_refl)
    as [[_ Hfile] [_ Hbase64]].
  - vm_compute. discriminate.
  - reflexivity.
  - intros req. reflexivity.
  - reflexivity.
  - reflexivity.
  - eexists _, _, _, _. repeat split.
  - repeat constructor.
    + eexists. split; [reflexivity|]. right. eexists. reflexivity.
    + eexists. split; [reflexivity|]. left. reflexivity.
    + eexists. split; [reflexivity|]. right. eexists. reflexivity.
  - split; assumption.
Defined.

(** X15 on a store with one record, and an append one second later. *)
Lemma add_history_is_listed_first_witness :
  let db := append_all History.empty [mkEntry 100 "chat" "first" "one" None] in
  let '(db', record_id) := History.add_history db 101 "image" "a red cat" "base64_image"
                             None in
  record_id = 2 /\
  History.get_history db' 1 0
  = inr [History.mkRecord 2 "image" "a red cat" "base64_image" (VDict []) 101].
Proof.
  cbv zeta.
  apply (add_history_is_listed_first
           (append_all History.empty [mkEntry 100 "chat" "first" "one" None])
           101 "image" "a red cat" "base64_image" None (VDict [])).
  - repeat constructor.
  - discriminate.
  - reflexivity.
Defined.


(** X17 on a store of two records. *)
Lemma history_endpoint_lists_the_newest_50_witness :
  let db := append_all History.empty
              [mkEntry 100 "chat" "first" "one" None;
               mkEntry 101 "image" "second" "two" None] in
  exists everything,
    HistoryRouter.get_history db = HistoryRouter.Listing true everything /\
    List.map History.rec_id everything = [2; 1] /\
    HistoryRouter.get_history (snd (HistoryRouter.clear_history db))
    = HistoryRouter.Listing true [].
Proof.
  cbv zeta.
  destruct (history_endpoint_lists_the_newest_50
              (append_all History.empty
                 [mkEntry 100 "chat" "first" "one" None;
                  mkEntry 101 "image" "second" "two" None]))
    as (everything & Hall & _ & Hlist & Hclear).
  - simpl. constructor; [right; eexists; reflexivity|].
    constructor; [right; eexists; reflexivity|]. constructor.
  - exists (take 50 everything). split; [exact Hlist|]. split; [|exact Hclear].
    injection Hall as <-. reflexivity.
Defined.

(** X19 on the two origins of a development setup. *)
Lemma allowed_origins_round_trip_witness :
  Config.get_allowed_origins "http://localhost:3000,http://localhost:5173"
  = ["http://localhost:3000"; "http://localhost:5173"].
Proof.
  apply (allowed_origins_round_trip ["http://localhost:3000"; "http://localhost:5173"]).
  repeat constructor; discriminate.
Defined.

(** X23 on a request with two images for veo2-fast-frames and an answer
    with the task id "task-9". *)
Lemma veo_endpoint_records_the_task_witness :
  let other : History.Db -> Z -> string -> string -> pyval -> option pyval
              -> (exn + Z) * History.Db :=
    fun db _ _ _ _ _ => (inl (Exn OtherException "type not supported"), db) in
  let request :=
    {| VideoRouter.prompt := "a red cat";
       VideoRouter.model := Some "veo2-fast-frames";
       VideoRouter.aspect_ratio := Some "16:9";
       VideoRouter.enhance_prompt := Some true;
       VideoRouter.upsample := Some true;
       VideoRouter.image_data := None;
       VideoRouter.images := Some ["img1"; "img2"] |} in
  let net : Transport := fun _ =>
    Responded (mkResponse 200 ""
                 (inr (VDict [("id", VStr "task-9"); ("status", VStr "queued")]))) in
  let '(reply, db') :=
    result_of (Net.run (VideoEndpoints.generate_veo_video other
                          (VeoVideoService.init (Some "sk-key") "https://yunwu.ai" "veo3-fast")
                          request 100 History.empty) net) in
  exists body status,
    reply = History.Body body /\
    body !! "success" = Some (VBool true) /\
    body !! "task_id" = Some (VStr "task-9") /\
    body !! "status" = Some status /\
    db' = fst (History.add_history History.empty 100 "video" "a red cat" "task-9"
                 (Some (veo_history_metadata request (VStr "task-9") status))).
Proof.
  cbv zeta.
  exact (veo_endpoint_records_the_task
           (fun db _ _ _ _ _ => (inl (Exn OtherException "type not supported"), db))
           (VeoVideoService.init (Some "sk-key") "https://yunwu.ai" "veo3-fast")
           "sk-key"
           {| VideoRouter.prompt := "a red cat";
              VideoRouter.model := Some "veo2-fast-frames";
              VideoRouter.aspect_ratio := Some "16:9";
              VideoRouter.enhance_prompt := Some true;
              VideoRouter.upsample := Some true;
              VideoRouter.image_data := None;
              VideoRouter.images := Some ["img1"; "img2"] |}
           100 History.empty
           (fun _ => Responded
                       (mkResponse 200 ""
                          (inr (VDict [("id", VStr "task-9");
                                       ("status", VStr "queued")]))))
           (mkResponse 200 ""
              (inr (VDict [("id", VStr "task-9"); ("status", VStr "queued")])))
           eq_refl (fun _ => eq_refl)).
Defined.

(** X24 on a request for a service that is not there. *)
Lemma text_chat_failure_records_nothing_witness :
  let other : History.Db -> Z -> string -> string -> pyval -> option pyval
              -> (exn + Z) * History.Db :=
    fun db _ _ _ _ _ => (inl (Exn OtherException "type not supported"), db) in
  let db := append_all History.empty [mkEntry 100 "chat" "first" "one" None] in
  let run :=
    Net.run (ChatRouter.text_chat other
               (ChatService.init (Some "sk-key") "https://yunwu.ai/v1" "gpt")
               (MimoChatService.init (Some "sk-key") "https://api.xiaomimimo.com/v1"
                  "mimo-v2-flash" S754_nan S754_nan 1024)
               {| ChatRouter.messages := [[("role", VStr "user"); ("content", VStr "hi")]];
                  ChatRouter.service := "claude";
                  ChatRouter.model := None |}
               101 db)
            (fun _ => Raised (Exn OtherException "no network")) in
  snd (result_of run) = db /\ requests_of run = [].
Proof.
  cbv zeta.
  destruct (text_chat_failure_records_nothing
              (fun db _ _ _ _ _ => (inl (Exn OtherException "type not supported"), db))
              (ChatService.init (Some "sk-key") "https://yunwu.ai/v1" "gpt")
              (MimoChatService.init (Some "sk-key") "https://api.xiaomimimo.com/v1"
                 "mimo-v2-flash" S754_nan S754_nan 1024)
              {| ChatRouter.messages := [[("role", VStr "user"); ("content", VStr "hi")]];
                 ChatRouter.service := "claude";
                 ChatRouter.model := None |}
              101
              (append_all History.empty [mkEntry 100 "chat" "first" "one" None])
              (fun _ => Raised (Exn OtherException "no network"))
              (dict [("success", VBool false);
                     ("message", VStr "Unsupported chat service: claude")])
              eq_refl eq_refl) as [Hdb Hservice].
  split; [exact Hdb|].
  destruct Hservice as [Hsent _]; [discriminate|discriminate|exact Hsent].
Defined.

